(** * Tower AI front-end (Postman_ST_v1.py): result recorder, annotator
      and per-image orchestration

    A shallow embedding of [src/Postman_ST_v1.py].  Python [str] values are
    represented by their UTF-8 encoding (a Rocq [string] is a sequence of
    bytes), Python [int] by [Z] (or [nat] for a [len]), Python [float] by
    the primitive binary64 [float].  Calls into external libraries
    (requests, cv2, the file system) take their outcome from an explicit
    environment [env]; effects are threaded through a state-and-exception
    monad over a [world] holding the CSV file and the trace of effects.

    The JSON body of a response has the shape the API documents: text is
    a string, a detection has a string [class_name], a [bbox] of ints and
    a float [confidence]; a key of the body may be absent and a [bbox] may
    have any length.  Of the files on disk only [results.csv] is kept as
    content; writing an upload or an annotated image is an event of the
    trace. *)

From Stdlib Require Import ZArith List String Ascii Bool Lia Floats DecimalString.
From Stdlib Require DecimalFacts DecimalNat.
Import ListNotations.

Set Warnings "-inexact-float".
Local Open Scope string_scope.

(* ================================================================= *)
(** ** Python strings *)

Module PyStr.

(** [str(n)] for a Python int. *)
Definition of_Z (z : Z) : string := NilZero.string_of_int (Z.to_int z).

(** [str(n)] for a length. *)
Definition of_nat (n : nat) : string := NilZero.string_of_uint (Nat.to_uint n).

(** [sep.join(l)]. *)
Definition join (sep : string) (l : list string) : string := String.concat sep l.

(** [s.count(c)] for a one-character [c]. *)
Fixpoint count (c : ascii) (s : string) : nat :=
  match s with
  | EmptyString => 0
  | String a r => (if Ascii.eqb a c then 1 else 0) + count c r
  end.

(** [s.split(c)] for a one-character separator [c]. *)
Fixpoint split (c : ascii) (s : string) : list string :=
  match s with
  | EmptyString => [EmptyString]
  | String a r =>
      if Ascii.eqb a c then EmptyString :: split c r
      else match split c r with
           | h :: t => String a h :: t
           | [] => [String a EmptyString]
           end
  end.

Fixpoint rev_onto (s acc : string) : string :=
  match s with
  | EmptyString => acc
  | String a r => rev_onto r (String a acc)
  end.

Definition rev (s : string) : string := rev_onto s EmptyString.

Fixpoint repeat_char (c : ascii) (n : nat) : string :=
  match n with
  | O => EmptyString
  | S k => String c (repeat_char c k)
  end.

(** [s.rjust(n, "0")]. *)
Definition rjust0 (n : nat) (s : string) : string :=
  repeat_char "0" (n - String.length s) ++ s.

(** *** Whitespace, as [str.strip()] sees it

    The code points for which [str.isspace] holds are U+0009..U+000D,
    U+001C..U+0020, U+0085, U+00A0, U+1680, U+2000..U+200A, U+2028, U+2029,
    U+202F, U+205F and U+3000.  In UTF-8 they take one, two or three
    bytes. *)

Definition byte_in (lo hi : N) (a : ascii) : bool :=
  (N.leb lo (N_of_ascii a) && N.leb (N_of_ascii a) hi)%bool.

Definition byte_is (b : N) (a : ascii) : bool := N.eqb (N_of_ascii a) b.

(** U+0009..U+000D and U+001C..U+0020. *)
Definition ws1 (a : ascii) : bool :=
  (byte_in 9 13 a || byte_in 28 32 a)%bool.

(** U+0085 (C2 85) and U+00A0 (C2 A0). *)
Definition ws2 (a b : ascii) : bool :=
  (byte_is 194 a && (byte_is 133 b || byte_is 160 b))%bool.

(** U+1680 (E1 9A 80), U+2000..U+200A (E2 80 80..8A), U+2028, U+2029
    (E2 80 A8, A9), U+202F (E2 80 AF), U+205F (E2 81 9F), U+3000 (E3 80 80). *)
Definition ws3 (a b c : ascii) : bool :=
  (byte_is 225 a && byte_is 154 b && byte_is 128 c
   || byte_is 226 a && byte_is 128 b
      && (byte_in 128 138 c || byte_in 168 169 c || byte_is 175 c)
   || byte_is 226 a && byte_is 129 b && byte_is 159 c
   || byte_is 227 a && byte_is 128 b && byte_is 128 c)%bool.

(** [s.lstrip()]. *)
Fixpoint lstrip (s : string) : string :=
  match s with
  | EmptyString => EmptyString
  | String a r =>
      if ws1 a then lstrip r
      else match r with
           | EmptyString => s
           | String b r2 =>
               if ws2 a b then lstrip r2
               else match r2 with
                    | EmptyString => s
                    | String c r3 => if ws3 a b c then lstrip r3 else s
                    end
           end
  end.

(** [lstrip] on the reversed byte sequence: the bytes of a character come
    last byte first. *)
Fixpoint lstrip_rev (s : string) : string :=
  match s with
  | EmptyString => EmptyString
  | String a r =>
      if ws1 a then lstrip_rev r
      else match r with
           | EmptyString => s
           | String b r2 =>
               if ws2 b a then lstrip_rev r2
               else match r2 with
                    | EmptyString => s
                    | String c r3 => if ws3 c b a then lstrip_rev r3 else s
                    end
           end
  end.

(** [s.rstrip()]. *)
Definition rstrip (s : string) : string := rev (lstrip_rev (rev s)).

(** [s.strip()]. *)
Definition strip (s : string) : string := rstrip (lstrip s).

(** The UTF-8 encodings of the whitespace characters, one by one. *)
Definition chr (n : N) : ascii := ascii_of_N n.
Definition enc1 (a : N) : string := String (chr a) EmptyString.
Definition enc2 (a b : N) : string := String (chr a) (enc1 b).
Definition enc3 (a b c : N) : string := String (chr a) (enc2 b c).

Definition whitespace_chars : list string :=
  [ enc1 9; enc1 10; enc1 11; enc1 12; enc1 13;
    enc1 28; enc1 29; enc1 30; enc1 31; enc1 32;
    enc2 194 133; enc2 194 160;
    enc3 225 154 128;
    enc3 226 128 128; enc3 226 128 129; enc3 226 128 130; enc3 226 128 131;
    enc3 226 128 132; enc3 226 128 133; enc3 226 128 134; enc3 226 128 135;
    enc3 226 128 136; enc3 226 128 137; enc3 226 128 138;
    enc3 226 128 168; enc3 226 128 169; enc3 226 128 175;
    enc3 226 129 159;
    enc3 227 128 128 ].

(** A string that consists only of whitespace characters. *)
Inductive whitespace_only : string -> Prop :=
| ws_nil : whitespace_only EmptyString
| ws_cons (c s : string) :
    In c whitespace_chars -> whitespace_only s -> whitespace_only (c ++ s).

(** Truthiness of a [str]: [if s:]. *)
Definition truthy (s : string) : bool :=
  match s with EmptyString => false | String _ _ => true end.

End PyStr.

(* ================================================================= *)
(** ** Python floats: fixed-point formatting *)

Module PyFloat.

(** [a / b] rounded to the nearest integer, ties to even ([b > 0]). *)
Definition round_half_even_div (a b : Z) : Z :=
  let q := (a / b)%Z in
  let r := (a mod b)%Z in
  match (2 * r ?= b)%Z with
  | Lt => q
  | Gt => (q + 1)%Z
  | Eq => if Z.even q then q else (q + 1)%Z
  end.

(** The integer nearest to [m * 2^e * 10^nd], ties to even. *)
Definition scaled (nd : nat) (m : positive) (e : Z) : Z :=
  let p := (Zpos m * 10 ^ Z.of_nat nd)%Z in
  if (0 <=? e)%Z then (p * 2 ^ e)%Z
  else round_half_even_div p (2 ^ (- e))%Z.

(** The digits of [n / 10^nd] with [nd] places after the point. *)
Definition digits (nd : nat) (n : Z) : string :=
  PyStr.of_Z (n / 10 ^ Z.of_nat nd)
  ++ (if Nat.eqb nd 0 then ""
      else "." ++ PyStr.rjust0 nd (PyStr.of_Z (n mod 10 ^ Z.of_nat nd))).

Definition sign (s : bool) : string := if s then "-" else "".

(** [format(x, ".<nd>f")]: the correctly rounded decimal expansion of the
    exact value of [x] with [nd] fractional digits. *)
Definition format_f (nd : nat) (x : float) : string :=
  match Prim2SF x with
  | S754_nan => "nan"
  | S754_infinity s => sign s ++ "inf"
  | S754_zero s => sign s ++ digits nd 0
  | S754_finite s m e => sign s ++ digits nd (scaled nd m e)
  end.

(** [float(n)] for an int in the range of an image dimension. *)
Definition of_Z (n : Z) : float := PrimFloat.of_uint63 (Uint63.of_Z n).

(** [max(a, b)] on floats: [b] only when [b > a]. *)
Definition max (a b : float) : float := if PrimFloat.ltb a b then b else a.

End PyFloat.

(* ================================================================= *)
(** ** Data model *)

(** One element of [antenna_detections]: a dict with the keys
    [class_name], [bbox] and [confidence]. *)
Record Detection := {
  class_name : string;
  bbox : list Z;
  confidence : float
}.

(** The JSON body of a successful response.  A key may be absent
    ([None]); the code reads both levels with [dict.get]. *)
Record TextDetections := { all_text : option string }.

Record Result := {
  text_detections : option TextDetections;
  antenna_detections : option (list Detection)
}.

(** A Python exception instance (an instance of [Exception]: a network
    failure, a malformed response, an I/O error, a [ValueError]); [str(e)]
    is [exn_msg]. *)
Record exn := { exn_class : string; exn_msg : string }.

(** What [requests.post] returns: the status code and what
    [response.json()] does when called. *)
Record Response := {
  status_code : Z;
  json : exn + Result
}.

(** An uploaded file: [file.name] and [file.getbuffer()]. *)
Record UploadedFile := {
  name : string;
  getbuffer : string
}.

(** The calls [cv2.rectangle] and [cv2.putText] made on an image; the
    font is always [FONT_HERSHEY_SIMPLEX], the line type of the text
    [LINE_AA].  Colours are (B, G, R). *)
Inductive draw_op :=
| rectangle (pt1 pt2 : Z * Z) (color : Z * Z * Z) (thickness : Z)
| putText (text : string) (org : Z * Z) (fontScale : float)
          (color : Z * Z * Z) (thickness : Z).

(** A decoded image: its shape and the drawing calls applied to it so
    far, oldest first. *)
Record Image := {
  height : Z;
  width : Z;
  drawn : list draw_op
}.

(** Outcomes of the external calls made while one image is processed. *)
Record env := {
  (* open(file_path, "wb") and f.write(file.getbuffer()) *)
  save_upload : option exn;
  (* open(file_path, "rb") *)
  open_upload : option exn;
  (* requests.post(API_URL, files=files) *)
  requests_post : exn + Response;
  (* open(CSV_FILE, "a", newline="") *)
  open_csv : option exn;
  (* cv2.imread(image_path): None when the file cannot be read *)
  imread : string -> option Image;
  (* cv2.getTextSize(label, FONT_HERSHEY_SIMPLEX, font_scale, thickness)[0] *)
  getTextSize : string -> float -> Z -> Z * Z;
  (* cv2.imwrite(annotated_path, annotated_img) *)
  imwrite : exn + bool;
  (* open(annotated_path, "rb") *)
  open_annotated : option exn
}.

(** The effects of the program, in the order they happen. *)
Inductive event :=
| makedirs (path : string)
| csv_header_written (data : string)          (* lines 24-25 *)
| csv_row_appended (data : string)            (* f.write in save_results_to_csv *)
| upload_saved (path data : string)           (* lines 86-87 *)
| image_written (path : string) (img : Image) (* cv2.imwrite *)
| sleep (seconds : Z)
| st_title (s : string)
| st_write (s : string)
| st_subheader (s : string)
| st_dataframe (df : list Detection)
| st_columns (n : nat)
| st_image_file (path caption : string)
| st_image_array (img : Image) (caption : string)
| st_download_button (label path file_name : string)
| sidebar_header (s : string)
| sidebar_file_uploader (label : string)
| sidebar_write (s : string)
| sidebar_success (s : string)
| sidebar_error (s : string)
| sidebar_download_button (label path file_name : string).

(** The state the program acts on: the content of [results.csv] ([None]
    while the file does not exist) and the trace of effects so far. *)
Record world := {
  csv : option string;
  trace : list event
}.

(* ================================================================= *)
(** ** State and exception monad *)

Definition M (A : Type) : Type := world -> world * (exn + A).

Definition ret {A} (a : A) : M A := fun w => (w, inr a).

Definition raise {A} (e : exn) : M A := fun w => (w, inl e).

Definition bind {A B} (c : M A) (k : A -> M B) : M B :=
  fun w =>
    match c w with
    | (w', inl e) => (w', inl e)
    | (w', inr a) => k a w'
    end.

Notation "x <- c ;; k" := (bind c (fun x => k))
  (at level 61, c at next level, right associativity).
Notation "c ;; k" := (bind c (fun _ => k))
  (at level 61, right associativity).

(** [try: body / except Exception as e: handler(e)]. *)
Definition try_except (body : M unit) (handler : exn -> M unit) : M unit :=
  fun w =>
    match body w with
    | (w', inl e) => handler e w'
    | (w', inr tt) => (w', inr tt)
    end.

Definition emit (ev : event) : M unit :=
  fun w => ({| csv := csv w; trace := trace w ++ [ev] |}, inr tt).

(** An external call that either raises or returns nothing of interest. *)
Definition call (o : option exn) : M unit :=
  match o with
  | Some e => raise e
  | None => ret tt
  end.

(** An external call that either raises or returns a value. *)
Definition call_value {A} (o : exn + A) : M A :=
  match o with
  | inl e => raise e
  | inr a => ret a
  end.

(** [for x in l: body(x)]. *)
Fixpoint for_each {A} (l : list A) (body : A -> M unit) : M unit :=
  match l with
  | [] => ret tt
  | x :: r => body x ;; for_each r body
  end.

(** [d.get(key, default)] on a key that may be absent. *)
Definition dict_get {A} (v : option A) (default : A) : A :=
  match v with
  | Some a => a
  | None => default
  end.

(** Truthiness of a list: [if l:]. *)
Definition nonempty {A} (l : list A) : bool :=
  match l with [] => false | _ :: _ => true end.

(* ================================================================= *)
(** ** Paths and constants *)

Definition nl : string := String (ascii_of_N 10) EmptyString.

Definition ends_with_sep (p : string) : bool :=
  match PyStr.rev p with
  | String c _ => Ascii.eqb c "/"
  | EmptyString => false
  end.

(** [os.path.join(a, b)] (POSIX). *)
Definition path_join (a b : string) : string :=
  if String.prefix "/" b then b
  else if (negb (PyStr.truthy a) || ends_with_sep a)%bool then a ++ b
  else a ++ "/" ++ b.

Definition API_URL : string := "https://tower-ai.onrender.com/process-image".
Definition RESULTS_FOLDER : string := "API_results".
Definition ANNOTATED_FOLDER : string := "API_annotated".
Definition CSV_FILE : string := path_join RESULTS_FOLDER "results.csv".

Definition CSV_HEADER : string :=
  "Image Name,Extracted Text,Total Antennas,Class Name,Bounding Box (x1,y1,x2,y2),Confidence Score"
  ++ nl.

(** The content of [results.csv], empty while the file does not exist. *)
Definition csv_content (w : world) : string := dict_get (csv w) "".

(* ================================================================= *)
(** ** Start-up (lines 16-25) *)

(** [open(CSV_FILE, "w", newline="")] and [f.write(header)]. *)
Definition write_csv_header : M unit :=
  fun w => ({| csv := Some CSV_HEADER;
               trace := trace w ++ [csv_header_written CSV_HEADER] |}, inr tt).

Definition startup : M unit :=
  emit (makedirs RESULTS_FOLDER) ;;
  emit (makedirs ANNOTATED_FOLDER) ;;
  exists_csv <- (fun w => (w, inr (match csv w with Some _ => true | None => false end))) ;;
  if negb exists_csv then write_csv_header else ret tt.

(* ================================================================= *)
(** ** Result recorder: [save_results_to_csv] (lines 27-42) *)

(** [open(CSV_FILE, "a", newline="")]: the file is created when absent,
    its content is kept otherwise. *)
Definition open_csv_append (e : env) : M unit :=
  call (open_csv e) ;;
  fun w => ({| csv := Some (csv_content w); trace := trace w |}, inr tt).

(** [f.write(data)] on the file opened for appending. *)
Definition f_write (data : string) : M unit :=
  fun w => ({| csv := Some (csv_content w ++ data);
               trace := trace w ++ [csv_row_appended data] |}, inr tt).

(** [str(bbox)] for a list of ints. *)
Definition str_bbox (b : list Z) : string :=
  "[" ++ PyStr.join ", " (map PyStr.of_Z b) ++ "]".

Definition save_results_to_csv (e : env) (image_name extracted_text : string)
    (antenna_detections : list Detection) : M unit :=
  open_csv_append e ;;
  (if PyStr.truthy extracted_text
   then f_write (image_name ++ "," ++ extracted_text ++ ",,,, " ++ nl)
   else f_write (image_name ++ ",No text found,,,, " ++ nl)) ;;
  if nonempty antenna_detections
  then
    for_each antenna_detections (fun detection =>
      let class_name := class_name detection in
      let bbox := bbox detection in
      let confidence := PyFloat.format_f 2 (confidence detection) in
      f_write (image_name ++ ",," ++ PyStr.of_nat (List.length antenna_detections)
               ++ "," ++ class_name ++ "," ++ str_bbox bbox
               ++ "," ++ confidence ++ nl))
  else
    f_write (image_name ++ ",,0,No detection,N/A,N/A" ++ nl).

(* ================================================================= *)
(** ** Annotator: [draw_bounding_boxes] (lines 44-77) *)

(** [x1, y1, x2, y2 = bbox]. *)
Definition unpack4 (b : list Z) : exn + (Z * Z * Z * Z) :=
  match b with
  | [x1; y1; x2; y2] => inr (x1, y1, x2, y2)
  | _ =>
      if Nat.ltb (List.length b) 4
      then inl {| exn_class := "ValueError";
                  exn_msg := "not enough values to unpack (expected 4, got "
                             ++ PyStr.of_nat (List.length b) ++ ")" |}
      else inl {| exn_class := "ValueError";
                  exn_msg := "too many values to unpack (expected 4)" |}
  end.

(** [cv2.rectangle] and [cv2.putText] draw on the image in place.  The
    call is recorded with its arguments; cv2 itself takes coordinates that
    fit a C int and a thickness in its range (see [cv2_accepts]) and
    raises on others. *)
Definition draw (op : draw_op) (image : Image) : Image :=
  {| height := height image; width := width image;
     drawn := drawn image ++ [op] |}.

(** The body of the loop over the detections (lines 56-75). *)
Definition draw_detection (e : env) (box_thickness : Z) (font_scale : float)
    (text_thickness : Z) (image : Image) (detection : Detection)
  : exn + Image :=
  let bbox := bbox detection in
  let class_name := class_name detection in
  let confidence := confidence detection in
  match unpack4 bbox with
  | inl err => inl err
  | inr (x1, y1, x2, y2) =>
      let color := (0, 255, 0)%Z in
      let image := draw (rectangle (x1, y1) (x2, y2) color box_thickness) image in
      let label :=
        class_name ++ " (" ++ PyFloat.format_f 1 (confidence * 100)%float ++ "%)" in
      let '(text_width, text_height) :=
        getTextSize e label font_scale text_thickness in
      let text_x := x1 in
      let text_y := Z.max (y1 - 10) (text_height + 10) in
      let image :=
        draw (rectangle (text_x, text_y - text_height - 5)%Z
                        (text_x + text_width, text_y + 5)%Z (0, 0, 0)%Z (-1)) image in
      let image :=
        draw (putText label (text_x, text_y) font_scale (255, 255, 255)%Z
                      text_thickness) image in
      inr image
  end.

Fixpoint draw_detections (e : env) (box_thickness : Z) (font_scale : float)
    (text_thickness : Z) (image : Image) (antenna_detections : list Detection)
  : exn + Image :=
  match antenna_detections with
  | [] => inr image
  | detection :: rest =>
      match draw_detection e box_thickness font_scale text_thickness
                           image detection with
      | inl err => inl err
      | inr image' =>
          draw_detections e box_thickness font_scale text_thickness image' rest
      end
  end.

(** [None] stands for Python's [None]: no image could be loaded. *)
Definition draw_bounding_boxes (e : env) (image_path : string)
    (antenna_detections : list Detection) : exn + option Image :=
  match imread e image_path with
  | None => inr None
  | Some image =>
      let width := width image in
      let box_thickness := Z.max 3 (width / 300) in
      let font_scale := PyFloat.max 0.6 (PyFloat.of_Z width / 1200)%float in
      let text_thickness := Z.max 2 (width / 600) in
      match draw_detections e box_thickness font_scale text_thickness
                            image antenna_detections with
      | inl err => inl err
      | inr image' => inr (Some image')
      end
  end.

(* ================================================================= *)
(** ** Per-image processing: [process_image] (lines 79-135) *)

(** [open(path, "wb")] and [f.write(data)]: the file at [path] is
    replaced, also when it is [results.csv].  Paths are compared as
    written; a name ending in an image extension, the only kind the upload
    widgets let through, never leads to [results.csv]. *)
Definition write_upload (e : env) (path data : string) : M unit :=
  call (save_upload e) ;;
  fun w => ({| csv := if String.eqb path CSV_FILE then Some data else csv w;
               trace := trace w ++ [upload_saved path data] |}, inr tt).

(** [cv2.imwrite(path, img)]: raises, or reports whether it wrote. *)
Definition cv2_imwrite (e : env) (path : string) (img : Image) : M unit :=
  written <- call_value (imwrite e) ;;
  if written : bool then emit (image_written path img) else ret tt.

(** Lines 97-98. *)
Definition extracted_text_of (result : Result) : string :=
  PyStr.strip
    (dict_get (all_text (dict_get (text_detections result) {| all_text := None |})) "").

Definition antenna_detections_of (result : Result) : list Detection :=
  dict_get (antenna_detections result) [].

(** The body of the [try] (lines 84-132). *)
Definition process_image_body (e : env) (file : UploadedFile) : M unit :=
  let file_path := path_join RESULTS_FOLDER (name file) in
  write_upload e file_path (getbuffer file) ;;
  call (open_upload e) ;;
  response <- call_value (requests_post e) ;;
  if (status_code response =? 200)%Z then
    result <- call_value (json response) ;;
    let extracted_text := extracted_text_of result in
    let antenna_detections := antenna_detections_of result in
    save_results_to_csv e (name file) extracted_text antenna_detections ;;
    emit (sidebar_success ("✅ Processed: " ++ name file)) ;;
    emit (st_subheader "📝 Extracted Text") ;;
    emit (st_write (if PyStr.truthy extracted_text then extracted_text
                    else "No text found")) ;;
    if nonempty antenna_detections then
      emit (st_subheader "📡 Antenna Detections") ;;
      emit (st_dataframe antenna_detections) ;;
      annotated_img <- call_value (draw_bounding_boxes e file_path antenna_detections) ;;
      match annotated_img with
      | Some img =>
          let annotated_path := path_join ANNOTATED_FOLDER (name file) in
          cv2_imwrite e annotated_path img ;;
          emit (st_columns 2) ;;
          emit (st_image_file file_path "📷 Original Image") ;;
          emit (st_image_array img "🖍 Annotated Image") ;;
          call (open_annotated e) ;;
          emit (st_download_button "📥 Download Annotated Image" annotated_path
                                   ("annotated_" ++ name file))
      | None => ret tt
      end
    else ret tt
  else
    emit (sidebar_error ("❌ API Error: " ++ PyStr.of_Z (status_code response))).

Definition process_image (e : env) (file : UploadedFile) : M unit :=
  emit (sidebar_write ("🔄 Processing " ++ name file ++ "...")) ;;
  try_except (process_image_body e file)
    (fun err => emit (sidebar_error ("⚠️ Error processing image: " ++ exn_msg err))).

(* ================================================================= *)
(** ** The script (lines 137-159) *)

(** What the user has put into the two upload widgets for one run of the
    script, each file with the outcomes of the external calls made while
    it is processed. *)
Record uploads := {
  uploaded_file : option (UploadedFile * env);
  uploaded_files : list (UploadedFile * env)
}.

Definition main (u : uploads) : M unit :=
  startup ;;
  emit (st_title "📡 Tower - Antenna: AI Detection") ;;
  emit (st_write "Upload images for **text extraction & antenna detection**") ;;
  emit (sidebar_header "📂 File Upload") ;;
  emit (sidebar_file_uploader "Upload an Image") ;;
  match uploaded_file u with
  | Some (file, e) => process_image e file
  | None => ret tt
  end ;;
  emit (sidebar_file_uploader "Upload Multiple Images") ;;
  (if nonempty (uploaded_files u)
   then for_each (uploaded_files u) (fun '(file, e) =>
          process_image e file ;;
          emit (sleep 1))
   else ret tt) ;;
  exists_csv <- (fun w => (w, inr (match csv w with Some _ => true | None => false end))) ;;
  if exists_csv : bool
  then emit (sidebar_download_button "📥 Download CSV Results" CSV_FILE "results.csv")
  else ret tt.

(** Successive runs of the script against the same files. *)
Fixpoint runs (us : list uploads) (w : world) : world :=
  match us with
  | [] => w
  | u :: rest => runs rest (fst (main u w))
  end.

(* ================================================================= *)
(** ** Vocabulary of the properties *)

(** The world a computation leaves behind. *)
Definition after {A} (c : M A) (w : world) : world := fst (c w).

(** The rows of a trace: what was written to [results.csv] by the
    recorder, oldest first. *)
Definition rows_appended (t : list event) : list string :=
  flat_map (fun ev => match ev with csv_row_appended r => [r] | _ => [] end) t.

(** The "Processing <name>..." notices of a trace. *)
Definition notices (t : list event) : list string :=
  flat_map (fun ev => match ev with sidebar_write s => [s] | _ => [] end) t.

Definition is_header_write (ev : event) : bool :=
  match ev with csv_header_written _ => true | _ => false end.

(** How many times the header was written in a trace. *)
Definition header_writes (t : list event) : nat :=
  List.length (filter is_header_write t).

(** The events the body of [process_image] can cause. *)
Definition is_body_event (ev : event) : bool :=
  match ev with
  | upload_saved _ _ | csv_row_appended _ | image_written _ _
  | st_write _ | st_subheader _ | st_dataframe _ | st_columns _
  | st_image_file _ _ | st_image_array _ _ | st_download_button _ _ _
  | sidebar_success _ | sidebar_error _ => true
  | _ => false
  end.

(** [c] only adds events that satisfy [Q] to the trace, and never
    removes [results.csv]. *)
Definition emits (Q : event -> bool) {A} (c : M A) : Prop :=
  forall w, exists evs,
    trace (after c w) = (trace w ++ evs)%list
    /\ forallb Q evs = true
    /\ (csv w <> None -> csv (after c w) <> None).

(** [c] returns normally and adds exactly the notices [l]. *)
Definition notifies {A} (c : M A) (l : list string) : Prop :=
  forall w, exists w' a evs,
    c w = (w', inr a) /\ trace w' = (trace w ++ evs)%list /\ notices evs = l.

(** The comma-separated fields of a row: the line without its final
    newline, split at every comma. *)
Definition fields (line : string) : list string := PyStr.split "," line.

(** A chunk written to the CSV file is one line of six fields. *)
Definition six_field_row (chunk : string) : Prop :=
  exists line, chunk = line ++ nl
               /\ PyStr.count (ascii_of_N 10) line = 0
               /\ List.length (fields line) = 6.

(** The rows the recorder writes, one string per [f.write]. *)
Definition text_row (image_name extracted_text : string) : string :=
  if PyStr.truthy extracted_text
  then image_name ++ "," ++ extracted_text ++ ",,,, " ++ nl
  else image_name ++ ",No text found,,,, " ++ nl.

Definition detection_row (image_name : string) (total : nat) (d : Detection)
  : string :=
  image_name ++ ",," ++ PyStr.of_nat total ++ "," ++ class_name d ++ ","
  ++ str_bbox (bbox d) ++ "," ++ PyFloat.format_f 2 (confidence d) ++ nl.

Definition no_detection_row (image_name : string) : string :=
  image_name ++ ",,0,No detection,N/A,N/A" ++ nl.

Definition csv_rows (image_name extracted_text : string)
    (antenna_detections : list Detection) : list string :=
  text_row image_name extracted_text
  :: (if nonempty antenna_detections
      then map (detection_row image_name (List.length antenna_detections))
               antenna_detections
      else [no_detection_row image_name]).

(** The [all_text] field is absent or holds nothing but whitespace. *)
Definition blank_text (result : Result) : Prop :=
  match text_detections result with
  | None => True
  | Some td =>
      match all_text td with
      | None => True
      | Some s => PyStr.whitespace_only s
      end
  end.

(** Saving an upload leaves [results.csv] alone unless the upload goes to
    that very path. *)
Definition csv_after_upload (file : UploadedFile) (w : world) : option string :=
  if String.eqb (path_join RESULTS_FOLDER (name file)) CSV_FILE
  then Some (getbuffer file) else csv w.

(** The notice [process_image] starts with. *)
Definition processing_notice (file : UploadedFile) : string :=
  "🔄 Processing " ++ name file ++ "...".

(** The files of one run, in the order the script takes them up. *)
Definition all_files (u : uploads) : list UploadedFile :=
  (match uploaded_file u with Some (file, _) => [file] | None => [] end
   ++ map fst (uploaded_files u))%list.

Definition not_header_write (ev : event) : bool := negb (is_header_write ev).

Definition body_or_notice (ev : event) : bool :=
  (is_body_event ev || match ev with sidebar_write _ => true | _ => false end)%bool.

(** *** Concrete inputs used in the examples *)

Module Sample.

Definition error (msg : string) : exn :=
  {| exn_class := "Exception"; exn_msg := msg |}.

Definition blank_image : Image := {| height := 480; width := 640; drawn := [] |}.

(** An environment in which every external call succeeds and the API
    answers [r]. *)
Definition env_ok (r : Response) : env :=
  {| save_upload := None;
     open_upload := None;
     requests_post := inr r;
     open_csv := None;
     imread := fun _ => Some blank_image;
     getTextSize := fun _ _ _ => (120, 18)%Z;
     imwrite := inr true;
     open_annotated := None |}.

(** The same, but the uploaded file cannot be decoded as an image. *)
Definition env_unreadable (r : Response) : env :=
  {| save_upload := None;
     open_upload := None;
     requests_post := inr r;
     open_csv := None;
     imread := fun _ => None;
     getTextSize := fun _ _ _ => (120, 18)%Z;
     imwrite := inr true;
     open_annotated := None |}.

(** The network call fails. *)
Definition env_offline : env :=
  {| save_upload := None;
     open_upload := None;
     requests_post := inl (error "Connection refused");
     open_csv := None;
     imread := fun _ => Some blank_image;
     getTextSize := fun _ _ _ => (120, 18)%Z;
     imwrite := inr true;
     open_annotated := None |}.

Definition ok (result : Result) : Response :=
  {| status_code := 200; json := inr result |}.

Definition server_error : Response :=
  {| status_code := 500; json := inl (error "Expecting value") |}.

Definition tower1 : UploadedFile :=
  {| name := "tower1.jpg"; getbuffer := "JFIF" |}.

Definition tower2 : UploadedFile :=
  {| name := "tower2.png"; getbuffer := "PNG" |}.

Definition panel : Detection :=
  {| class_name := "panel"; bbox := [10; 10; 50; 60]%Z; confidence := 0.87 |}.

Definition dish : Detection :=
  {| class_name := "dish, small"; bbox := [5; 6; 7; 8]%Z; confidence := 0.5 |}.

(** {"text_detections":{"all_text":"TWR-001"},
     "antenna_detections":[{"class_name":"panel","bbox":[10,10,50,60],
                            "confidence":0.87}]} *)
Definition tower1_result : Result :=
  {| text_detections := Some {| all_text := Some "TWR-001" |};
     antenna_detections := Some [panel] |}.

(** {"text_detections":{"all_text":"TWR-001"},"antenna_detections":[]} *)
Definition text_only_result : Result :=
  {| text_detections := Some {| all_text := Some "TWR-001" |};
     antenna_detections := Some [] |}.

(** {"text_detections":{"all_text":" \t\n"},"antenna_detections":[]} *)
Definition blank_result : Result :=
  {| text_detections :=
       Some {| all_text := Some (PyStr.enc1 32 ++ PyStr.enc1 9 ++ PyStr.enc1 10) |};
     antenna_detections := Some [] |}.

(** A session that has just started: no [results.csv] yet. *)
Definition fresh : world := {| csv := None; trace := [] |}.

(** A world in which [results.csv] holds the header only. *)
Definition started : world := {| csv := Some CSV_HEADER; trace := [] |}.

End Sample.

(* ================================================================= *)
(** ** Vocabulary of the further properties *)

(** A detection whose [bbox] unpacks into [x1, y1, x2, y2]. *)
Definition has_four_coordinates (d : Detection) : bool :=
  Nat.eqb (List.length (bbox d)) 4.

(** The sizes the annotator derives from the width of the image
    (lines 51-53). *)
Definition box_thickness_of (width : Z) : Z := Z.max 3 (width / 300).

Definition font_scale_of (width : Z) : float :=
  PyFloat.max 0.6 (PyFloat.of_Z width / 1200)%float.

Definition text_thickness_of (width : Z) : Z := Z.max 2 (width / 600).

(** The label of a detection (line 67). *)
Definition label_of (d : Detection) : string :=
  class_name d ++ " (" ++ PyFloat.format_f 1 (confidence d * 100)%float ++ "%)".

(** The drawing calls one detection causes on an image of the given
    width: the box, the label background, the label. *)
Definition detection_ops (e : env) (width : Z) (d : Detection) : list draw_op :=
  match bbox d with
  | [x1; y1; x2; y2] =>
      let size := getTextSize e (label_of d) (font_scale_of width)
                              (text_thickness_of width) in
      let text_y := Z.max (y1 - 10) (snd size + 10) in
      [ rectangle (x1, y1) (x2, y2) (0, 255, 0)%Z (box_thickness_of width);
        rectangle (x1, text_y - snd size - 5)%Z (x1 + fst size, text_y + 5)%Z
                  (0, 0, 0)%Z (-1);
        putText (label_of d) (x1, text_y) (font_scale_of width)
                (255, 255, 255)%Z (text_thickness_of width) ]
  | _ => []
  end.

(** The image with every detection drawn on it. *)
Definition annotated (e : env) (img : Image) (antenna_detections : list Detection)
  : Image :=
  {| height := height img; width := width img;
     drawn := drawn img ++ flat_map (detection_ops e (width img)) antenna_detections |}.

(** The world once the upload is saved, the rows are recorded and the
    text is shown (lines 84-106). *)
Definition recorded (file : UploadedFile) (result : Result) (w : world) : world :=
  let text := extracted_text_of result in
  let rows := csv_rows (name file) text (antenna_detections_of result) in
  {| csv := Some (dict_get (csv_after_upload file w) "" ++ String.concat "" rows);
     trace := trace w
       ++ [ sidebar_write (processing_notice file);
            upload_saved (path_join RESULTS_FOLDER (name file)) (getbuffer file) ]
       ++ map csv_row_appended rows
       ++ [ sidebar_success ("✅ Processed: " ++ name file);
            st_subheader "📝 Extracted Text";
            st_write (if PyStr.truthy text then text else "No text found") ] |}.

(** The world once the notice is out and the upload is saved
    (lines 81-87). *)
Definition uploaded (file : UploadedFile) (w : world) : world :=
  {| csv := csv_after_upload file w;
     trace := trace w
       ++ [ sidebar_write (processing_notice file);
            upload_saved (path_join RESULTS_FOLDER (name file)) (getbuffer file) ] |}.

(** The same world with further events. *)
Definition and_then (w : world) (evs : list event) : world :=
  {| csv := csv w; trace := trace w ++ evs |}.

(** The report of a caught exception (line 135). *)
Definition error_report (err : exn) : event :=
  sidebar_error ("⚠️ Error processing image: " ++ exn_msg err).

(** [c] takes every world to one related to it by [R]. *)
Definition keeps (R : world -> world -> Prop) {A} (c : M A) : Prop :=
  forall w, R w (after c w).

(** With [results.csv] in place, [c] returns normally, only adds to the
    trace and leaves the file in place. *)
Definition steady (c : M unit) : Prop :=
  forall w, csv w <> None ->
    exists w' evs, c w = (w', inr tt)
                   /\ trace w' = (trace w ++ evs)%list
                   /\ csv w' <> None.

(** The pauses of a trace, in seconds. *)
Definition pause_of (ev : event) : list Z :=
  match ev with sleep n => [n] | _ => [] end.

Definition pauses (t : list event) : list Z := flat_map pause_of t.

(** The download offered at the end of a run (line 159). *)
Definition csv_download : event :=
  sidebar_download_button "📥 Download CSV Results" CSV_FILE "results.csv".

(** With [results.csv] in place, [c] returns normally and the last thing
    it does is to offer the CSV download. *)
Definition ends_with_download (c : M unit) : Prop :=
  forall w, csv w <> None ->
    exists w' evs, c w = (w', inr tt)
                   /\ trace w' = (trace w ++ evs ++ [csv_download])%list
                   /\ csv w' <> None.

(** The header line of [results.csv], without its newline (line 25). *)
Definition header_line : string :=
  "Image Name,Extracted Text,Total Antennas,Class Name,Bounding Box (x1,y1,x2,y2),Confidence Score".

(** The events of a run before any upload is looked at, apart from the
    header. *)
Definition page_head : list event :=
  [ st_title "📡 Tower - Antenna: AI Detection";
    st_write "Upload images for **text extraction & antenna detection**";
    sidebar_header "📂 File Upload";
    sidebar_file_uploader "Upload an Image" ].

(* ================================================================= *)
(** ** Vocabulary of the file content, the names and the drawing calls *)

(** What [w'] has in its trace beyond the trace of [w]. *)
Definition new_events (w w' : world) : list event :=
  skipn (List.length (trace w)) (trace w').

(** [s] holds two commas in a row. *)
Fixpoint has_double_comma (s : string) : bool :=
  match s with
  | String a r =>
      match r with
      | String b _ => (Ascii.eqb a "," && Ascii.eqb b ",") || has_double_comma r
      | EmptyString => false
      end
  | EmptyString => false
  end.

(** The number a decimal numeral stands for: [int(s)] for a string of
    digits. *)
Definition decimal_value (s : string) : option nat :=
  option_map Nat.of_uint (NilZero.uint_of_string s).

(** [s.endswith(suffix)]. *)
Definition ends_with (suffix s : string) : bool :=
  String.prefix (PyStr.rev suffix) (PyStr.rev s).

(** A name the upload widgets let through: [type=["jpg", "jpeg", "png"]]
    (lines 145 and 150). *)
Definition has_image_extension (n : string) : bool :=
  (ends_with ".jpg" n || ends_with ".jpeg" n || ends_with ".png" n)%bool.

(** Every upload of the run has such a name. *)
Definition image_uploads (u : uploads) : Prop :=
  Forall (fun file => has_image_extension (name file) = true) (all_files u).

(** An ASCII character that is not whitespace. *)
Definition ascii_non_space (a : ascii) : bool :=
  (N.ltb (N_of_ascii a) 128 && negb (PyStr.ws1 a))%bool.

(** A text that begins and ends with such a character. *)
Definition solid_ends (core : string) : bool :=
  (match core with String a _ => ascii_non_space a | EmptyString => false end
   && match PyStr.rev core with
      | String z _ => ascii_non_space z
      | EmptyString => false
      end)%bool.

(** What cv2 takes without raising: coordinates that fit a C int, a line
    thickness from 1 to 32767 (or -1 for a filled rectangle). *)
Definition c_int (z : Z) : bool :=
  ((-2147483648 <=? z) && (z <=? 2147483647))%Z%bool.

Definition line_thickness (t : Z) : bool := ((1 <=? t) && (t <=? 32767))%Z%bool.

Definition cv2_accepts (op : draw_op) : bool :=
  match op with
  | rectangle (x1, y1) (x2, y2) _ t =>
      (c_int x1 && c_int y1 && c_int x2 && c_int y2
       && (Z.eqb t (-1) || line_thickness t))%bool
  | putText _ (x, y) _ _ t => (c_int x && c_int y && line_thickness t)%bool
  end.

(** Every drawing call for these detections is one cv2 accepts. *)
Definition drawable (e : env) (img : Image) (antenna_detections : list Detection)
  : bool :=
  forallb cv2_accepts (flat_map (detection_ops e (width img)) antenna_detections).

(** From [w] to [w'] the trace has grown by events that write no header,
    and [results.csv] has grown by exactly the rows of these events, each
    with two commas in a row; the file has not gone away. *)
Definition csv_tracks (w w' : world) : Prop :=
  exists evs,
    trace w' = (trace w ++ evs)%list
    /\ csv_content w' = csv_content w ++ String.concat "" (rows_appended evs)
    /\ Forall (fun row => has_double_comma row = true) (rows_appended evs)
    /\ header_writes evs = 0
    /\ (csv w <> None -> csv w' <> None).

(** The events of a batch: for each file its notice, what its processing
    does, then the pause. *)
Definition batch_trace (l : list (UploadedFile * list event)) : list event :=
  flat_map (fun p => sidebar_write (processing_notice (fst p))
                     :: snd p ++ [sleep 1])%list l.

(** The number of line ends in a text. *)
Definition line_ends (s : string) : nat := PyStr.count (ascii_of_N 10) s.

(** With [results.csv] in place, [c] returns normally, leaves the file in
    place and adds to the trace a list of events of the shape [P]. *)
Definition produces (c : M unit) (P : list event -> Prop) : Prop :=
  forall w, csv w <> None ->
    exists w' evs, c w = (w', inr tt)
                   /\ trace w' = (trace w ++ evs)%list
                   /\ P evs
                   /\ csv w' <> None.

(** The events of [a] followed by those of [b]. *)
Definition followed_by (P Q : list event -> Prop) (evs : list event) : Prop :=
  exists a b, evs = (a ++ b)%list /\ P a /\ Q b.

(** What processing one file adds: its notice, then events of the body. *)
Definition file_events (file : UploadedFile) (evs : list event) : Prop :=
  exists seg, evs = sidebar_write (processing_notice file) :: seg
              /\ forallb is_body_event seg = true.

(** What a batch adds: for each file, in order, its notice, events of the
    body, and the pause. *)
Definition batch_events (files : list (UploadedFile * env)) (evs : list event)
  : Prop :=
  exists segs, evs = batch_trace (combine (map fst files) segs)
               /\ List.length segs = List.length files
               /\ Forall (fun seg => forallb is_body_event seg = true) segs.

(* ================================================================= *)
(** ** Lemmas on strings *)

Lemma append_assoc (a b c : string) : (a ++ b) ++ c = a ++ (b ++ c).
Proof.
  induction a as [|x a IH]; simpl; [reflexivity | now rewrite IH].
Qed.

Lemma append_nil_r (a : string) : a ++ "" = a.
Proof.
  induction a as [|x a IH]; simpl; [reflexivity | now rewrite IH].
Qed.

Lemma count_app (c : ascii) (a b : string) :
  PyStr.count c (a ++ b) = PyStr.count c a + PyStr.count c b.
Proof.
  induction a as [|x a IH]; simpl; [reflexivity | rewrite IH; lia].
Qed.

(** Splitting at [c] gives one more piece than there are [c]s. *)
Lemma length_split (c : ascii) (s : string) :
  List.length (PyStr.split c s) = S (PyStr.count c s).
Proof.
  induction s as [|x s IH]; simpl; [reflexivity|].
  destruct (Ascii.eqb x c); simpl.
  - now rewrite IH.
  - destruct (PyStr.split c s); simpl in *; lia.
Qed.

Lemma length_fields (line : string) :
  List.length (fields line) = S (PyStr.count "," line).
Proof. apply length_split. Qed.

Lemma append_inj_r (a b c : string) : a ++ c = b ++ c -> a = b.
Proof.
  intros H.
  assert (L : forall x y : string, String.length (x ++ y)
                                   = String.length x + String.length y).
  { induction x as [|h x IH]; intros y; simpl; [reflexivity | now rewrite IH]. }
  revert b H; induction a as [|h a IH]; intros [|k b] H; simpl in *.
  - reflexivity.
  - apply (f_equal String.length) in H; simpl in H; rewrite L in H; lia.
  - apply (f_equal String.length) in H; simpl in H; rewrite L in H; lia.
  - injection H as -> H. now rewrite (IH b H).
Qed.

(** A whitespace character in front does not survive [lstrip]. *)
Lemma lstrip_whitespace_char (c s : string) :
  In c PyStr.whitespace_chars -> PyStr.lstrip (c ++ s) = PyStr.lstrip s.
Proof.
  unfold PyStr.whitespace_chars; simpl.
  intros H.
  repeat (destruct H as [<- | H]; [reflexivity|]).
  contradiction.
Qed.

Lemma lstrip_whitespace_only (s : string) :
  PyStr.whitespace_only s -> PyStr.lstrip s = "".
Proof.
  induction 1 as [|c s Hc _ IH]; [reflexivity|].
  now rewrite lstrip_whitespace_char.
Qed.

Lemma strip_whitespace_only (s : string) :
  PyStr.whitespace_only s -> PyStr.strip s = "".
Proof.
  intros H. unfold PyStr.strip. now rewrite lstrip_whitespace_only.
Qed.

(* ================================================================= *)
(** ** Lemmas on the recorder *)

Lemma for_each_f_write {A} (g : A -> string) (l : list A) (w : world) (c : string) :
  csv w = Some c ->
  for_each l (fun x => f_write (g x)) w
  = ({| csv := Some (c ++ String.concat "" (map g l));
        trace := trace w ++ map csv_row_appended (map g l) |}, inr tt).
Proof.
  revert w c; induction l as [|x l IH]; intros w c Hc; simpl.
  - unfold ret. rewrite append_nil_r, app_nil_r, <- Hc. now destruct w.
  - unfold bind, f_write at 1, csv_content, dict_get. rewrite Hc.
    rewrite (IH _ (c ++ g x)) by reflexivity. simpl.
    rewrite <- app_assoc. simpl.
    destruct l; simpl; now rewrite ?append_assoc, ?append_nil_r.
Qed.

(** With the file opened, the recorder appends the rows [csv_rows] to
    [results.csv], one [f.write] each, and nothing else happens. *)
Lemma save_results_to_csv_appends (e : env) (image_name extracted_text : string)
    (antenna_detections : list Detection) (w : world) :
  open_csv e = None ->
  save_results_to_csv e image_name extracted_text antenna_detections w
  = ({| csv := Some (csv_content w
                     ++ String.concat ""
                          (csv_rows image_name extracted_text antenna_detections));
        trace := trace w
                 ++ map csv_row_appended
                        (csv_rows image_name extracted_text antenna_detections) |},
     inr tt).
Proof.
  intros Ho.
  unfold save_results_to_csv, open_csv_append, csv_rows, text_row.
  rewrite Ho. unfold call, bind, ret at 1.
  assert (F : forall row : string,
    (let (w', r) := f_write row {| csv := Some (csv_content w); trace := trace w |} in
     match r with
     | inl err => (w', inl err)
     | inr _ =>
         (if nonempty antenna_detections
          then for_each antenna_detections
                 (fun x => f_write (detection_row image_name
                                      (List.length antenna_detections) x))
          else f_write (image_name ++ ",,0,No detection,N/A,N/A" ++ nl)) w'
     end)
    = ({| csv := Some (csv_content w ++ String.concat ""
             (row :: (if nonempty antenna_detections
                      then map (detection_row image_name
                                  (List.length antenna_detections)) antenna_detections
                      else [no_detection_row image_name])));
          trace := trace w ++ map csv_row_appended
             (row :: (if nonempty antenna_detections
                      then map (detection_row image_name
                                  (List.length antenna_detections)) antenna_detections
                      else [no_detection_row image_name])) |}, inr tt)).
  { intros row. unfold f_write at 1. cbn [csv trace csv_content dict_get].
    destruct antenna_detections as [|d ds] eqn:E.
    - cbn [nonempty]. unfold f_write, no_detection_row. cbn.
      now rewrite <- app_assoc, ?append_assoc, ?append_nil_r.
    - cbn [nonempty]. rewrite <- E.
      rewrite (for_each_f_write
                 (detection_row image_name (List.length antenna_detections))
                 antenna_detections _ (csv_content w ++ row)) by reflexivity.
      cbn [trace]. rewrite <- app_assoc. cbn [app map String.concat].
      f_equal. f_equal. f_equal.
      rewrite E. cbn [map String.concat]. now rewrite !append_assoc. }
  destruct (PyStr.truthy extracted_text); apply F.
Qed.

(* ================================================================= *)
(** ** Per-image processing: the outcomes *)

Ltac unfold_monad :=
  unfold process_image, process_image_body, write_upload, cv2_imwrite,
         try_except, bind, call, call_value, emit, ret, raise.

(** A successful response with no detections: the upload is saved, the
    recorder runs, the text is shown, and processing ends there. *)
Lemma process_image_200_no_detection (e : env) (file : UploadedFile)
    (response : Response) (result : Result) (w : world) :
  save_upload e = None ->
  open_upload e = None ->
  requests_post e = inr response ->
  status_code response = 200%Z ->
  json response = inr result ->
  open_csv e = None ->
  antenna_detections_of result = [] ->
  let text := extracted_text_of result in
  process_image e file w
  = ({| csv := Some (dict_get (csv_after_upload file w) ""
                     ++ String.concat "" (csv_rows (name file) text []));
        trace := trace w
          ++ [ sidebar_write ("🔄 Processing " ++ name file ++ "...");
               upload_saved (path_join RESULTS_FOLDER (name file)) (getbuffer file) ]
          ++ map csv_row_appended (csv_rows (name file) text [])
          ++ [ sidebar_success ("✅ Processed: " ++ name file);
               st_subheader "📝 Extracted Text";
               st_write (if PyStr.truthy text then text else "No text found") ] |},
     inr tt).
Proof.
  intros Hs Ho Hp Hc Hj Hcsv Hd text.
  unfold_monad. rewrite Hs, Ho, Hp, Hc, Hj. cbn [Z.eqb Pos.eqb].
  rewrite save_results_to_csv_appends by assumption.
  rewrite Hd. cbn [nonempty csv trace csv_content].
  unfold csv_after_upload. subst text.
  rewrite <- !app_assoc. reflexivity.
Qed.

(* ================================================================= *)
(** ** The rows, field by field *)

Lemma split_comma_free (c : ascii) (a b : string) :
  PyStr.count c a = 0 ->
  PyStr.split c (a ++ String c b) = a :: PyStr.split c b.
Proof.
  induction a as [|x a IH]; simpl; intros H.
  - now rewrite Ascii.eqb_refl.
  - destruct (Ascii.eqb x c); [discriminate|].
    now rewrite IH.
Qed.

Lemma split_no_separator (c : ascii) (a : string) :
  PyStr.count c a = 0 -> PyStr.split c a = [a].
Proof.
  induction a as [|x a IH]; simpl; intros H; [reflexivity|].
  destruct (Ascii.eqb x c); [discriminate|].
  now rewrite IH.
Qed.

Lemma count_comma_of_uint (d : Decimal.uint) :
  PyStr.count "," (NilEmpty.string_of_uint d) = 0.
Proof. induction d; simpl; auto. Qed.

(** The decimal digits of a length hold no comma. *)
Lemma count_comma_of_nat (n : nat) : PyStr.count "," (PyStr.of_nat n) = 0.
Proof.
  unfold PyStr.of_nat, NilZero.string_of_uint.
  destruct (Nat.to_uint n); try apply count_comma_of_uint; reflexivity.
Qed.

Lemma text_row_fields (image_name extracted_text : string) :
  extracted_text <> "" ->
  text_row image_name extracted_text
  = PyStr.join "," [image_name; extracted_text; ""; ""; ""; " "] ++ nl.
Proof.
  intros H. unfold text_row, PyStr.join.
  destruct extracted_text; [congruence|].
  cbn [PyStr.truthy String.concat]. now rewrite !append_assoc.
Qed.

Lemma no_text_row_fields (image_name : string) :
  text_row image_name ""
  = PyStr.join "," [image_name; "No text found"; ""; ""; ""; " "] ++ nl.
Proof.
  unfold text_row, PyStr.join. cbn [PyStr.truthy String.concat].
  now rewrite !append_assoc.
Qed.

Lemma no_detection_row_fields (image_name : string) :
  no_detection_row image_name
  = PyStr.join "," [image_name; ""; "0"; "No detection"; "N/A"; "N/A"] ++ nl.
Proof.
  unfold no_detection_row, PyStr.join. cbn [String.concat].
  now rewrite !append_assoc.
Qed.

Lemma detection_row_fields (image_name : string) (total : nat) (d : Detection) :
  detection_row image_name total d
  = PyStr.join ","
      [image_name; ""; PyStr.of_nat total; class_name d; str_bbox (bbox d);
       PyFloat.format_f 2 (confidence d)] ++ nl.
Proof.
  unfold detection_row, PyStr.join. cbn [String.concat].
  now rewrite !append_assoc.
Qed.

Lemma rows_appended_app (t1 t2 : list event) :
  rows_appended (t1 ++ t2) = (rows_appended t1 ++ rows_appended t2)%list.
Proof. apply flat_map_app. Qed.

Lemma rows_appended_rows (rows : list string) :
  rows_appended (map csv_row_appended rows) = rows.
Proof.
  induction rows as [|r rows IH]; simpl; [reflexivity | now rewrite IH].
Qed.

(* ================================================================= *)
(** ** The claims on the recorder *)

(** C1, counterexample.  The API answers 200 with the text [TWR-001] and
    an empty detection list for [tower1.jpg]: the recorder does not append
    one row but two, the text row and a [No detection] row. *)
Lemma C1_two_rows_not_one :
  ~ exists row,
      rows_appended
        (trace (after (process_image (Sample.env_ok (Sample.ok Sample.text_only_result))
                                     Sample.tower1)
                      Sample.started))
      = [row].
Proof.
  intros [row H]. vm_compute in H. discriminate H.
Qed.

(** C1, as amended.  For every successful (HTTP 200) response whose
    detection list is empty and whose extracted text is non-empty, the
    recorder appends exactly two rows for that image: the text row, made of
    the image name, the text, three empty fields and a last field holding a
    single space, and then the [No detection] row. *)
Theorem C1_text_row_then_no_detection_row (e : env) (file : UploadedFile)
    (response : Response) (result : Result) (w : world) :
  save_upload e = None ->
  open_upload e = None ->
  requests_post e = inr response ->
  status_code response = 200%Z ->
  json response = inr result ->
  open_csv e = None ->
  antenna_detections_of result = [] ->
  extracted_text_of result <> "" ->
  let text := extracted_text_of result in
  let text_row := PyStr.join "," [name file; text; ""; ""; ""; " "] ++ nl in
  let none_row :=
    PyStr.join "," [name file; ""; "0"; "No detection"; "N/A"; "N/A"] ++ nl in
  process_image e file w
  = ({| csv := Some (dict_get (csv_after_upload file w) "" ++ text_row ++ none_row);
        trace := trace w ++
          [ sidebar_write ("🔄 Processing " ++ name file ++ "...");
            upload_saved (path_join RESULTS_FOLDER (name file)) (getbuffer file);
            csv_row_appended text_row;
            csv_row_appended none_row;
            sidebar_success ("✅ Processed: " ++ name file);
            st_subheader "📝 Extracted Text";
            st_write text ] |},
     inr tt).
Proof.
  intros Hs Ho Hp Hc Hj Hcsv Hd Ht. cbv zeta.
  rewrite (process_image_200_no_detection e file response result w) by assumption.
  cbv zeta. unfold csv_rows. cbn [nonempty map String.concat app].
  rewrite text_row_fields, no_detection_row_fields by assumption.
  destruct (extracted_text_of result) eqn:E; [congruence|]. cbn [PyStr.truthy].
  reflexivity.
Qed.

Lemma C1_witness :
  rows_appended
    (trace (after (process_image (Sample.env_ok (Sample.ok Sample.text_only_result))
                                 Sample.tower1)
                  Sample.started))
  = [ "tower1.jpg,TWR-001,,,, " ++ nl;
      "tower1.jpg,,0,No detection,N/A,N/A" ++ nl ].
Proof.
  unfold after.
  rewrite (C1_text_row_then_no_detection_row
             (Sample.env_ok (Sample.ok Sample.text_only_result)) Sample.tower1
             (Sample.ok Sample.text_only_result) Sample.text_only_result
             Sample.started eq_refl eq_refl eq_refl eq_refl eq_refl eq_refl eq_refl).
  - vm_compute. reflexivity.
  - vm_compute. discriminate.
Defined.

(* ================================================================= *)
(** ** The claims on per-image processing *)

(** C5.  When the API call returns a status other than 200, processing the
    image saves the upload, reports [API Error: <status>] and stops: no row
    is appended to the CSV file and no annotated image is written. *)
Theorem C5_non_200_reported_and_skipped (e : env) (file : UploadedFile)
    (response : Response) (w : world) :
  save_upload e = None ->
  open_upload e = None ->
  requests_post e = inr response ->
  status_code response <> 200%Z ->
  process_image e file w
  = ({| csv := csv_after_upload file w;
        trace := trace w ++
          [ sidebar_write ("🔄 Processing " ++ name file ++ "...");
            upload_saved (path_join RESULTS_FOLDER (name file)) (getbuffer file);
            sidebar_error ("❌ API Error: " ++ PyStr.of_Z (status_code response)) ] |},
     inr tt)
  /\ (path_join RESULTS_FOLDER (name file) <> CSV_FILE ->
      csv_after_upload file w = csv w).
Proof.
  intros Hs Ho Hp Hc. split.
  - apply Z.eqb_neq in Hc.
    unfold_monad. rewrite Hs, Ho, Hp, Hc. cbn [csv trace].
    unfold csv_after_upload. now rewrite <- !app_assoc.
  - intros Hn. unfold csv_after_upload.
    apply String.eqb_neq in Hn. now rewrite Hn.
Qed.

Lemma C5_witness :
  process_image (Sample.env_ok Sample.server_error) Sample.tower1 Sample.started
  = ({| csv := Some CSV_HEADER;
        trace := [ sidebar_write "🔄 Processing tower1.jpg...";
                   upload_saved "API_results/tower1.jpg" "JFIF";
                   sidebar_error "❌ API Error: 500" ] |}, inr tt).
Proof.
  destruct (C5_non_200_reported_and_skipped
              (Sample.env_ok Sample.server_error) Sample.tower1
              Sample.server_error Sample.started eq_refl eq_refl eq_refl)
    as [H _]; [discriminate|].
  rewrite H. reflexivity.
Defined.

(* ================================================================= *)
(** ** What a computation can add to the trace *)

Section Emits.

Variable Q : event -> bool.

Lemma emits_ret {A} (a : A) : emits Q (ret a).
Proof.
  intros w. exists []. unfold after, ret; simpl.
  rewrite app_nil_r. auto.
Qed.

Lemma emits_raise {A} (err : exn) : emits Q (@raise A err).
Proof.
  intros w. exists []. unfold after, raise; simpl.
  rewrite app_nil_r. auto.
Qed.

Lemma emits_emit (ev : event) : Q ev = true -> emits Q (emit ev).
Proof.
  intros H w. exists [ev]. unfold after, emit; simpl.
  rewrite H. auto.
Qed.

Lemma emits_call (o : option exn) : emits Q (call o).
Proof. destruct o; [apply emits_raise | apply emits_ret]. Qed.

Lemma emits_call_value {A} (o : exn + A) : emits Q (call_value o).
Proof. destruct o; [apply emits_raise | apply emits_ret]. Qed.

Lemma emits_bind {A B} (c : M A) (k : A -> M B) :
  emits Q c -> (forall a, emits Q (k a)) -> emits Q (bind c k).
Proof.
  intros Hc Hk w. destruct (Hc w) as (evs & Ht & Hq & Hcsv).
  unfold after in *. unfold bind.
  destruct (c w) as [w' [err | a]]; simpl in *.
  - exists evs. auto.
  - destruct (Hk a w') as (evs' & Ht' & Hq' & Hcsv'). unfold after in *.
    exists (evs ++ evs')%list. rewrite Ht', Ht, app_assoc, forallb_app, Hq, Hq'.
    auto.
Qed.

Lemma emits_try_except (body : M unit) (handler : exn -> M unit) :
  emits Q body -> (forall err, emits Q (handler err)) ->
  emits Q (try_except body handler).
Proof.
  intros Hb Hh w. destruct (Hb w) as (evs & Ht & Hq & Hcsv).
  unfold after in *. unfold try_except.
  destruct (body w) as [w' [err | []]]; simpl in *.
  - destruct (Hh err w') as (evs' & Ht' & Hq' & Hcsv'). unfold after in *.
    exists (evs ++ evs')%list. rewrite Ht', Ht, app_assoc, forallb_app, Hq, Hq'.
    auto.
  - exists evs. auto.
Qed.

Lemma emits_for_each {A} (l : list A) (body : A -> M unit) :
  (forall x, emits Q (body x)) -> emits Q (for_each l body).
Proof.
  intros Hb. induction l as [|x l IH]; simpl.
  - apply emits_ret.
  - apply emits_bind; auto.
Qed.

Lemma emits_f_write (data : string) :
  Q (csv_row_appended data) = true -> emits Q (f_write data).
Proof.
  intros H w. exists [csv_row_appended data]. unfold after, f_write; simpl.
  rewrite H. repeat split; congruence.
Qed.

Lemma emits_open_csv_append (e : env) : emits Q (open_csv_append e).
Proof.
  unfold open_csv_append. apply emits_bind; [apply emits_call|].
  intros _ w. exists []. unfold after; simpl.
  rewrite app_nil_r. repeat split; congruence.
Qed.

Lemma emits_save_results_to_csv (e : env) (image_name extracted_text : string)
    (antenna_detections : list Detection) :
  (forall data, Q (csv_row_appended data) = true) ->
  emits Q (save_results_to_csv e image_name extracted_text antenna_detections).
Proof.
  intros H. unfold save_results_to_csv.
  apply emits_bind; [apply emits_open_csv_append|]. intros _.
  apply emits_bind.
  { destruct (PyStr.truthy extracted_text); apply emits_f_write, H. }
  intros _. destruct (nonempty antenna_detections).
  - apply emits_for_each. intros d. apply emits_f_write, H.
  - apply emits_f_write, H.
Qed.

Lemma emits_write_upload (e : env) (path data : string) :
  Q (upload_saved path data) = true -> emits Q (write_upload e path data).
Proof.
  intros H. unfold write_upload. apply emits_bind; [apply emits_call|].
  intros _ w. exists [upload_saved path data]. unfold after; simpl.
  rewrite H. repeat split. destruct (String.eqb path CSV_FILE); congruence.
Qed.

Lemma emits_cv2_imwrite (e : env) (path : string) (img : Image) :
  Q (image_written path img) = true -> emits Q (cv2_imwrite e path img).
Proof.
  intros H. unfold cv2_imwrite. apply emits_bind; [apply emits_call_value|].
  intros [|]; [now apply emits_emit | apply emits_ret].
Qed.

End Emits.

Lemma emits_weaken (Q Q' : event -> bool) {A} (c : M A) :
  (forall ev, Q ev = true -> Q' ev = true) -> emits Q c -> emits Q' c.
Proof.
  intros HQ Hc w. destruct (Hc w) as (evs & Ht & Hq & Hcsv).
  exists evs. repeat split; auto.
  rewrite forallb_forall in *. auto.
Qed.

(** Whatever happens in the body of [process_image], only the events of
    per-image processing are added and [results.csv] stays in place. *)
Lemma emits_process_image_body (e : env) (file : UploadedFile) :
  emits is_body_event (process_image_body e file).
Proof.
  unfold process_image_body.
  apply emits_bind; [now apply emits_write_upload|]. intros _.
  apply emits_bind; [apply emits_call|]. intros _.
  apply emits_bind; [apply emits_call_value|]. intros response.
  destruct (status_code response =? 200)%Z; [|now apply emits_emit].
  apply emits_bind; [apply emits_call_value|]. intros result.
  apply emits_bind; [now apply emits_save_results_to_csv|]. intros _.
  do 3 (apply emits_bind; [now apply emits_emit|]; intros _).
  destruct (nonempty (antenna_detections_of result)); [|apply emits_ret].
  do 2 (apply emits_bind; [now apply emits_emit|]; intros _).
  apply emits_bind; [apply emits_call_value|]. intros [img|]; [|apply emits_ret].
  apply emits_bind; [now apply emits_cv2_imwrite|]. intros _.
  do 3 (apply emits_bind; [now apply emits_emit|]; intros _).
  apply emits_bind; [apply emits_call|]. intros _.
  now apply emits_emit.
Qed.

Lemma emits_process_image (e : env) (file : UploadedFile) :
  emits body_or_notice (process_image e file).
Proof.
  unfold process_image.
  apply emits_bind; [now apply emits_emit|]. intros _.
  apply emits_try_except.
  - apply (emits_weaken is_body_event); [|apply emits_process_image_body].
    intros ev H. unfold body_or_notice. now rewrite H.
  - intros err. now apply emits_emit.
Qed.

(** Reading whether [results.csv] exists changes nothing. *)
Lemma emits_exists_csv (Q : event -> bool) :
  emits Q (fun w => (w, inr (match csv w with Some _ => true | None => false end))).
Proof.
  intros w. exists []. unfold after; simpl. rewrite app_nil_r. auto.
Qed.

(** After start-up the script writes no header. *)
Lemma emits_main_after_startup (u : uploads) :
  emits not_header_write
    (emit (st_title "📡 Tower - Antenna: AI Detection") ;;
     emit (st_write "Upload images for **text extraction & antenna detection**") ;;
     emit (sidebar_header "📂 File Upload") ;;
     emit (sidebar_file_uploader "Upload an Image") ;;
     match uploaded_file u with
     | Some (file, e) => process_image e file
     | None => ret tt
     end ;;
     emit (sidebar_file_uploader "Upload Multiple Images") ;;
     (if nonempty (uploaded_files u)
      then for_each (uploaded_files u) (fun '(file, e) =>
             process_image e file ;;
             emit (sleep 1))
      else ret tt) ;;
     exists_csv <- (fun w => (w, inr (match csv w with Some _ => true | None => false end))) ;;
     if exists_csv : bool
     then emit (sidebar_download_button "📥 Download CSV Results" CSV_FILE "results.csv")
     else ret tt).
Proof.
  assert (P : forall e file, emits not_header_write (process_image e file)).
  { intros e file.
    apply (emits_weaken body_or_notice); [|apply emits_process_image].
    intros [] H; try reflexivity; discriminate H. }
  do 4 (apply emits_bind; [now apply emits_emit|]; intros _).
  apply emits_bind.
  { destruct (uploaded_file u) as [[file e]|]; [apply P | apply emits_ret]. }
  intros _. apply emits_bind; [now apply emits_emit|]. intros _.
  apply emits_bind.
  { destruct (nonempty (uploaded_files u)); [|apply emits_ret].
    apply emits_for_each. intros [file e].
    apply emits_bind; [apply P|]. intros _. now apply emits_emit. }
  intros _. apply emits_bind; [apply emits_exists_csv|].
  intros [|]; [now apply emits_emit | apply emits_ret].
Qed.

Lemma header_writes_app (t1 t2 : list event) :
  header_writes (t1 ++ t2) = header_writes t1 + header_writes t2.
Proof.
  unfold header_writes. now rewrite filter_app, length_app.
Qed.

Lemma header_writes_none (evs : list event) :
  forallb not_header_write evs = true -> header_writes evs = 0.
Proof.
  unfold header_writes, not_header_write.
  induction evs as [|ev evs IH]; simpl; [reflexivity|].
  intros H. apply andb_true_iff in H as [H1 H2].
  destruct (is_header_write ev); [discriminate|]. auto.
Qed.

(** One run of the script: the header is written at start-up exactly when
    [results.csv] does not exist, never later, and the file exists when the
    run is over. *)
Lemma main_header (u : uploads) (w : world) :
  exists evs,
    trace (after (main u) w)
    = (trace w
       ++ [makedirs RESULTS_FOLDER; makedirs ANNOTATED_FOLDER]
       ++ match csv w with
          | None => [csv_header_written CSV_HEADER]
          | Some _ => []
          end
       ++ evs)%list
    /\ header_writes evs = 0
    /\ csv (after (main u) w) <> None.
Proof.
  pose proof (emits_main_after_startup u) as H.
  unfold main, after.
  set (rest := bind (emit (st_title _)) _) in *.
  assert (E : forall w1, startup w = (w1, inr tt) ->
                         bind startup (fun _ => rest) w = rest w1).
  { intros w1 S. unfold bind at 1. now rewrite S. }
  destruct (csv w) as [c|] eqn:Ec.
  - assert (S : startup w
                = ({| csv := Some c;
                      trace := trace w ++ [makedirs RESULTS_FOLDER;
                                           makedirs ANNOTATED_FOLDER] |}, inr tt)).
    { unfold startup, bind, emit, ret. cbn [csv trace].
      rewrite Ec. cbn [negb]. now rewrite <- app_assoc. }
    rewrite (E _ S).
    destruct (H {| csv := Some c;
                   trace := trace w ++ [makedirs RESULTS_FOLDER;
                                        makedirs ANNOTATED_FOLDER] |})
      as (evs & Ht & Hq & Hcsv).
    unfold after in *. cbn [csv trace] in *.
    exists evs. rewrite Ht, <- app_assoc. cbn [app].
    repeat split; [now apply header_writes_none | apply Hcsv; discriminate].
  - assert (S : startup w
                = ({| csv := Some CSV_HEADER;
                      trace := trace w ++ [makedirs RESULTS_FOLDER;
                                           makedirs ANNOTATED_FOLDER;
                                           csv_header_written CSV_HEADER] |}, inr tt)).
    { unfold startup, write_csv_header, bind, emit, ret. cbn [csv trace].
      rewrite Ec. cbn [negb trace]. now rewrite <- !app_assoc. }
    rewrite (E _ S).
    destruct (H {| csv := Some CSV_HEADER;
                   trace := trace w ++ [makedirs RESULTS_FOLDER;
                                        makedirs ANNOTATED_FOLDER;
                                        csv_header_written CSV_HEADER] |})
      as (evs & Ht & Hq & Hcsv).
    unfold after in *. cbn [csv trace] in *.
    exists evs. rewrite Ht, <- app_assoc. cbn [app].
    repeat split; [now apply header_writes_none | apply Hcsv; discriminate].
Qed.

(** Runs against an existing [results.csv] never write the header. *)
Lemma runs_existing_csv (us : list uploads) (w : world) :
  csv w <> None ->
  exists evs,
    trace (runs us w) = (trace w ++ evs)%list
    /\ header_writes evs = 0
    /\ csv (runs us w) <> None.
Proof.
  revert w. induction us as [|u us IH]; intros w Hw; cbn [runs].
  - exists []. rewrite app_nil_r. auto.
  - destruct (main_header u w) as (evs & Ht & Hh & Hcsv).
    unfold after in *.
    destruct (IH (fst (main u w)) Hcsv) as (evs' & Ht' & Hh' & Hcsv').
    destruct (csv w) as [c|]; [|congruence].
    exists ([makedirs RESULTS_FOLDER; makedirs ANNOTATED_FOLDER] ++ evs ++ evs')%list.
    rewrite Ht', Ht. cbn [app]. rewrite <- !app_assoc. cbn [app].
    repeat split; [|assumption].
    change (makedirs RESULTS_FOLDER :: makedirs ANNOTATED_FOLDER :: (evs ++ evs')%list)
      with ([makedirs RESULTS_FOLDER; makedirs ANNOTATED_FOLDER] ++ evs ++ evs')%list.
    rewrite !header_writes_app, Hh, Hh'. reflexivity.
Qed.

(* ================================================================= *)
(** ** Which images get processed *)

Lemma notices_app (t1 t2 : list event) :
  notices (t1 ++ t2) = (notices t1 ++ notices t2)%list.
Proof. apply flat_map_app. Qed.

Lemma notices_body (evs : list event) :
  forallb is_body_event evs = true -> notices evs = [].
Proof.
  induction evs as [|ev evs IH]; simpl; [reflexivity|].
  intros H. apply andb_true_iff in H as [H1 H2].
  rewrite (IH H2). destruct ev; try discriminate H1; reflexivity.
Qed.

Lemma notifies_ret {A} (a : A) : notifies (ret a) [].
Proof.
  intros w. exists w, a, []. now rewrite app_nil_r.
Qed.

Lemma notifies_emit (ev : event) : notifies (emit ev) (notices [ev]).
Proof.
  intros w. eexists _, tt, [ev]. unfold emit. cbn [trace]. auto.
Qed.

Lemma notifies_bind {A B} (c : M A) (k : A -> M B) (l1 l2 : list string) :
  notifies c l1 -> (forall a, notifies (k a) l2) ->
  notifies (bind c k) (l1 ++ l2).
Proof.
  intros Hc Hk w.
  destruct (Hc w) as (w1 & a & evs1 & E1 & T1 & N1).
  destruct (Hk a w1) as (w2 & b & evs2 & E2 & T2 & N2).
  exists w2, b, (evs1 ++ evs2)%list.
  unfold bind. rewrite E1, E2, T2, T1, app_assoc, notices_app, N1, N2. auto.
Qed.

(** [process_image] always returns normally: whatever its body raises is
    turned into a report. *)
Lemma process_image_returns (e : env) (file : UploadedFile) (w : world) :
  exists w', process_image e file w = (w', inr tt).
Proof.
  unfold process_image, bind, emit, try_except.
  destruct (process_image_body e file _) as [w' [err | []]]; eauto.
Qed.

Lemma notifies_process_image (e : env) (file : UploadedFile) :
  notifies (process_image e file) [processing_notice file].
Proof.
  intros w.
  destruct (process_image_returns e file w) as (w' & E).
  destruct (emits_process_image e file w) as (evs & T & Q & _).
  unfold after in T. rewrite E in T. cbn [fst] in T.
  exists w', tt, evs. repeat split; try assumption.
  (* the first event is the notice, the others come from the body *)
  clear Q. revert E T. unfold process_image, bind at 1, emit at 1.
  set (w0 := {| csv := csv w; trace := trace w ++ [_] |}).
  destruct (emits_process_image_body e file w0) as (evs0 & T0 & Q0 & _).
  unfold after in T0. unfold try_except, emit.
  destruct (process_image_body e file w0) as [w1 [err | []]];
    cbn [fst] in T0; intros E T; injection E as <-; cbn [trace] in T;
    rewrite T0 in T; subst w0; cbn [trace] in T;
    rewrite <- !app_assoc in T; apply app_inv_head in T; subst evs;
    cbn [app]; cbn [notices flat_map];
    change (flat_map _ ?l) with (notices l);
    rewrite ?notices_app, (notices_body evs0 Q0); reflexivity.
Qed.

Lemma notifies_batch (files : list (UploadedFile * env)) :
  notifies (for_each files (fun '(file, e) => process_image e file ;; emit (sleep 1)))
           (map processing_notice (map fst files)).
Proof.
  induction files as [|[file e] files IH]; cbn [for_each map fst].
  - apply notifies_ret.
  - change (processing_notice file :: map processing_notice (map fst files))
      with (([processing_notice file] ++ []) ++ map processing_notice (map fst files))%list.
    apply notifies_bind; [|intros _; apply IH].
    apply notifies_bind; [apply notifies_process_image|].
    intros _. apply (notifies_emit (sleep 1)).
Qed.

Lemma notifies_startup : notifies startup [].
Proof.
  intros w. unfold startup, bind, emit, ret, write_csv_header. cbn [csv trace].
  destruct (csv w); cbn [negb]; eexists _, tt, _; cbn [trace];
    rewrite <- ?app_assoc; repeat split.
Qed.

(** A run of the script returns normally and takes up every uploaded
    file, the single upload first and then the batch in order. *)
Lemma notifies_main (u : uploads) :
  notifies (main u) (map processing_notice (all_files u)).
Proof.
  assert (R : forall (c : M unit) l l', notifies c l -> l = l' -> notifies c l')
    by (intros c l l' H <-; exact H).
  unfold main, all_files. rewrite map_app.
  eapply R.
  - apply notifies_bind; [apply notifies_startup|]. intros _.
    apply notifies_bind; [apply (notifies_emit (st_title _))|]. intros _.
    apply notifies_bind; [apply (notifies_emit (st_write _))|]. intros _.
    apply notifies_bind; [apply (notifies_emit (sidebar_header _))|]. intros _.
    apply notifies_bind; [apply (notifies_emit (sidebar_file_uploader _))|]. intros _.
    apply (notifies_bind _ _
             (map processing_notice
                match uploaded_file u with Some (file, _) => [file] | None => [] end)).
    { destruct (uploaded_file u) as [[file e]|]; cbn [map];
        [apply notifies_process_image | apply notifies_ret]. }
    intros _.
    apply notifies_bind; [apply (notifies_emit (sidebar_file_uploader _))|]. intros _.
    apply (notifies_bind _ _ (map processing_notice (map fst (uploaded_files u))) []).
    { destruct (uploaded_files u) as [|p files] eqn:E; cbn [nonempty].
      - apply notifies_ret.
      - apply notifies_batch. }
    intros _.
    intros w. destruct (csv w) eqn:E; unfold bind, emit, ret; rewrite E.
    + eexists _, tt, _. cbn [trace]. repeat split.
    + exists w, tt, []. now rewrite app_nil_r.
  - cbn [notices flat_map app]. now rewrite app_nil_r.
Qed.

(** C6.  Whatever is raised while an image is processed is caught inside
    [process_image] and reported with the exception's message; the
    routine always returns normally, so a run of the script takes up every
    uploaded file whatever happened to the others. *)
Theorem C6_exceptions_caught_and_reported :
  (forall e file w, exists w', process_image e file w = (w', inr tt))
  /\ (forall e file w w1 err,
        process_image_body e file (after (emit (sidebar_write (processing_notice file))) w)
        = (w1, inl err) ->
        process_image e file w
        = ({| csv := csv w1;
              trace := trace w1
                       ++ [sidebar_error ("⚠️ Error processing image: " ++ exn_msg err)] |},
           inr tt))
  /\ (forall u w, exists w' evs,
        main u w = (w', inr tt)
        /\ trace w' = (trace w ++ evs)%list
        /\ notices evs = map processing_notice (all_files u)).
Proof.
  split; [|split].
  - apply process_image_returns.
  - intros e file w w1 err H.
    unfold process_image, bind at 1, try_except.
    unfold after, processing_notice in H. cbn [fst] in H.
    unfold emit at 1. unfold emit at 1 in H. cbn [fst] in H.
    rewrite H. reflexivity.
  - intros u w.
    destruct (notifies_main u w) as (w' & [] & evs & E & T & N).
    exists w', evs. auto.
Qed.

Lemma C6_witness :
  process_image Sample.env_offline Sample.tower1 Sample.started
  = ({| csv := Some CSV_HEADER;
        trace := [ sidebar_write "🔄 Processing tower1.jpg...";
                   upload_saved "API_results/tower1.jpg" "JFIF";
                   sidebar_error "⚠️ Error processing image: Connection refused" ] |},
     inr tt).
Proof.
  destruct C6_exceptions_caught_and_reported as (_ & H & _).
  rewrite (H Sample.env_offline Sample.tower1 Sample.started
             {| csv := Some CSV_HEADER;
                trace := [ sidebar_write "🔄 Processing tower1.jpg...";
                           upload_saved "API_results/tower1.jpg" "JFIF" ] |}
             (Sample.error "Connection refused") eq_refl).
  reflexivity.
Defined.

(* ================================================================= *)
(** ** The annotator and its caller *)

Lemma draw_bounding_boxes_unreadable (e : env) (image_path : string)
    (antenna_detections : list Detection) :
  imread e image_path = None ->
  draw_bounding_boxes e image_path antenna_detections = inr None.
Proof.
  intros H. unfold draw_bounding_boxes. now rewrite H.
Qed.

(** C8.  When the image cannot be loaded the annotator returns [None]
    and raises nothing, whatever the detections; its caller then ends the
    processing of that image after the table of detections: no annotated
    file is written, no image is displayed, no download is offered and no
    error is reported. *)
Theorem C8_unreadable_image_skipped (e : env) (file : UploadedFile)
    (response : Response) (result : Result) (w : world) :
  save_upload e = None ->
  open_upload e = None ->
  requests_post e = inr response ->
  status_code response = 200%Z ->
  json response = inr result ->
  open_csv e = None ->
  antenna_detections_of result <> [] ->
  imread e (path_join RESULTS_FOLDER (name file)) = None ->
  let text := extracted_text_of result in
  let detections := antenna_detections_of result in
  (forall antenna_detections,
     draw_bounding_boxes e (path_join RESULTS_FOLDER (name file)) antenna_detections
     = inr None)
  /\ process_image e file w
     = ({| csv := Some (dict_get (csv_after_upload file w) ""
                        ++ String.concat "" (csv_rows (name file) text detections));
           trace := trace w
             ++ [ sidebar_write ("🔄 Processing " ++ name file ++ "...");
                  upload_saved (path_join RESULTS_FOLDER (name file)) (getbuffer file) ]
             ++ map csv_row_appended (csv_rows (name file) text detections)
             ++ [ sidebar_success ("✅ Processed: " ++ name file);
                  st_subheader "📝 Extracted Text";
                  st_write (if PyStr.truthy text then text else "No text found");
                  st_subheader "📡 Antenna Detections";
                  st_dataframe detections ] |},
        inr tt).
Proof.
  intros Hs Ho Hp Hc Hj Hcsv Hd Hi text detections.
  split.
  - intros ds. now apply draw_bounding_boxes_unreadable.
  - assert (Hn : nonempty detections = true)
      by (subst detections; destruct (antenna_detections_of result);
          [congruence | reflexivity]).
    unfold_monad. rewrite Hs, Ho, Hp, Hc, Hj. cbn [Z.eqb Pos.eqb].
    rewrite save_results_to_csv_appends by assumption.
    fold detections. rewrite Hn.
    rewrite draw_bounding_boxes_unreadable by assumption.
    cbn [csv trace csv_content].
    unfold csv_after_upload. subst text.
    rewrite <- !app_assoc. reflexivity.
Qed.

Lemma C8_witness :
  process_image (Sample.env_unreadable (Sample.ok Sample.tower1_result))
                Sample.tower1 Sample.started
  = ({| csv := Some (CSV_HEADER ++ "tower1.jpg,TWR-001,,,, " ++ nl
                     ++ "tower1.jpg,,1,panel,[10, 10, 50, 60],0.87" ++ nl);
        trace := [ sidebar_write "🔄 Processing tower1.jpg...";
                   upload_saved "API_results/tower1.jpg" "JFIF";
                   csv_row_appended ("tower1.jpg,TWR-001,,,, " ++ nl);
                   csv_row_appended ("tower1.jpg,,1,panel,[10, 10, 50, 60],0.87" ++ nl);
                   sidebar_success "✅ Processed: tower1.jpg";
                   st_subheader "📝 Extracted Text";
                   st_write "TWR-001";
                   st_subheader "📡 Antenna Detections";
                   st_dataframe [Sample.panel] ] |},
     inr tt).
Proof.
  destruct (C8_unreadable_image_skipped
              (Sample.env_unreadable (Sample.ok Sample.tower1_result))
              Sample.tower1 (Sample.ok Sample.tower1_result)
              Sample.tower1_result Sample.started
              eq_refl eq_refl eq_refl eq_refl eq_refl eq_refl) as [_ H];
    [discriminate | reflexivity |].
  rewrite H. vm_compute. reflexivity.
Defined.

(* ================================================================= *)
(** ** The end-to-end example *)

Lemma format_confidence_panel : PyFloat.format_f 2 0.87 = "0.87".
Proof. vm_compute. reflexivity. Qed.

Lemma format_percent_panel : PyFloat.format_f 1 (0.87 * 100)%float = "87.0".
Proof. vm_compute. reflexivity. Qed.

(** C7, counterexample.  With every external call succeeding, the rows
    appended for [tower1.jpg] are not the two rows of the claim: the text
    row ends in a space after its last comma. *)
Lemma C7_text_row_has_trailing_space :
  rows_appended
    (trace (after (process_image (Sample.env_ok (Sample.ok Sample.tower1_result))
                                 Sample.tower1)
                  Sample.started))
  <> [ "tower1.jpg,TWR-001,,,," ++ nl;
       "tower1.jpg,,1,panel,[10, 10, 50, 60],0.87" ++ nl ].
Proof.
  vm_compute. intros H. discriminate H.
Qed.

(** C7, as amended.  For [tower1.jpg] and the response of the example,
    the CSV file gains exactly the rows [tower1.jpg,TWR-001,,,, ] (with a
    space after the last comma) and
    [tower1.jpg,,1,panel,[10, 10, 50, 60],0.87], and the annotated image
    written to [API_annotated/tower1.jpg] is the loaded image with a green
    rectangle from (10,10) to (50,60), a filled black label background and
    the white label text [panel (87.0%)]. *)
Theorem C7_tower1_end_to_end (e : env) (data : string) (img : Image) (w : world) :
  save_upload e = None ->
  open_upload e = None ->
  requests_post e = inr (Sample.ok Sample.tower1_result) ->
  open_csv e = None ->
  imread e "API_results/tower1.jpg" = Some img ->
  imwrite e = inr true ->
  open_annotated e = None ->
  let file := {| name := "tower1.jpg"; getbuffer := data |} in
  let box_thickness := Z.max 3 (width img / 300) in
  let font_scale := PyFloat.max 0.6 (PyFloat.of_Z (width img) / 1200)%float in
  let text_thickness := Z.max 2 (width img / 600) in
  let text_width := fst (getTextSize e "panel (87.0%)" font_scale text_thickness) in
  let text_height := snd (getTextSize e "panel (87.0%)" font_scale text_thickness) in
  let text_y := Z.max (10 - 10) (text_height + 10) in
  let annotated :=
    {| height := height img; width := width img;
       drawn := drawn img ++
         [ rectangle (10, 10)%Z (50, 60)%Z (0, 255, 0)%Z box_thickness;
           rectangle (10, text_y - text_height - 5)%Z
                     (10 + text_width, text_y + 5)%Z (0, 0, 0)%Z (-1);
           putText "panel (87.0%)" (10, text_y)%Z font_scale
                   (255, 255, 255)%Z text_thickness ] |} in
  process_image e file w
  = ({| csv := Some (csv_content w
                     ++ "tower1.jpg,TWR-001,,,, " ++ nl
                     ++ "tower1.jpg,,1,panel,[10, 10, 50, 60],0.87" ++ nl);
        trace := trace w ++
          [ sidebar_write "🔄 Processing tower1.jpg...";
            upload_saved "API_results/tower1.jpg" data;
            csv_row_appended ("tower1.jpg,TWR-001,,,, " ++ nl);
            csv_row_appended ("tower1.jpg,,1,panel,[10, 10, 50, 60],0.87" ++ nl);
            sidebar_success "✅ Processed: tower1.jpg";
            st_subheader "📝 Extracted Text";
            st_write "TWR-001";
            st_subheader "📡 Antenna Detections";
            st_dataframe [Sample.panel];
            image_written "API_annotated/tower1.jpg" annotated;
            st_columns 2;
            st_image_file "API_results/tower1.jpg" "📷 Original Image";
            st_image_array annotated "🖍 Annotated Image";
            st_download_button "📥 Download Annotated Image"
                               "API_annotated/tower1.jpg" "annotated_tower1.jpg" ] |},
     inr tt).
Proof.
  intros Hs Ho Hp Hcsv Hi Hw Ha file box_thickness font_scale text_thickness
         text_width text_height text_y annotated.
  assert (Ht : extracted_text_of Sample.tower1_result = "TWR-001")
    by (vm_compute; reflexivity).
  assert (Hd : draw_bounding_boxes e "API_results/tower1.jpg" [Sample.panel]
               = inr (Some annotated)).
  { unfold draw_bounding_boxes. rewrite Hi.
    cbn [draw_detections draw_detection Sample.panel bbox class_name confidence unpack4].
    rewrite format_percent_panel.
    change ("panel" ++ " (" ++ "87.0" ++ "%)") with "panel (87.0%)".
    fold font_scale text_thickness.
    subst annotated text_y text_height text_width box_thickness.
    destruct (getTextSize e "panel (87.0%)" font_scale text_thickness) as [tw th].
    unfold draw. cbn [height width drawn fst snd].
    rewrite <- !app_assoc. reflexivity. }
  unfold_monad. rewrite Hs, Ho, Hp.
  cbn [Sample.ok status_code json Z.eqb Pos.eqb].
  rewrite save_results_to_csv_appends by assumption.
  rewrite Ht.
  change (antenna_detections_of Sample.tower1_result) with [Sample.panel].
  cbn [name file nonempty].
  change (path_join RESULTS_FOLDER "tower1.jpg") with "API_results/tower1.jpg".
  change (path_join ANNOTATED_FOLDER "tower1.jpg") with "API_annotated/tower1.jpg".
  rewrite Hd, Hw, Ha.
  assert (Hr : csv_rows "tower1.jpg" "TWR-001" [Sample.panel]
               = [ "tower1.jpg,TWR-001,,,, " ++ nl;
                   "tower1.jpg,,1,panel,[10, 10, 50, 60],0.87" ++ nl ])
    by (vm_compute; reflexivity).
  rewrite Hr.
  cbn [csv trace csv_content dict_get getbuffer file map String.concat
       String.eqb Ascii.eqb Bool.eqb PyStr.truthy].
  rewrite <- !app_assoc. cbn [app].
  rewrite ?append_assoc. reflexivity.
Qed.

Lemma C7_witness :
  process_image (Sample.env_ok (Sample.ok Sample.tower1_result))
                Sample.tower1 Sample.started
  = ({| csv := Some (CSV_HEADER
                     ++ "tower1.jpg,TWR-001,,,, " ++ nl
                     ++ "tower1.jpg,,1,panel,[10, 10, 50, 60],0.87" ++ nl);
        trace :=
          [ sidebar_write "🔄 Processing tower1.jpg...";
            upload_saved "API_results/tower1.jpg" "JFIF";
            csv_row_appended ("tower1.jpg,TWR-001,,,, " ++ nl);
            csv_row_appended ("tower1.jpg,,1,panel,[10, 10, 50, 60],0.87" ++ nl);
            sidebar_success "✅ Processed: tower1.jpg";
            st_subheader "📝 Extracted Text";
            st_write "TWR-001";
            st_subheader "📡 Antenna Detections";
            st_dataframe [Sample.panel];
            image_written "API_annotated/tower1.jpg"
              {| height := 480; width := 640;
                 drawn := [ rectangle (10, 10)%Z (50, 60)%Z (0, 255, 0)%Z 3;
                            rectangle (10, 5)%Z (130, 33)%Z (0, 0, 0)%Z (-1);
                            putText "panel (87.0%)" (10, 28)%Z 0.6
                                    (255, 255, 255)%Z 2 ] |};
            st_columns 2;
            st_image_file "API_results/tower1.jpg" "📷 Original Image";
            st_image_array
              {| height := 480; width := 640;
                 drawn := [ rectangle (10, 10)%Z (50, 60)%Z (0, 255, 0)%Z 3;
                            rectangle (10, 5)%Z (130, 33)%Z (0, 0, 0)%Z (-1);
                            putText "panel (87.0%)" (10, 28)%Z 0.6
                                    (255, 255, 255)%Z 2 ] |}
              "🖍 Annotated Image";
            st_download_button "📥 Download Annotated Image"
                               "API_annotated/tower1.jpg" "annotated_tower1.jpg" ] |},
     inr tt).
Proof.
  refine (eq_trans
            (C7_tower1_end_to_end
               (Sample.env_ok (Sample.ok Sample.tower1_result)) "JFIF"
               Sample.blank_image Sample.started
               eq_refl eq_refl eq_refl eq_refl eq_refl eq_refl eq_refl) _).
  vm_compute. reflexivity.
Defined.

(* ================================================================= *)
(** ** Blank text, commas and newlines *)

(** A row is the line before its final newline: if the chunk is
    [line ++ nl] in two ways, the lines agree. *)
Lemma six_field_row_line (line : string) :
  six_field_row (line ++ nl) ->
  PyStr.count (ascii_of_N 10) line = 0 /\ PyStr.count "," line = 5.
Proof.
  intros (line' & E & Hn & Hf).
  apply append_inj_r in E. subst line'.
  rewrite length_fields in Hf. split; [assumption | lia].
Qed.

(** C10.  The recorder writes its arguments into the rows as they are.
    A comma in the extracted text gives the text row more than six
    comma-separated fields, a comma in a class name does the same to that
    detection's row, and a row can only be one line of six fields when the
    text (or class name) in it holds neither a comma nor a newline. *)
Theorem C10_no_quoting (e : env) (image_name extracted_text : string)
    (antenna_detections : list Detection) (w : world) :
  open_csv e = None ->
  let N := List.length antenna_detections in
  let text_line := image_name ++ "," ++ extracted_text ++ ",,,, " in
  let detection_line d :=
    image_name ++ ",," ++ PyStr.of_nat N ++ "," ++ class_name d ++ ","
    ++ str_bbox (bbox d) ++ "," ++ PyFloat.format_f 2 (confidence d) in
  rows_appended
    (skipn (List.length (trace w))
       (trace (after (save_results_to_csv e image_name extracted_text
                        antenna_detections) w)))
  = (if PyStr.truthy extracted_text then text_line ++ nl
     else image_name ++ ",No text found,,,, " ++ nl)
    :: (if nonempty antenna_detections
        then map (fun d => detection_line d ++ nl) antenna_detections
        else [image_name ++ ",,0,No detection,N/A,N/A" ++ nl])
  /\ (PyStr.count "," extracted_text > 0 -> List.length (fields text_line) > 6)
  /\ (forall d, PyStr.count "," (class_name d) > 0 ->
                List.length (fields (detection_line d)) > 6)
  /\ (six_field_row (text_line ++ nl) ->
      PyStr.count "," extracted_text = 0
      /\ PyStr.count (ascii_of_N 10) extracted_text = 0)
  /\ (forall d, six_field_row (detection_line d ++ nl) ->
                PyStr.count "," (class_name d) = 0
                /\ PyStr.count (ascii_of_N 10) (class_name d) = 0).
Proof.
  intros Ho N text_line detection_line.
  split; [|split; [|split; [|split]]].
  - unfold after.
    rewrite save_results_to_csv_appends by assumption. cbn [fst trace].
    rewrite skipn_app, skipn_all, Nat.sub_diag. cbn [skipn app].
    rewrite rows_appended_rows. unfold csv_rows, text_row, no_detection_row.
    subst text_line detection_line N. f_equal.
    + destruct (PyStr.truthy extracted_text); [|reflexivity].
      now rewrite !append_assoc.
    + destruct (nonempty antenna_detections); [|reflexivity].
      apply map_ext. intros d0. unfold detection_row. now rewrite !append_assoc.
  - intros Hc. subst text_line. rewrite length_fields, !count_app.
    change (PyStr.count "," ",") with 1.
    change (PyStr.count "," ",,,, ") with 4. lia.
  - intros d Hc. subst detection_line. cbv beta.
    rewrite length_fields, !count_app.
    change (PyStr.count "," ",") with 1.
    change (PyStr.count "," ",,") with 2. lia.
  - intros H. apply six_field_row_line in H as [Hn Hc].
    subst text_line. rewrite !count_app in Hn, Hc.
    change (PyStr.count "," ",") with 1 in Hc.
    change (PyStr.count "," ",,,, ") with 4 in Hc. lia.
  - intros d H. apply six_field_row_line in H as [Hn Hc].
    subst detection_line. cbv beta in Hn, Hc. rewrite !count_app in Hn, Hc.
    change (PyStr.count "," ",") with 1 in Hc.
    change (PyStr.count "," ",,") with 2 in Hc. lia.
Qed.

Lemma C10_witness :
  List.length (fields ("tower1.jpg" ++ "," ++ "TWR-001, north" ++ ",,,, ")) > 6
  /\ List.length
       (fields ("tower1.jpg" ++ ",," ++ PyStr.of_nat 0 ++ "," ++ "dish, small" ++ ","
                ++ str_bbox [5; 6; 7; 8]%Z ++ "," ++ PyFloat.format_f 2 0.5)) > 6.
Proof.
  destruct (C10_no_quoting (Sample.env_ok (Sample.ok Sample.tower1_result))
              "tower1.jpg" "TWR-001, north" [] Sample.started eq_refl)
    as (_ & H1 & H2 & _).
  split.
  - apply H1. vm_compute. lia.
  - apply (H2 Sample.dish). vm_compute. lia.
Defined.

(** With a bounding box of four coordinates a detection row never has the
    six fields of the header: the box itself brings three commas. *)
Lemma detection_row_has_nine_fields :
  fields "tower1.jpg,,1,panel,[10, 10, 50, 60],0.87"
  = ["tower1.jpg"; ""; "1"; "panel"; "[10"; " 10"; " 50"; " 60]"; "0.87"].
Proof. reflexivity. Qed.

(** A bounding box with three coordinates: the rows are already in the
    CSV file when the annotator fails to unpack it, and the failure is
    reported like any other. *)
Lemma malformed_bbox_reported :
  process_image
    (Sample.env_ok
       (Sample.ok {| text_detections := None;
                     antenna_detections :=
                       Some [ {| class_name := "panel"; bbox := [10; 10; 50]%Z;
                                 confidence := 0.87 |} ] |}))
    Sample.tower1 Sample.started
  = ({| csv := Some (CSV_HEADER ++ "tower1.jpg,No text found,,,, " ++ nl
                     ++ "tower1.jpg,,1,panel,[10, 10, 50],0.87" ++ nl);
        trace :=
          [ sidebar_write "🔄 Processing tower1.jpg...";
            upload_saved "API_results/tower1.jpg" "JFIF";
            csv_row_appended ("tower1.jpg,No text found,,,, " ++ nl);
            csv_row_appended ("tower1.jpg,,1,panel,[10, 10, 50],0.87" ++ nl);
            sidebar_success "✅ Processed: tower1.jpg";
            st_subheader "📝 Extracted Text";
            st_write "No text found";
            st_subheader "📡 Antenna Detections";
            st_dataframe [ {| class_name := "panel"; bbox := [10; 10; 50]%Z;
                              confidence := 0.87 |} ];
            sidebar_error
              "⚠️ Error processing image: not enough values to unpack (expected 4, got 3)" ] |},
     inr tt).
Proof. vm_compute. reflexivity. Qed.

(* ================================================================= *)
(** ** The annotator, detection by detection *)

Lemma four_coordinates (d : Detection) :
  has_four_coordinates d = true ->
  exists x1 y1 x2 y2, bbox d = [x1; y1; x2; y2].
Proof.
  unfold has_four_coordinates.
  destruct (bbox d) as [|x1 [|y1 [|x2 [|y2 [|z l]]]]]; try discriminate.
  intros _. now exists x1, y1, x2, y2.
Qed.

Lemma draw_detection_four (e : env) (wd : Z) (img : Image) (d : Detection) :
  has_four_coordinates d = true ->
  draw_detection e (box_thickness_of wd) (font_scale_of wd) (text_thickness_of wd)
                 img d
  = inr {| height := height img; width := width img;
           drawn := drawn img ++ detection_ops e wd d |}.
Proof.
  intros H. destruct (four_coordinates d H) as (x1 & y1 & x2 & y2 & E).
  unfold draw_detection, detection_ops. rewrite E. cbn [unpack4].
  fold (label_of d).
  destruct (getTextSize e (label_of d) (font_scale_of wd) (text_thickness_of wd))
    as [tw th].
  unfold draw. cbn [height width drawn fst snd].
  now rewrite <- !app_assoc.
Qed.

Lemma draw_detection_other (e : env) (bt : Z) (fs : float) (tt : Z)
    (img : Image) (d : Detection) :
  has_four_coordinates d = false ->
  exists err,
    draw_detection e bt fs tt img d = inl err
    /\ exn_class err = "ValueError".
Proof.
  unfold has_four_coordinates, draw_detection.
  destruct (bbox d) as [|x1 [|y1 [|x2 [|y2 [|z l]]]]]; try discriminate;
    intros _; cbn; eexists; split; reflexivity.
Qed.

Lemma draw_detections_four (e : env) (wd : Z) (antenna_detections : list Detection) :
  forall img,
    forallb has_four_coordinates antenna_detections = true ->
    draw_detections e (box_thickness_of wd) (font_scale_of wd) (text_thickness_of wd)
                    img antenna_detections
    = inr {| height := height img; width := width img;
             drawn := drawn img ++ flat_map (detection_ops e wd) antenna_detections |}.
Proof.
  induction antenna_detections as [|d ds IH]; intros img H; cbn [draw_detections].
  - cbn [flat_map]. rewrite app_nil_r. now destruct img.
  - cbn [forallb] in H. apply andb_true_iff in H as [Hd Hds].
    rewrite draw_detection_four by assumption.
    rewrite IH by assumption. cbn [height width drawn flat_map].
    now rewrite <- app_assoc.
Qed.

Lemma draw_detections_other (e : env) (bt : Z) (fs : float) (tt : Z)
    (antenna_detections : list Detection) :
  forall img,
    forallb has_four_coordinates antenna_detections = false ->
    exists err,
      draw_detections e bt fs tt img antenna_detections = inl err
      /\ exn_class err = "ValueError".
Proof.
  induction antenna_detections as [|d ds IH]; intros img H; cbn [draw_detections].
  - discriminate H.
  - cbn [forallb] in H.
    destruct (has_four_coordinates d) eqn:Hd.
    + destruct (four_coordinates d Hd) as (x1 & y1 & x2 & y2 & E).
      unfold draw_detection at 1. rewrite E. cbn [unpack4].
      destruct (getTextSize e _ fs tt) as [tw th].
      now apply IH.
    + destruct (draw_detection_other e bt fs tt img d Hd) as (err & -> & C).
      now exists err.
Qed.

Lemma draw_bounding_boxes_four (e : env) (image_path : string) (img : Image)
    (antenna_detections : list Detection) :
  imread e image_path = Some img ->
  forallb has_four_coordinates antenna_detections = true ->
  draw_bounding_boxes e image_path antenna_detections
  = inr (Some (annotated e img antenna_detections)).
Proof.
  intros Hi H. unfold draw_bounding_boxes. rewrite Hi.
  fold (box_thickness_of (width img)) (font_scale_of (width img))
       (text_thickness_of (width img)).
  now rewrite draw_detections_four.
Qed.

Lemma draw_bounding_boxes_other (e : env) (image_path : string) (img : Image)
    (antenna_detections : list Detection) :
  imread e image_path = Some img ->
  forallb has_four_coordinates antenna_detections = false ->
  exists err,
    draw_bounding_boxes e image_path antenna_detections = inl err
    /\ exn_class err = "ValueError".
Proof.
  intros Hi H. unfold draw_bounding_boxes. rewrite Hi.
  destruct (draw_detections_other e (Z.max 3 (width img / 300))
              (PyFloat.max 0.6 (PyFloat.of_Z (width img) / 1200)%float)
              (Z.max 2 (width img / 600)) antenna_detections img H)
    as (err & -> & C).
  now exists err.
Qed.

(** The scale of the label font is never below 0.6 (and is a number). *)
Lemma font_scale_at_least (wd : Z) :
  PrimFloat.leb 0.6 (font_scale_of wd) = true.
Proof.
  unfold font_scale_of, PyFloat.max.
  destruct (PrimFloat.ltb 0.6 (PyFloat.of_Z wd / 1200)) eqn:E.
  - rewrite FloatAxioms.leb_spec. rewrite FloatAxioms.ltb_spec in E.
    unfold SFleb. unfold SFltb in E.
    destruct (SFcompare _ _) as [[| |]|]; try discriminate E; reflexivity.
  - vm_compute. reflexivity.
Qed.

(** X2.  Where the annotator puts things.  For a detection with box
    [x1, y1, x2, y2] it draws a green rectangle with exactly these corners,
    at least 3 pixels thick; the label is [<class> (<confidence*100, one
    decimal>%)], written in white at [x1] with a font scale of at least 0.6
    and a thickness of at least 2; its baseline is 10 pixels above the box
    unless that would push the filled black background above row 5 of the
    image, so the background never starts above row 5. *)
Theorem X2_annotator_geometry (e : env) (image_path : string) (img img' : Image)
    (antenna_detections : list Detection) (d : Detection) (x1 y1 x2 y2 : Z) :
  imread e image_path = Some img ->
  draw_bounding_boxes e image_path antenna_detections = inr (Some img') ->
  In d antenna_detections ->
  bbox d = [x1; y1; x2; y2] ->
  exists before later box_thickness font_scale text_thickness text_width
         text_height text_y,
    drawn img'
    = (before
       ++ [ rectangle (x1, y1) (x2, y2) (0, 255, 0)%Z box_thickness;
            rectangle (x1, text_y - text_height - 5)%Z
                      (x1 + text_width, text_y + 5)%Z (0, 0, 0)%Z (-1);
            putText (class_name d ++ " ("
                     ++ PyFloat.format_f 1 (confidence d * 100)%float ++ "%)")
                    (x1, text_y) font_scale (255, 255, 255)%Z text_thickness ]
       ++ later)%list
    /\ (3 <= box_thickness)%Z
    /\ (2 <= text_thickness)%Z
    /\ PrimFloat.leb 0.6 font_scale = true
    /\ (text_width, text_height)
       = getTextSize e (class_name d ++ " ("
                        ++ PyFloat.format_f 1 (confidence d * 100)%float ++ "%)")
                     font_scale text_thickness
    /\ text_y = Z.max (y1 - 10) (text_height + 10)
    /\ (5 <= text_y - text_height - 5)%Z.
Proof.
  intros Hi Hd Hin Hb.
  assert (H4 : forallb has_four_coordinates antenna_detections = true).
  { destruct (forallb has_four_coordinates antenna_detections) eqn:E; [reflexivity|].
    destruct (draw_bounding_boxes_other e image_path img antenna_detections Hi E)
      as (err & E' & _).
    rewrite E' in Hd. discriminate Hd. }
  rewrite (draw_bounding_boxes_four e image_path img antenna_detections Hi H4) in Hd.
  injection Hd as <-.
  destruct (in_split d antenna_detections Hin) as (l1 & l2 & ->).
  cbn [annotated drawn]. rewrite flat_map_app. cbn [flat_map].
  unfold detection_ops at 2. rewrite Hb. fold (label_of d).
  set (size := getTextSize e (label_of d) (font_scale_of (width img))
                           (text_thickness_of (width img))).
  exists (drawn img ++ flat_map (detection_ops e (width img)) l1)%list,
         (flat_map (detection_ops e (width img)) l2),
         (box_thickness_of (width img)), (font_scale_of (width img)),
         (text_thickness_of (width img)), (fst size), (snd size),
         (Z.max (y1 - 10) (snd size + 10)).
  repeat split.
  - now rewrite <- !app_assoc.
  - unfold box_thickness_of. lia.
  - unfold text_thickness_of. lia.
  - apply font_scale_at_least.
  - subst size. now destruct (getTextSize e _ _ _).
  - lia.
Qed.

Lemma X2_witness :
  exists before later box_thickness font_scale text_thickness text_width
         text_height text_y,
    drawn (annotated (Sample.env_ok (Sample.ok Sample.tower1_result))
                     Sample.blank_image [Sample.panel; Sample.dish])
    = (before
       ++ [ rectangle (5, 6)%Z (7, 8)%Z (0, 255, 0)%Z box_thickness;
            rectangle (5, text_y - text_height - 5)%Z
                      (5 + text_width, text_y + 5)%Z (0, 0, 0)%Z (-1);
            putText ("dish, small" ++ " ("
                     ++ PyFloat.format_f 1 (0.5 * 100)%float ++ "%)")
                    (5, text_y)%Z font_scale (255, 255, 255)%Z text_thickness ]
       ++ later)%list
    /\ (3 <= box_thickness)%Z
    /\ (2 <= text_thickness)%Z
    /\ PrimFloat.leb 0.6 font_scale = true
    /\ (text_width, text_height)
       = getTextSize (Sample.env_ok (Sample.ok Sample.tower1_result))
                     ("dish, small" ++ " ("
                      ++ PyFloat.format_f 1 (0.5 * 100)%float ++ "%)")
                     font_scale text_thickness
    /\ text_y = Z.max (6 - 10) (text_height + 10)
    /\ (5 <= text_y - text_height - 5)%Z.
Proof.
  apply (X2_annotator_geometry
           (Sample.env_ok (Sample.ok Sample.tower1_result))
           "API_results/tower1.jpg" Sample.blank_image
           (annotated (Sample.env_ok (Sample.ok Sample.tower1_result))
                      Sample.blank_image [Sample.panel; Sample.dish])
           [Sample.panel; Sample.dish] Sample.dish 5 6 7 8).
  - reflexivity.
  - vm_compute. reflexivity.
  - simpl. auto.
  - reflexivity.
Defined.

(* ================================================================= *)
(** ** Per-image processing: every outcome *)

(** A successful response with detections: what happens after the rows
    are recorded depends on the annotator, on [cv2.imwrite] and on opening
    the annotated file for the download. *)
Lemma process_image_200_detections (e : env) (file : UploadedFile)
    (response : Response) (result : Result) (w : world) :
  save_upload e = None ->
  open_upload e = None ->
  requests_post e = inr response ->
  status_code response = 200%Z ->
  json response = inr result ->
  open_csv e = None ->
  antenna_detections_of result <> [] ->
  let detections := antenna_detections_of result in
  let file_path := path_join RESULTS_FOLDER (name file) in
  let annotated_path := path_join ANNOTATED_FOLDER (name file) in
  let w0 := and_then (recorded file result w)
              [st_subheader "📡 Antenna Detections"; st_dataframe detections] in
  process_image e file w
  = match draw_bounding_boxes e file_path detections with
    | inl err => (and_then w0 [error_report err], inr tt)
    | inr None => (w0, inr tt)
    | inr (Some img) =>
        match imwrite e with
        | inl err => (and_then w0 [error_report err], inr tt)
        | inr written =>
            let shown :=
              ((if written : bool then [image_written annotated_path img] else [])
               ++ [ st_columns 2;
                    st_image_file file_path "📷 Original Image";
                    st_image_array img "🖍 Annotated Image" ])%list in
            match open_annotated e with
            | Some err => (and_then w0 (shown ++ [error_report err]), inr tt)
            | None =>
                (and_then w0
                   (shown ++ [st_download_button "📥 Download Annotated Image"
                                annotated_path ("annotated_" ++ name file)]),
                 inr tt)
            end
        end
    end.
Proof.
  intros Hs Ho Hp Hc Hj Hcsv Hd detections file_path annotated_path w0.
  assert (Hn : nonempty detections = true)
    by (subst detections; destruct (antenna_detections_of result);
        [congruence | reflexivity]).
  unfold_monad. rewrite Hs, Ho, Hp, Hc, Hj. cbn [Z.eqb Pos.eqb].
  rewrite save_results_to_csv_appends by assumption.
  fold detections file_path annotated_path. rewrite Hn.
  subst w0. unfold and_then, recorded, error_report, processing_notice,
            csv_after_upload.
  fold detections file_path.
  cbn [csv trace csv_content].
  destruct (draw_bounding_boxes e file_path detections) as [err | [img|]].
  - cbn [csv trace]. rewrite <- !app_assoc. reflexivity.
  - destruct (imwrite e) as [err | [|]].
    + cbn [csv trace]. rewrite <- !app_assoc. reflexivity.
    + destruct (open_annotated e) as [err|];
        cbv zeta; cbn [csv trace]; rewrite <- !app_assoc; reflexivity.
    + destruct (open_annotated e) as [err|];
        cbv zeta; cbn [csv trace]; rewrite <- !app_assoc; reflexivity.
  - cbn [csv trace]. rewrite <- !app_assoc. reflexivity.
Qed.



(** X6.  Failures before the recorder.  When the upload cannot be saved
    only the notice and the error report happen.  When the saved upload
    cannot be opened, the request fails, the body of a 200 response is not
    JSON, or the CSV file cannot be opened, the upload stays saved and the
    error is reported: no row is appended and nothing is displayed. *)
Theorem X6_failure_before_recording (e : env) (file : UploadedFile) (err : exn)
    (w : world) :
  (save_upload e = Some err ->
   process_image e file w
   = (and_then w [sidebar_write (processing_notice file); error_report err], inr tt))
  /\ (save_upload e = None -> open_upload e = Some err ->
      process_image e file w = (and_then (uploaded file w) [error_report err], inr tt))
  /\ (save_upload e = None -> open_upload e = None ->
      requests_post e = inl err ->
      process_image e file w = (and_then (uploaded file w) [error_report err], inr tt))
  /\ (forall response,
        save_upload e = None -> open_upload e = None ->
        requests_post e = inr response -> status_code response = 200%Z ->
        json response = inl err ->
        process_image e file w
        = (and_then (uploaded file w) [error_report err], inr tt))
  /\ (forall response result,
        save_upload e = None -> open_upload e = None ->
        requests_post e = inr response -> status_code response = 200%Z ->
        json response = inr result ->
        open_csv e = Some err ->
        process_image e file w
        = (and_then (uploaded file w) [error_report err], inr tt)).
Proof.
  unfold and_then, uploaded, error_report, processing_notice, csv_after_upload.
  repeat split.
  - intros Hs. unfold_monad. rewrite Hs. cbn [csv trace].
    now rewrite <- !app_assoc.
  - intros Hs Ho. unfold_monad. rewrite Hs, Ho. cbn [csv trace].
    now rewrite <- !app_assoc.
  - intros Hs Ho Hp. unfold_monad. rewrite Hs, Ho, Hp. cbn [csv trace].
    now rewrite <- !app_assoc.
  - intros response Hs Ho Hp Hc Hj. unfold_monad. rewrite Hs, Ho, Hp, Hc, Hj.
    cbn [Z.eqb Pos.eqb csv trace]. now rewrite <- !app_assoc.
  - intros response result Hs Ho Hp Hc Hj Hcsv.
    unfold_monad. rewrite Hs, Ho, Hp, Hc, Hj. cbn [Z.eqb Pos.eqb].
    unfold save_results_to_csv, open_csv_append, bind, call, raise.
    rewrite Hcsv. cbn [csv trace]. now rewrite <- !app_assoc.
Qed.

Lemma X6_witness :
  process_image
    (Sample.env_ok {| status_code := 200;
                      json := inl (Sample.error "Expecting value") |})
    Sample.tower1 Sample.started
  = ({| csv := Some CSV_HEADER;
        trace := [ sidebar_write "🔄 Processing tower1.jpg...";
                   upload_saved "API_results/tower1.jpg" "JFIF";
                   sidebar_error "⚠️ Error processing image: Expecting value" ] |},
     inr tt).
Proof.
  destruct (X6_failure_before_recording
              (Sample.env_ok {| status_code := 200;
                                json := inl (Sample.error "Expecting value") |})
              Sample.tower1 (Sample.error "Expecting value") Sample.started)
    as (_ & _ & _ & H & _).
  rewrite (H _ eq_refl eq_refl eq_refl eq_refl eq_refl).
  reflexivity.
Defined.

(* ================================================================= *)
(** ** Uploads and the results file *)

(** The path of an upload is the path of [results.csv] only for an
    upload of that name. *)
Lemma upload_path_is_csv (n : string) :
  path_join RESULTS_FOLDER n = CSV_FILE <-> n = "results.csv".
Proof.
  split.
  - unfold path_join, RESULTS_FOLDER.
    change CSV_FILE with "API_results/results.csv".
    destruct (String.prefix "/" n) eqn:P.
    + intros ->. discriminate P.
    + cbn. intros H. now injection H.
  - intros ->. reflexivity.
Qed.

(* ================================================================= *)
(** ** Relations a computation keeps between the worlds *)

Section Keeps.

Variable R : world -> world -> Prop.
Hypothesis R_refl : forall w, R w w.
Hypothesis R_trans : forall w1 w2 w3, R w1 w2 -> R w2 w3 -> R w1 w3.

Lemma keeps_ret {A} (a : A) : keeps R (ret a).
Proof. intros w. apply R_refl. Qed.

Lemma keeps_raise {A} (err : exn) : keeps R (@raise A err).
Proof. intros w. apply R_refl. Qed.

Lemma keeps_call (o : option exn) : keeps R (call o).
Proof. destruct o; [apply keeps_raise | apply keeps_ret]. Qed.

Lemma keeps_call_value {A} (o : exn + A) : keeps R (call_value o).
Proof. destruct o; [apply keeps_raise | apply keeps_ret]. Qed.

Lemma keeps_bind {A B} (c : M A) (k : A -> M B) :
  keeps R c -> (forall a, keeps R (k a)) -> keeps R (bind c k).
Proof.
  intros Hc Hk w. specialize (Hc w). unfold after in *. unfold bind.
  destruct (c w) as [w' [err | a]]; cbn [fst] in *; [assumption|].
  apply (R_trans _ w'); [assumption | apply Hk].
Qed.

Lemma keeps_try_except (body : M unit) (handler : exn -> M unit) :
  keeps R body -> (forall err, keeps R (handler err)) ->
  keeps R (try_except body handler).
Proof.
  intros Hb Hh w. specialize (Hb w). unfold after in *. unfold try_except.
  destruct (body w) as [w' [err | []]]; cbn [fst] in *; [|assumption].
  apply (R_trans _ w'); [assumption | apply Hh].
Qed.

Lemma keeps_for_each {A} (l : list A) (body : A -> M unit) :
  (forall x, keeps R (body x)) -> keeps R (for_each l body).
Proof.
  intros Hb. induction l as [|x l IH]; cbn [for_each].
  - apply keeps_ret.
  - apply keeps_bind; auto.
Qed.

End Keeps.

(* ================================================================= *)
(** ** The shape of the rows *)

Lemma count_comma_nilzero (d : Decimal.uint) :
  PyStr.count "," (NilZero.string_of_uint d) = 0.
Proof.
  unfold NilZero.string_of_uint.
  destruct d; try apply count_comma_of_uint; reflexivity.
Qed.

(** The decimal digits of an int, with its sign, hold no comma. *)
Lemma count_comma_of_Z (z : Z) : PyStr.count "," (PyStr.of_Z z) = 0.
Proof.
  unfold PyStr.of_Z, NilZero.string_of_int.
  destruct (Z.to_int z) as [d|d]; cbn [PyStr.count];
    rewrite ?count_comma_nilzero; reflexivity.
Qed.

Lemma count_comma_repeat_zero (n : nat) :
  PyStr.count "," (PyStr.repeat_char "0" n) = 0.
Proof. induction n as [|n IH]; [reflexivity | exact IH]. Qed.

(** A formatted float holds no comma. *)
Lemma count_comma_format_f (nd : nat) (x : float) :
  PyStr.count "," (PyFloat.format_f nd x) = 0.
Proof.
  assert (S : forall s, PyStr.count "," (PyFloat.sign s) = 0)
    by (intros [|]; reflexivity).
  assert (D : forall n, PyStr.count "," (PyFloat.digits nd n) = 0).
  { intros n. unfold PyFloat.digits. rewrite count_app, count_comma_of_Z.
    destruct (Nat.eqb nd 0); [reflexivity|].
    unfold PyStr.rjust0.
    rewrite !count_app, count_comma_repeat_zero, count_comma_of_Z. reflexivity. }
  unfold PyFloat.format_f.
  destruct (Prim2SF x); rewrite ?count_app, ?S, ?D; reflexivity.
Qed.

Lemma count_comma_join (l : list string) :
  Forall (fun s => PyStr.count "," s = 0) l ->
  PyStr.count "," (PyStr.join ", " l) = pred (List.length l).
Proof.
  unfold PyStr.join. induction 1 as [|a l Ha Hl IH]; [reflexivity|].
  destruct l as [|b l].
  - cbn [String.concat List.length pred]. exact Ha.
  - change (String.concat ", " (a :: b :: l))
      with (a ++ ", " ++ String.concat ", " (b :: l)).
    rewrite !count_app, Ha, IH. reflexivity.
Qed.

(** A printed bounding box holds one comma less than it has coordinates. *)
Lemma count_comma_str_bbox (b : list Z) :
  PyStr.count "," (str_bbox b) = pred (List.length b).
Proof.
  unfold str_bbox. rewrite !count_app, count_comma_join.
  - rewrite length_map.
    change (PyStr.count "," "[") with 0. change (PyStr.count "," "]") with 0. lia.
  - apply Forall_forall. intros s Hs. apply in_map_iff in Hs as (z & <- & _).
    apply count_comma_of_Z.
Qed.

(** X9.  The number of comma-separated fields of the rows.  The text row
    has six fields plus one per comma in the image name and in the text.
    A detection row has six fields plus one per comma in the image name and
    in the class name, plus one per coordinate of the bounding box beyond
    the first: the box is printed as a Python list, commas included, so a
    row with a four-coordinate box has at least nine fields, not the six of
    the header. *)
Theorem X9_fields_of_the_rows (e : env) (image_name extracted_text : string)
    (antenna_detections : list Detection) (w : world) :
  open_csv e = None ->
  extracted_text <> "" ->
  antenna_detections <> [] ->
  let N := List.length antenna_detections in
  let text_line := image_name ++ "," ++ extracted_text ++ ",,,, " in
  let detection_line d :=
    image_name ++ ",," ++ PyStr.of_nat N ++ "," ++ class_name d ++ ","
    ++ str_bbox (bbox d) ++ "," ++ PyFloat.format_f 2 (confidence d) in
  rows_appended
    (skipn (List.length (trace w))
       (trace (after (save_results_to_csv e image_name extracted_text
                        antenna_detections) w)))
  = (text_line ++ nl) :: map (fun d => detection_line d ++ nl) antenna_detections
  /\ List.length (fields text_line)
     = 6 + PyStr.count "," image_name + PyStr.count "," extracted_text
  /\ forall d,
       List.length (fields (detection_line d))
       = 6 + PyStr.count "," image_name + PyStr.count "," (class_name d)
         + pred (List.length (bbox d)).
Proof.
  intros Ho Ht Hd N text_line detection_line.
  split; [|split].
  - unfold after.
    rewrite save_results_to_csv_appends by assumption. cbn [fst trace].
    rewrite skipn_app, skipn_all, Nat.sub_diag. cbn [skipn app].
    rewrite rows_appended_rows. unfold csv_rows, text_row.
    destruct extracted_text; [congruence|].
    destruct antenna_detections; [congruence|].
    cbn [PyStr.truthy nonempty]. subst text_line detection_line N.
    f_equal; [now rewrite !append_assoc|].
    apply map_ext. intros d0. unfold detection_row. now rewrite !append_assoc.
  - subst text_line. rewrite length_fields, !count_app.
    change (PyStr.count "," ",") with 1.
    change (PyStr.count "," ",,,, ") with 4. lia.
  - intros d. subst detection_line. cbv beta.
    rewrite length_fields, !count_app.
    rewrite count_comma_of_nat, count_comma_str_bbox, count_comma_format_f.
    change (PyStr.count "," ",") with 1.
    change (PyStr.count "," ",,") with 2. lia.
Qed.

Lemma X9_witness :
  List.length (fields ("tower1.jpg" ++ ",," ++ PyStr.of_nat 1 ++ "," ++ "panel" ++ ","
                       ++ str_bbox [10; 10; 50; 60]%Z ++ ","
                       ++ PyFloat.format_f 2 0.87))
  = 6 + 0 + 0 + 3.
Proof.
  destruct (X9_fields_of_the_rows (Sample.env_ok (Sample.ok Sample.tower1_result))
              "tower1.jpg" "TWR-001" [Sample.panel] Sample.started eq_refl)
    as (_ & _ & H); [discriminate | discriminate |].
  exact (H Sample.panel).
Defined.

(* ================================================================= *)
(** ** A run of the script, from start-up to the CSV download *)

Lemma steady_ret : steady (ret tt).
Proof.
  intros w Hw. exists w, []. now rewrite app_nil_r.
Qed.

Lemma steady_emit (ev : event) : steady (emit ev).
Proof.
  intros w Hw. eexists _, [ev]. unfold emit. cbn [csv trace]. auto.
Qed.

Lemma steady_bind (c k : M unit) : steady c -> steady k -> steady (c ;; k).
Proof.
  intros Hc Hk w Hw.
  destruct (Hc w Hw) as (w1 & evs1 & E1 & T1 & C1).
  destruct (Hk w1 C1) as (w2 & evs2 & E2 & T2 & C2).
  exists w2, (evs1 ++ evs2)%list. unfold bind.
  rewrite E1, E2, T2, T1, app_assoc. auto.
Qed.

Lemma steady_process_image (e : env) (file : UploadedFile) :
  steady (process_image e file).
Proof.
  intros w Hw.
  destruct (process_image_returns e file w) as (w' & E).
  destruct (emits_process_image e file w) as (evs & T & _ & C).
  unfold after in *. rewrite E in *. cbn [fst] in *.
  exists w', evs. auto.
Qed.

Lemma steady_batch (files : list (UploadedFile * env)) :
  steady (for_each files (fun '(file, e) => process_image e file ;; emit (sleep 1))).
Proof.
  induction files as [|[file e] files IH]; cbn [for_each].
  - apply steady_ret.
  - apply steady_bind; [|exact IH].
    apply steady_bind; [apply steady_process_image | apply steady_emit].
Qed.

Lemma ends_with_download_after (c k : M unit) :
  steady c -> ends_with_download k -> ends_with_download (c ;; k).
Proof.
  intros Hc Hk w Hw.
  destruct (Hc w Hw) as (w1 & evs1 & E1 & T1 & C1).
  destruct (Hk w1 C1) as (w2 & evs2 & E2 & T2 & C2).
  exists w2, (evs1 ++ evs2)%list. unfold bind.
  rewrite E1, E2, T2, T1, <- !app_assoc. auto.
Qed.

(** The end of the script: with the file in place the download is
    offered. *)
Lemma ends_with_download_last :
  ends_with_download
    (exists_csv <- (fun w => (w, inr (match csv w with Some _ => true | None => false end))) ;;
     if exists_csv : bool
     then emit (sidebar_download_button "📥 Download CSV Results" CSV_FILE "results.csv")
     else ret tt).
Proof.
  intros w Hw. unfold bind, emit.
  destruct (csv w) as [c|] eqn:E; [|congruence].
  eexists _, []. cbn [csv trace app]. rewrite E.
  repeat split. discriminate.
Qed.

(** Start-up returns normally and leaves [results.csv] in place. *)
Lemma startup_creates (w : world) :
  exists w0 evs,
    startup w = (w0, inr tt)
    /\ trace w0 = (trace w ++ evs)%list
    /\ csv w0 = Some (match csv w with Some c => c | None => CSV_HEADER end).
Proof.
  unfold startup, write_csv_header, bind, emit, ret. cbn [csv trace].
  destruct (csv w) as [c|] eqn:E; cbn [negb];
    eexists _, _; cbn [csv trace]; rewrite <- ?app_assoc; repeat split.
Qed.

(** X11.  Every run of the script returns normally and ends by offering
    the CSV download, whether or not anything was uploaded and whatever
    happened to the uploads: start-up has made sure that the file exists,
    and nothing in a run removes it. *)
Theorem X11_download_always_offered (u : uploads) (w : world) :
  exists w' evs,
    main u w = (w', inr tt)
    /\ trace w' = (trace w ++ evs ++ [csv_download])%list
    /\ csv w' <> None.
Proof.
  destruct (startup_creates w) as (w0 & evs0 & E0 & T0 & C0).
  assert (H : ends_with_download
    (emit (st_title "📡 Tower - Antenna: AI Detection") ;;
     emit (st_write "Upload images for **text extraction & antenna detection**") ;;
     emit (sidebar_header "📂 File Upload") ;;
     emit (sidebar_file_uploader "Upload an Image") ;;
     match uploaded_file u with
     | Some (file, e) => process_image e file
     | None => ret tt
     end ;;
     emit (sidebar_file_uploader "Upload Multiple Images") ;;
     (if nonempty (uploaded_files u)
      then for_each (uploaded_files u) (fun '(file, e) =>
             process_image e file ;;
             emit (sleep 1))
      else ret tt) ;;
     exists_csv <- (fun w => (w, inr (match csv w with Some _ => true | None => false end))) ;;
     if exists_csv : bool
     then emit (sidebar_download_button "📥 Download CSV Results" CSV_FILE "results.csv")
     else ret tt)).
  { do 4 (apply ends_with_download_after; [apply steady_emit|]).
    apply ends_with_download_after.
    { destruct (uploaded_file u) as [[file e]|];
        [apply steady_process_image | apply steady_ret]. }
    apply ends_with_download_after; [apply steady_emit|].
    apply ends_with_download_after.
    { destruct (nonempty (uploaded_files u));
        [apply steady_batch | apply steady_ret]. }
    apply ends_with_download_last. }
  assert (C : csv w0 <> None) by (rewrite C0; discriminate).
  destruct (H w0 C) as (w' & evs & E & T & C').
  exists w', (evs0 ++ evs)%list.
  unfold main. unfold bind at 1. rewrite E0, E, T, T0, <- !app_assoc. auto.
Qed.

(** X12.  A run with nothing uploaded appends no row: it creates
    [results.csv] with the header when the file is missing, leaves an
    existing file exactly as it is, shows the page and offers the CSV
    download. *)
Theorem X12_run_without_uploads (w : world) :
  main {| uploaded_file := None; uploaded_files := [] |} w
  = ({| csv := Some (match csv w with Some c => c | None => CSV_HEADER end);
        trace := trace w
          ++ [makedirs RESULTS_FOLDER; makedirs ANNOTATED_FOLDER]
          ++ match csv w with
             | Some _ => []
             | None => [csv_header_written CSV_HEADER]
             end
          ++ page_head
          ++ [sidebar_file_uploader "Upload Multiple Images"; csv_download] |},
     inr tt).
Proof.
  unfold main, startup, write_csv_header, bind, emit, ret, page_head, csv_download.
  cbn [uploaded_file uploaded_files nonempty csv trace].
  destruct (csv w) as [c|]; cbn [negb csv trace];
    rewrite <- !app_assoc; reflexivity.
Qed.

(* ================================================================= *)
(** ** Rows for every parsed response *)

Lemma rows_appended_and_then (w : world) (evs : list event) :
  rows_appended evs = [] ->
  rows_appended (trace (and_then w evs)) = rows_appended (trace w).
Proof.
  intros H. unfold and_then. cbn [trace].
  now rewrite rows_appended_app, H, app_nil_r.
Qed.

Lemma rows_appended_recorded (file : UploadedFile) (result : Result) (w : world) :
  rows_appended (trace (recorded file result w))
  = (rows_appended (trace w)
     ++ csv_rows (name file) (extracted_text_of result)
                 (antenna_detections_of result))%list.
Proof.
  unfold recorded. cbn [trace].
  rewrite !rows_appended_app, rows_appended_rows. cbn [rows_appended flat_map app].
  now rewrite app_nil_r.
Qed.

(** With a 200 response whose body is JSON and a CSV file that opens, the
    rows of the image are appended, whatever happens afterwards. *)
Lemma process_image_rows (e : env) (file : UploadedFile)
    (response : Response) (result : Result) (w : world) :
  save_upload e = None ->
  open_upload e = None ->
  requests_post e = inr response ->
  status_code response = 200%Z ->
  json response = inr result ->
  open_csv e = None ->
  rows_appended (trace (after (process_image e file) w))
  = (rows_appended (trace w)
     ++ csv_rows (name file) (extracted_text_of result)
                 (antenna_detections_of result))%list.
Proof.
  intros Hs Ho Hp Hc Hj Hcsv. unfold after.
  destruct (antenna_detections_of result) as [|d ds] eqn:Hd.
  - rewrite (process_image_200_no_detection e file response result w)
      by assumption.
    cbn [fst trace]. rewrite !rows_appended_app, rows_appended_rows.
    cbn [rows_appended flat_map app]. now rewrite app_nil_r.
  - assert (Hne : antenna_detections_of result <> []) by (rewrite Hd; discriminate).
    rewrite (process_image_200_detections e file response result w)
      by assumption.
    cbv zeta. rewrite <- Hd, <- rows_appended_recorded.
    destruct (draw_bounding_boxes e _ _) as [err | [img|]].
    + cbn [fst]. now rewrite !rows_appended_and_then.
    + destruct (imwrite e) as [err | [|]].
      * cbn [fst]. now rewrite !rows_appended_and_then.
      * destruct (open_annotated e); cbn [fst];
          now rewrite !rows_appended_and_then.
      * destruct (open_annotated e); cbn [fst];
          now rewrite !rows_appended_and_then.
    + cbn [fst]. now rewrite rows_appended_and_then.
Qed.

(** X15.  Split at its commas the header line has nine pieces, not six:
    the column name [Bounding Box (x1,y1,x2,y2)] is written without quotes.
    A detection row with a four-coordinate box and no comma in the image
    name or the class name has nine pieces too, one under each piece of the
    header. *)
Theorem X15_detection_rows_match_header (e : env)
    (image_name extracted_text : string) (antenna_detections : list Detection)
    (w : world) :
  open_csv e = None ->
  antenna_detections <> [] ->
  PyStr.count "," image_name = 0 ->
  Forall (fun d => PyStr.count "," (class_name d) = 0
                   /\ List.length (bbox d) = 4) antenna_detections ->
  CSV_HEADER = header_line ++ nl
  /\ fields header_line
     = [ "Image Name"; "Extracted Text"; "Total Antennas"; "Class Name";
         "Bounding Box (x1"; "y1"; "x2"; "y2)"; "Confidence Score" ]
  /\ Forall (fun row => exists line,
                 row = line ++ nl
                 /\ List.length (fields line) = List.length (fields header_line))
       (skipn 1
          (rows_appended
             (skipn (List.length (trace w))
                (trace (after (save_results_to_csv e image_name extracted_text
                                 antenna_detections) w))))).
Proof.
  intros Ho Hne Hn Hd.
  split; [reflexivity|]. split; [reflexivity|].
  unfold after.
  rewrite save_results_to_csv_appends by assumption. cbn [fst trace].
  rewrite skipn_app, skipn_all, Nat.sub_diag. cbn [skipn app].
  rewrite rows_appended_rows. unfold csv_rows. cbn [skipn].
  assert (Hb : nonempty antenna_detections = true)
    by (destruct antenna_detections; [congruence | reflexivity]).
  rewrite Hb. apply Forall_forall. intros row Hr.
  apply in_map_iff in Hr as (d & <- & Hin).
  rewrite Forall_forall in Hd. destruct (Hd d Hin) as [Hc H4].
  rewrite detection_row_fields. eexists. split; [reflexivity|].
  change (List.length (fields header_line)) with 9.
  unfold PyStr.join.
  change (String.concat "," [image_name; ""; PyStr.of_nat (List.length antenna_detections);
                             class_name d; str_bbox (bbox d);
                             PyFloat.format_f 2 (confidence d)])
    with (image_name ++ "," ++ "" ++ ","
          ++ PyStr.of_nat (List.length antenna_detections) ++ ","
          ++ class_name d ++ "," ++ str_bbox (bbox d) ++ ","
          ++ PyFloat.format_f 2 (confidence d)).
  rewrite length_fields, !count_app.
  rewrite Hn, Hc, count_comma_of_nat, count_comma_str_bbox, count_comma_format_f, H4.
  reflexivity.
Qed.

Lemma X15_witness :
  Forall (fun row => exists line,
              row = line ++ nl
              /\ List.length (fields line) = List.length (fields header_line))
    (skipn 1
       (rows_appended
          (skipn (List.length (trace Sample.started))
             (trace (after (save_results_to_csv
                              (Sample.env_ok (Sample.ok Sample.tower1_result))
                              "tower1.jpg" "TWR-001" [Sample.panel])
                           Sample.started))))).
Proof.
  apply (X15_detection_rows_match_header
           (Sample.env_ok (Sample.ok Sample.tower1_result))
           "tower1.jpg" "TWR-001" [Sample.panel] Sample.started eq_refl).
  - discriminate.
  - reflexivity.
  - repeat constructor.
Defined.

(** X16.  Missing keys.  A 200 response whose body has no
    [antenna_detections] key is treated like one with an empty list, and a
    body without [text_detections], or without [all_text] in it, like one
    with empty text: for the body [{}] the recorder writes the
    [No text found] row and the [No detection] row, [No text found] is
    displayed and nothing is drawn. *)
Theorem X16_missing_keys (e : env) (file : UploadedFile) (response : Response)
    (td : option TextDetections) (w : world) :
  save_upload e = None ->
  open_upload e = None ->
  requests_post e = inr response ->
  status_code response = 200%Z ->
  json response = inr {| text_detections := td; antenna_detections := None |} ->
  open_csv e = None ->
  td = None \/ td = Some {| all_text := None |} ->
  let no_text := name file ++ ",No text found,,,, " ++ nl in
  let no_detection := name file ++ ",,0,No detection,N/A,N/A" ++ nl in
  process_image e file w
  = ({| csv := Some (dict_get (csv_after_upload file w) ""
                     ++ no_text ++ no_detection);
        trace := trace (uploaded file w)
          ++ [ csv_row_appended no_text;
               csv_row_appended no_detection;
               sidebar_success ("✅ Processed: " ++ name file);
               st_subheader "📝 Extracted Text";
               st_write "No text found" ] |},
     inr tt).
Proof.
  intros Hs Ho Hp Hc Hj Hcsv Htd no_text no_detection.
  assert (Ht : extracted_text_of
                 {| text_detections := td; antenna_detections := None |} = "")
    by (destruct Htd as [-> | ->]; reflexivity).
  rewrite (process_image_200_no_detection e file response _ w Hs Ho Hp Hc Hj Hcsv)
    by reflexivity.
  cbv zeta. rewrite Ht.
  unfold uploaded, processing_notice, csv_rows, text_row, no_detection_row.
  cbn [PyStr.truthy nonempty map String.concat csv trace].
  rewrite <- !app_assoc. reflexivity.
Qed.

Lemma X16_witness :
  process_image
    (Sample.env_ok (Sample.ok {| text_detections := None;
                                 antenna_detections := None |}))
    Sample.tower1 Sample.started
  = ({| csv := Some (CSV_HEADER ++ "tower1.jpg,No text found,,,, " ++ nl
                     ++ "tower1.jpg,,0,No detection,N/A,N/A" ++ nl);
        trace := [ sidebar_write "🔄 Processing tower1.jpg...";
                   upload_saved "API_results/tower1.jpg" "JFIF";
                   csv_row_appended ("tower1.jpg,No text found,,,, " ++ nl);
                   csv_row_appended ("tower1.jpg,,0,No detection,N/A,N/A" ++ nl);
                   sidebar_success "✅ Processed: tower1.jpg";
                   st_subheader "📝 Extracted Text";
                   st_write "No text found" ] |},
     inr tt).
Proof.
  refine (eq_trans
            (X16_missing_keys
               (Sample.env_ok (Sample.ok {| text_detections := None;
                                            antenna_detections := None |}))
               Sample.tower1 _ None Sample.started
               eq_refl eq_refl eq_refl eq_refl eq_refl eq_refl (or_introl eq_refl))
            _).
  vm_compute. reflexivity.
Defined.

(* ================================================================= *)
(** ** What the recorder leaves in the file *)

Lemma split_nonempty (c : ascii) (s : string) : PyStr.split c s <> [].
Proof.
  destruct s as [|x s]; cbn [PyStr.split]; [discriminate|].
  destruct (Ascii.eqb x c); [discriminate|].
  destruct (PyStr.split c s); discriminate.
Qed.

(** Splitting around a separator splits both sides. *)
Lemma split_app_sep (c : ascii) (a b : string) :
  PyStr.split c (a ++ String c b) = (PyStr.split c a ++ PyStr.split c b)%list.
Proof.
  induction a as [|x a IH]; cbn [String.append PyStr.split].
  - now rewrite Ascii.eqb_refl.
  - destruct (Ascii.eqb x c).
    + now rewrite IH.
    + rewrite IH. pose proof (split_nonempty c a) as H.
      destruct (PyStr.split c a) as [|h t]; [congruence | reflexivity].
Qed.

(** Whatever the image name holds, the fields of a detection line are
    those of the name, an empty field, the count and the rest. *)
Lemma fields_detection_line (image_name rest : string) (total : nat) :
  fields (image_name ++ "," ++ "" ++ "," ++ PyStr.of_nat total ++ "," ++ rest)
  = (fields image_name ++ "" :: PyStr.of_nat total :: fields rest)%list.
Proof.
  unfold fields.
  change (image_name ++ "," ++ "" ++ "," ++ PyStr.of_nat total ++ "," ++ rest)
    with (image_name ++ String "," (String "," (PyStr.of_nat total ++ String "," rest))).
  rewrite split_app_sep. f_equal.
  change (PyStr.split "," (String "," ?x)) with ("" :: PyStr.split "," x).
  f_equal. apply split_comma_free, count_comma_of_nat.
Qed.

Lemma concat_cons (a : string) (l : list string) :
  String.concat "" (a :: l) = a ++ String.concat "" l.
Proof.
  destruct l; cbn [String.concat]; [now rewrite append_nil_r | reflexivity].
Qed.

Lemma concat_app (l1 l2 : list string) :
  String.concat "" (l1 ++ l2) = String.concat "" l1 ++ String.concat "" l2.
Proof.
  induction l1 as [|a l1 IH]; [reflexivity|].
  cbn [app]. now rewrite !concat_cons, IH, append_assoc.
Qed.

(** Reading the printed length back gives the length. *)
Lemma decimal_value_of_nat (n : nat) : decimal_value (PyStr.of_nat n) = Some n.
Proof.
  unfold decimal_value, PyStr.of_nat.
  assert (H : Nat.to_uint n <> Decimal.Nil).
  { rewrite <- (DecimalNat.Unsigned.of_to n) at 1.
    rewrite DecimalNat.Unsigned.to_of. apply DecimalFacts.unorm_nonnil. }
  rewrite NilZero.usu by exact H.
  cbn [option_map]. now rewrite DecimalNat.Unsigned.of_to.
Qed.

(** C2.  For every call with N >= 1 detections the recorder appends to
    [results.csv] one text row and then exactly N detection rows, one per
    detection in order, and nothing else.  Each detection row is the image
    name, an empty field, the count, the class name, the bounding box and
    the confidence: whatever the image name, the field after the name and
    the empty text field is the count, and it reads back as N. *)
Theorem C2_one_row_per_detection (e : env) (image_name extracted_text : string)
    (antenna_detections : list Detection) (w : world) :
  open_csv e = None ->
  antenna_detections <> [] ->
  let N := List.length antenna_detections in
  let line d :=
    PyStr.join ","
      [image_name; ""; PyStr.of_nat N; class_name d; str_bbox (bbox d);
       PyFloat.format_f 2 (confidence d)] in
  let detection_rows := map (fun d => line d ++ nl) antenna_detections in
  save_results_to_csv e image_name extracted_text antenna_detections w
  = ({| csv := Some (csv_content w
                     ++ text_row image_name extracted_text
                     ++ String.concat "" detection_rows);
        trace := trace w
                 ++ csv_row_appended (text_row image_name extracted_text)
                    :: map csv_row_appended detection_rows |},
     inr tt)
  /\ List.length detection_rows = N
  /\ (forall d,
        fields (line d)
        = (fields image_name
           ++ "" :: PyStr.of_nat N
              :: fields (class_name d ++ "," ++ str_bbox (bbox d) ++ ","
                         ++ PyFloat.format_f 2 (confidence d)))%list)
  /\ decimal_value (PyStr.of_nat N) = Some N.
Proof.
  intros Ho Hne N line detection_rows.
  split; [|split; [|split]].
  - rewrite save_results_to_csv_appends by assumption.
    unfold csv_rows.
    assert (Hn : nonempty antenna_detections = true)
      by (destruct antenna_detections; [congruence | reflexivity]).
    rewrite Hn, concat_cons. cbn [map].
    assert (E : map (detection_row image_name (List.length antenna_detections))
                    antenna_detections = detection_rows).
    { subst detection_rows line N. apply map_ext. intros d.
      apply detection_row_fields. }
    now rewrite E.
  - subst detection_rows. apply length_map.
  - intros d. subst line. cbv beta. apply fields_detection_line.
  - apply decimal_value_of_nat.
Qed.

Lemma C2_witness :
  save_results_to_csv (Sample.env_ok (Sample.ok Sample.tower1_result))
    "site,A.jpg" "TWR-001" [Sample.panel; Sample.dish] Sample.started
  = ({| csv := Some (CSV_HEADER
                     ++ "site,A.jpg,TWR-001,,,, " ++ nl
                     ++ "site,A.jpg,,2,panel,[10, 10, 50, 60],0.87" ++ nl
                     ++ "site,A.jpg,,2,dish, small,[5, 6, 7, 8],0.50" ++ nl);
        trace :=
          [ csv_row_appended ("site,A.jpg,TWR-001,,,, " ++ nl);
            csv_row_appended ("site,A.jpg,,2,panel,[10, 10, 50, 60],0.87" ++ nl);
            csv_row_appended ("site,A.jpg,,2,dish, small,[5, 6, 7, 8],0.50" ++ nl) ] |},
     inr tt).
Proof.
  refine (eq_trans
            (proj1 (C2_one_row_per_detection
                      (Sample.env_ok (Sample.ok Sample.tower1_result))
                      "site,A.jpg" "TWR-001" [Sample.panel; Sample.dish]
                      Sample.started eq_refl _)) _).
  - discriminate.
  - vm_compute. reflexivity.
Defined.

(** C3.  For every call with an empty detection list the recorder appends
    to [results.csv], after the text row, exactly one more row and nothing
    else: whatever the image name, the fields after the name are an empty
    field, 0, the class name [No detection], and [N/A] for the bounding box
    and for the confidence. *)
Theorem C3_no_detection_row (e : env) (image_name extracted_text : string)
    (w : world) :
  open_csv e = None ->
  let line :=
    PyStr.join "," [image_name; ""; "0"; "No detection"; "N/A"; "N/A"] in
  save_results_to_csv e image_name extracted_text [] w
  = ({| csv := Some (csv_content w
                     ++ text_row image_name extracted_text ++ line ++ nl);
        trace := trace w
                 ++ [ csv_row_appended (text_row image_name extracted_text);
                      csv_row_appended (line ++ nl) ] |},
     inr tt)
  /\ fields line
     = (fields image_name ++ [""; "0"; "No detection"; "N/A"; "N/A"])%list.
Proof.
  intros Ho line. split.
  - rewrite save_results_to_csv_appends by assumption.
    unfold csv_rows. cbn [nonempty map].
    rewrite no_detection_row_fields, !concat_cons. cbn [String.concat].
    now rewrite append_nil_r.
  - subst line. unfold fields, PyStr.join.
    change (String.concat "," [image_name; ""; "0"; "No detection"; "N/A"; "N/A"])
      with (image_name ++ String "," ",0,No detection,N/A,N/A").
    rewrite split_app_sep. reflexivity.
Qed.

Lemma C3_witness :
  save_results_to_csv (Sample.env_ok (Sample.ok Sample.text_only_result))
    "site,A.jpg" "TWR-001" [] Sample.started
  = ({| csv := Some (CSV_HEADER
                     ++ "site,A.jpg,TWR-001,,,, " ++ nl
                     ++ "site,A.jpg,,0,No detection,N/A,N/A" ++ nl);
        trace :=
          [ csv_row_appended ("site,A.jpg,TWR-001,,,, " ++ nl);
            csv_row_appended ("site,A.jpg,,0,No detection,N/A,N/A" ++ nl) ] |},
     inr tt)
  /\ fields "site,A.jpg,,0,No detection,N/A,N/A"
     = ["site"; "A.jpg"; ""; "0"; "No detection"; "N/A"; "N/A"].
Proof.
  destruct (C3_no_detection_row (Sample.env_ok (Sample.ok Sample.text_only_result))
              "site,A.jpg" "TWR-001" Sample.started eq_refl) as [H1 H2].
  split.
  - refine (eq_trans H1 _). vm_compute. reflexivity.
  - refine (eq_trans H2 _). reflexivity.
Defined.

(* ================================================================= *)
(** ** Stripping the extracted text *)

Lemma rev_onto_app (s acc : string) :
  PyStr.rev_onto s acc = PyStr.rev s ++ acc.
Proof.
  unfold PyStr.rev. revert acc.
  induction s as [|a s IH]; intros acc; cbn [PyStr.rev_onto]; [reflexivity|].
  rewrite (IH (String a acc)), (IH (String a "")), append_assoc. reflexivity.
Qed.

Lemma rev_cons (a : ascii) (s : string) :
  PyStr.rev (String a s) = PyStr.rev s ++ String a "".
Proof.
  unfold PyStr.rev at 1. cbn [PyStr.rev_onto]. apply rev_onto_app.
Qed.

Lemma rev_app (a b : string) : PyStr.rev (a ++ b) = PyStr.rev b ++ PyStr.rev a.
Proof.
  induction a as [|x a IH]; cbn [String.append].
  - change (PyStr.rev "") with "". now rewrite append_nil_r.
  - now rewrite !rev_cons, IH, append_assoc.
Qed.

Lemma rev_involutive (s : string) : PyStr.rev (PyStr.rev s) = s.
Proof.
  induction s as [|a s IH]; [reflexivity|].
  rewrite rev_cons, rev_app, IH. reflexivity.
Qed.

(** Whitespace in front is dropped by [lstrip], whatever follows. *)
Lemma lstrip_whitespace_prefix (l t : string) :
  PyStr.whitespace_only l -> PyStr.lstrip (l ++ t) = PyStr.lstrip t.
Proof.
  induction 1 as [|c s Hc _ IH]; [reflexivity|].
  now rewrite append_assoc, lstrip_whitespace_char.
Qed.

Lemma lstrip_rev_whitespace_char (c t : string) :
  In c PyStr.whitespace_chars ->
  PyStr.lstrip_rev (PyStr.rev c ++ t) = PyStr.lstrip_rev t.
Proof.
  unfold PyStr.whitespace_chars; simpl.
  intros H.
  repeat (destruct H as [<- | H]; [reflexivity|]).
  contradiction.
Qed.

(** Whitespace at the end is dropped, read backwards. *)
Lemma lstrip_rev_whitespace_suffix (r : string) :
  PyStr.whitespace_only r ->
  forall t, PyStr.lstrip_rev (PyStr.rev r ++ t) = PyStr.lstrip_rev t.
Proof.
  induction 1 as [|c s Hc _ IH]; intros t; [reflexivity|].
  rewrite rev_app, append_assoc, IH. now apply lstrip_rev_whitespace_char.
Qed.

Ltac ascii_bytes a H :=
  unfold PyStr.ws2, PyStr.ws3, PyStr.byte_is, PyStr.byte_in;
  repeat match goal with
         | |- context [N.eqb (N_of_ascii a) ?k] =>
             replace (N.eqb (N_of_ascii a) k) with false
               by (symmetry; apply N.eqb_neq; lia)
         | |- context [N.leb ?k (N_of_ascii a)] =>
             replace (N.leb k (N_of_ascii a)) with false
               by (symmetry; apply N.leb_gt; lia)
         end;
  repeat match goal with
         | |- context [N.eqb ?x ?k] => destruct (N.eqb x k)
         | |- context [N.leb ?x ?k] => destruct (N.leb x k)
         end;
  reflexivity.

(** A text that begins with an ASCII character other than whitespace is
    left alone by [lstrip]. *)
Lemma lstrip_solid (a : ascii) (x : string) :
  ascii_non_space a = true -> PyStr.lstrip (String a x) = String a x.
Proof.
  unfold ascii_non_space. intros H.
  apply andb_true_iff in H as [H W]. apply N.ltb_lt in H.
  apply negb_true_iff in W.
  cbn [PyStr.lstrip]. rewrite W.
  destruct x as [|b x]; [reflexivity|].
  assert (E2 : PyStr.ws2 a b = false) by ascii_bytes a H.
  rewrite E2. destruct x as [|c x]; [reflexivity|].
  assert (E3 : PyStr.ws3 a b c = false) by ascii_bytes a H.
  now rewrite E3.
Qed.

(** The same at the end of the text, read backwards. *)
Lemma lstrip_rev_solid (z : ascii) (x : string) :
  ascii_non_space z = true -> PyStr.lstrip_rev (String z x) = String z x.
Proof.
  unfold ascii_non_space. intros H.
  apply andb_true_iff in H as [H W]. apply N.ltb_lt in H.
  apply negb_true_iff in W.
  cbn [PyStr.lstrip_rev]. rewrite W.
  destruct x as [|b x]; [reflexivity|].
  assert (E2 : PyStr.ws2 b z = false) by ascii_bytes z H.
  rewrite E2. destruct x as [|c x]; [reflexivity|].
  assert (E3 : PyStr.ws3 c b z = false) by ascii_bytes z H.
  now rewrite E3.
Qed.

(** [strip] removes the whitespace on both sides of a text and nothing of
    the text itself. *)
Lemma strip_both_sides (l core r : string) :
  PyStr.whitespace_only l ->
  PyStr.whitespace_only r ->
  solid_ends core = true ->
  PyStr.strip (l ++ core ++ r) = core.
Proof.
  intros Hl Hr Hc. unfold solid_ends in Hc.
  apply andb_true_iff in Hc as [Ha Hz].
  unfold PyStr.strip, PyStr.rstrip.
  rewrite lstrip_whitespace_prefix by assumption.
  destruct core as [|a core]; [discriminate Ha|].
  cbn [String.append]. rewrite lstrip_solid by assumption.
  change (String a (core ++ r)) with (String a core ++ r).
  rewrite rev_app, lstrip_rev_whitespace_suffix by assumption.
  destruct (PyStr.rev (String a core)) as [|z x] eqn:E; [discriminate Hz|].
  rewrite lstrip_rev_solid by assumption.
  rewrite <- E. apply rev_involutive.
Qed.

(** C9.  The text handed to the recorder and to the display is the
    [all_text] field stripped of the whitespace before and after it: for a
    field made of whitespace, a text and whitespace, it is the text, and the
    row written and the text shown hold the text alone.  When the field is
    absent or holds only whitespace the text is empty, and the recorder
    then does exactly what it does for an empty string: its first row is
    the [No text found] row. *)
Theorem C9_blank_text_is_no_text (result : Result) :
  (forall l core r,
     text_detections result = Some {| all_text := Some (l ++ core ++ r) |} ->
     PyStr.whitespace_only l ->
     PyStr.whitespace_only r ->
     solid_ends core = true ->
     extracted_text_of result = core
     /\ forall e file response w,
          save_upload e = None ->
          open_upload e = None ->
          requests_post e = inr response ->
          status_code response = 200%Z ->
          json response = inr result ->
          open_csv e = None ->
          antenna_detections_of result = [] ->
          process_image e file w
          = ({| csv := Some (dict_get (csv_after_upload file w) ""
                             ++ (name file ++ "," ++ core ++ ",,,, " ++ nl)
                             ++ (name file ++ ",,0,No detection,N/A,N/A" ++ nl));
                trace := trace w
                  ++ [ sidebar_write ("🔄 Processing " ++ name file ++ "...");
                       upload_saved (path_join RESULTS_FOLDER (name file))
                                    (getbuffer file);
                       csv_row_appended (name file ++ "," ++ core ++ ",,,, " ++ nl);
                       csv_row_appended (name file ++ ",,0,No detection,N/A,N/A" ++ nl);
                       sidebar_success ("✅ Processed: " ++ name file);
                       st_subheader "📝 Extracted Text";
                       st_write core ] |},
             inr tt))
  /\ (blank_text result ->
      extracted_text_of result = ""
      /\ forall e image_name antenna_detections w,
           open_csv e = None ->
           let no_text_row :=
             PyStr.join "," [image_name; "No text found"; ""; ""; ""; " "] ++ nl in
           save_results_to_csv e image_name (extracted_text_of result)
                               antenna_detections w
           = save_results_to_csv e image_name "" antenna_detections w
           /\ exists rest,
                save_results_to_csv e image_name (extracted_text_of result)
                                    antenna_detections w
                = ({| csv := Some (csv_content w ++ no_text_row
                                   ++ String.concat "" rest);
                      trace := trace w
                               ++ map csv_row_appended (no_text_row :: rest) |},
                   inr tt)).
Proof.
  split.
  - intros l core r Ht Hl Hr Hc.
    assert (E : extracted_text_of result = core).
    { unfold extracted_text_of. rewrite Ht. cbn [dict_get all_text].
      now apply strip_both_sides. }
    split; [exact E|].
    intros e file response w Hs Ho Hp Hst Hj Hcsv Hd.
    rewrite (process_image_200_no_detection e file response result w)
      by assumption.
    cbv zeta. rewrite E.
    assert (T : PyStr.truthy core = true).
    { unfold solid_ends in Hc. destruct core; [discriminate Hc | reflexivity]. }
    unfold csv_rows, text_row, no_detection_row. rewrite T.
    cbn [nonempty map String.concat]. reflexivity.
  - intros H.
    assert (E : extracted_text_of result = "").
    { unfold extracted_text_of, blank_text in *.
      destruct (text_detections result) as [[[s|]]|]; cbn [dict_get all_text];
        try reflexivity.
      now apply strip_whitespace_only. }
    split; [exact E|].
    intros e image_name antenna_detections w Ho no_text_row. rewrite E.
    split; [reflexivity|].
    rewrite save_results_to_csv_appends by assumption.
    unfold csv_rows. rewrite no_text_row_fields, concat_cons.
    fold no_text_row. eexists. reflexivity.
Qed.

Lemma C9_witness :
  extracted_text_of
    {| text_detections :=
         Some {| all_text := Some (PyStr.enc1 32 ++ "TWR-001" ++ PyStr.enc1 10) |};
       antenna_detections := None |}
  = "TWR-001"
  /\ extracted_text_of Sample.blank_result = "".
Proof.
  split.
  - apply (proj1 (C9_blank_text_is_no_text _) (PyStr.enc1 32) "TWR-001"
                 (PyStr.enc1 10)); try reflexivity.
    + change (PyStr.enc1 32) with (PyStr.enc1 32 ++ "").
      apply PyStr.ws_cons; [vm_compute; tauto | constructor].
    + change (PyStr.enc1 10) with (PyStr.enc1 10 ++ "").
      apply PyStr.ws_cons; [vm_compute; tauto | constructor].
  - apply (proj2 (C9_blank_text_is_no_text Sample.blank_result)).
    unfold blank_text, Sample.blank_result; cbn [text_detections all_text].
    apply PyStr.ws_cons; [vm_compute; tauto|].
    apply PyStr.ws_cons; [vm_compute; tauto|].
    change (PyStr.enc1 10) with (PyStr.enc1 10 ++ "").
    apply PyStr.ws_cons; [vm_compute; tauto | constructor].
Defined.

(* ================================================================= *)
(** ** The header and the rows in the file *)

Lemma has_double_comma_app (a b : string) :
  has_double_comma (a ++ String "," (String "," b)) = true.
Proof.
  induction a as [|x a IH]; [reflexivity|].
  cbn [String.append has_double_comma].
  destruct (a ++ String "," (String "," b)) as [|y r] eqn:E.
  - destruct a; discriminate E.
  - rewrite IH. apply orb_true_r.
Qed.

(** A row with two commas in a row is not the header line. *)
Lemma double_comma_not_header (row : string) :
  has_double_comma row = true -> row <> CSV_HEADER.
Proof.
  intros H ->. vm_compute in H. discriminate H.
Qed.

(** Every row the recorder writes has two commas in a row. *)
Lemma csv_rows_double_comma (image_name extracted_text : string)
    (antenna_detections : list Detection) :
  Forall (fun row => has_double_comma row = true)
         (csv_rows image_name extracted_text antenna_detections).
Proof.
  unfold csv_rows. constructor.
  - unfold text_row. destruct (PyStr.truthy extracted_text).
    + change (image_name ++ "," ++ extracted_text ++ ",,,, " ++ nl)
        with (image_name ++ "," ++ extracted_text
              ++ String "," (String "," (",, " ++ nl))).
      rewrite <- !append_assoc. apply has_double_comma_app.
    + change (image_name ++ ",No text found,,,, " ++ nl)
        with (image_name ++ ",No text found"
              ++ String "," (String "," (",, " ++ nl))).
      rewrite <- !append_assoc. apply has_double_comma_app.
  - destruct (nonempty antenna_detections).
    + apply Forall_forall. intros row Hr.
      apply in_map_iff in Hr as (d & <- & _).
      unfold detection_row. apply has_double_comma_app.
    + constructor; [|constructor].
      unfold no_detection_row. apply has_double_comma_app.
Qed.

Lemma csv_tracks_refl (w : world) : csv_tracks w w.
Proof.
  exists []. rewrite app_nil_r. cbn. rewrite append_nil_r. auto.
Qed.

Lemma csv_tracks_trans (w1 w2 w3 : world) :
  csv_tracks w1 w2 -> csv_tracks w2 w3 -> csv_tracks w1 w3.
Proof.
  intros (evs & T & C & D & H & X) (evs' & T' & C' & D' & H' & X').
  exists (evs ++ evs')%list.
  rewrite T', T, C', C, app_assoc, rows_appended_app, concat_app, append_assoc,
          header_writes_app, H, H'.
  repeat split; auto. now apply Forall_app.
Qed.

Lemma tracks_emit (ev : event) :
  rows_appended [ev] = [] -> is_header_write ev = false ->
  keeps csv_tracks (emit ev).
Proof.
  intros R H w. exists [ev]. unfold after, emit, csv_content. cbn [fst csv trace].
  rewrite R. unfold header_writes. cbn [filter]. rewrite H.
  cbn. rewrite append_nil_r. auto.
Qed.

Lemma tracks_f_write (data : string) :
  has_double_comma data = true -> keeps csv_tracks (f_write data).
Proof.
  intros H w. exists [csv_row_appended data].
  unfold after, f_write. cbn [fst csv trace].
  unfold csv_content at 1. cbn [csv dict_get rows_appended flat_map app String.concat].
  repeat split; [constructor; [exact H | constructor] | discriminate].
Qed.

Ltac tracks_step :=
  apply keeps_bind; [apply csv_tracks_trans | |].

Lemma tracks_open_csv_append (e : env) : keeps csv_tracks (open_csv_append e).
Proof.
  unfold open_csv_append.
  tracks_step; [apply keeps_call; apply csv_tracks_refl|].
  intros _ w. exists []. unfold after. cbn [fst csv trace].
  unfold csv_content at 1. cbn [csv dict_get rows_appended flat_map String.concat].
  rewrite app_nil_r, append_nil_r.
  repeat split; [constructor | discriminate].
Qed.

(** The recorder adds exactly its rows to the file. *)
Lemma tracks_save_results_to_csv (e : env) (image_name extracted_text : string)
    (antenna_detections : list Detection) :
  keeps csv_tracks
    (save_results_to_csv e image_name extracted_text antenna_detections).
Proof.
  unfold save_results_to_csv.
  tracks_step; [apply tracks_open_csv_append|]. intros _.
  tracks_step.
  { destruct (PyStr.truthy extracted_text); apply tracks_f_write.
    - change (image_name ++ "," ++ extracted_text ++ ",,,, " ++ nl)
        with (image_name ++ "," ++ extracted_text
              ++ String "," (String "," (",, " ++ nl))).
      rewrite <- !append_assoc. apply has_double_comma_app.
    - change (image_name ++ ",No text found,,,, " ++ nl)
        with (image_name ++ ",No text found"
              ++ String "," (String "," (",, " ++ nl))).
      rewrite <- !append_assoc. apply has_double_comma_app. }
  intros _. destruct (nonempty antenna_detections).
  - apply keeps_for_each; [apply csv_tracks_refl | apply csv_tracks_trans |].
    intros d. apply tracks_f_write. apply has_double_comma_app.
  - apply tracks_f_write. apply has_double_comma_app.
Qed.

(** A name with an image extension is not the name of the results file,
    so its path is not the path of [results.csv]. *)
Lemma image_name_not_csv (n : string) :
  has_image_extension n = true -> path_join RESULTS_FOLDER n <> CSV_FILE.
Proof.
  intros H E. apply upload_path_is_csv in E. subst n.
  vm_compute in H. discriminate H.
Qed.

Lemma tracks_write_upload (e : env) (path data : string) :
  path <> CSV_FILE -> keeps csv_tracks (write_upload e path data).
Proof.
  intros H. unfold write_upload.
  tracks_step; [apply keeps_call; apply csv_tracks_refl|].
  intros _ w. exists [upload_saved path data].
  unfold after, csv_content. cbn [fst csv trace].
  apply String.eqb_neq in H. rewrite H.
  cbn [rows_appended flat_map app String.concat]. rewrite append_nil_r.
  repeat split; [constructor | auto].
Qed.

Ltac tracks_emit_step :=
  tracks_step; [apply tracks_emit; reflexivity|]; intros _.

(** Processing an image with an image name adds its rows to the file and
    changes nothing else in it. *)
Lemma tracks_process_image (e : env) (file : UploadedFile) :
  has_image_extension (name file) = true ->
  keeps csv_tracks (process_image e file).
Proof.
  intros Hn. apply image_name_not_csv in Hn.
  unfold process_image.
  tracks_emit_step.
  apply keeps_try_except;
    [apply csv_tracks_trans | | intros; apply tracks_emit; reflexivity].
  unfold process_image_body.
  tracks_step; [now apply tracks_write_upload|]. intros _.
  tracks_step; [apply keeps_call; apply csv_tracks_refl|]. intros _.
  tracks_step; [apply keeps_call_value; apply csv_tracks_refl|]. intros response.
  destruct (status_code response =? 200)%Z; [|apply tracks_emit; reflexivity].
  tracks_step; [apply keeps_call_value; apply csv_tracks_refl|]. intros result.
  tracks_step; [apply tracks_save_results_to_csv|]. intros _.
  do 3 tracks_emit_step.
  destruct (nonempty (antenna_detections_of result));
    [|apply keeps_ret; apply csv_tracks_refl].
  do 2 tracks_emit_step.
  tracks_step; [apply keeps_call_value; apply csv_tracks_refl|].
  intros [img|]; [|apply keeps_ret; apply csv_tracks_refl].
  tracks_step.
  { unfold cv2_imwrite.
    tracks_step; [apply keeps_call_value; apply csv_tracks_refl|].
    intros [|]; [apply tracks_emit; reflexivity
                | apply keeps_ret; apply csv_tracks_refl]. }
  intros _.
  do 3 tracks_emit_step.
  tracks_step; [apply keeps_call; apply csv_tracks_refl|]. intros _.
  apply tracks_emit; reflexivity.
Qed.

(** What a run does after start-up. *)
Lemma tracks_main_after_startup (u : uploads) :
  image_uploads u ->
  keeps csv_tracks
    (emit (st_title "📡 Tower - Antenna: AI Detection") ;;
     emit (st_write "Upload images for **text extraction & antenna detection**") ;;
     emit (sidebar_header "📂 File Upload") ;;
     emit (sidebar_file_uploader "Upload an Image") ;;
     match uploaded_file u with
     | Some (file, e) => process_image e file
     | None => ret tt
     end ;;
     emit (sidebar_file_uploader "Upload Multiple Images") ;;
     (if nonempty (uploaded_files u)
      then for_each (uploaded_files u) (fun '(file, e) =>
             process_image e file ;;
             emit (sleep 1))
      else ret tt) ;;
     exists_csv <- (fun w => (w, inr (match csv w with Some _ => true | None => false end))) ;;
     if exists_csv : bool
     then emit (sidebar_download_button "📥 Download CSV Results" CSV_FILE "results.csv")
     else ret tt).
Proof.
  unfold image_uploads, all_files. intros Hn.
  apply Forall_app in Hn as [H1 H2].
  do 4 tracks_emit_step.
  tracks_step.
  { destruct (uploaded_file u) as [[file e]|];
      [|apply keeps_ret; apply csv_tracks_refl].
    apply tracks_process_image. now inversion H1. }
  intros _. tracks_emit_step.
  tracks_step.
  { destruct (nonempty (uploaded_files u));
      [|apply keeps_ret; apply csv_tracks_refl].
    induction (uploaded_files u) as [|[file e] files IH]; cbn [for_each].
    - apply keeps_ret; apply csv_tracks_refl.
    - cbn [map fst] in H2. inversion H2 as [|? ? Hf Hfs]; subst.
      tracks_step; [|intros _; now apply IH].
      tracks_step; [now apply tracks_process_image|].
      intros _. apply tracks_emit; reflexivity. }
  intros _. tracks_step.
  { intros w. apply csv_tracks_refl. }
  intros [|]; [apply tracks_emit; reflexivity
              | apply keeps_ret; apply csv_tracks_refl].
Qed.

Lemma new_events_app (w w' : world) (evs : list event) :
  trace w' = (trace w ++ evs)%list -> new_events w w' = evs.
Proof.
  intros E. unfold new_events. rewrite E, skipn_app, skipn_all, Nat.sub_diag.
  reflexivity.
Qed.

Lemma csv_of_content (w : world) (c : string) :
  csv w <> None -> csv_content w = c -> csv w = Some c.
Proof.
  unfold csv_content. destruct (csv w); cbn [dict_get]; congruence.
Qed.

(** One run against an existing file. *)
Lemma main_tracks (u : uploads) (w : world) :
  image_uploads u -> csv w <> None -> csv_tracks w (after (main u) w).
Proof.
  intros Hn Hw. pose proof (tracks_main_after_startup u Hn) as H.
  unfold main, after.
  set (rest := bind (emit (st_title _)) _) in *.
  destruct (csv w) as [c|] eqn:Ec; [|congruence].
  assert (S : startup w
              = ({| csv := Some c;
                    trace := trace w ++ [makedirs RESULTS_FOLDER;
                                         makedirs ANNOTATED_FOLDER] |}, inr tt)).
  { unfold startup, bind, emit, ret. cbn [csv trace].
    rewrite Ec. cbn [negb]. now rewrite <- app_assoc. }
  unfold bind at 1. rewrite S.
  apply (csv_tracks_trans _ {| csv := Some c;
                               trace := trace w ++ [makedirs RESULTS_FOLDER;
                                                    makedirs ANNOTATED_FOLDER] |}).
  - exists [makedirs RESULTS_FOLDER; makedirs ANNOTATED_FOLDER].
    unfold csv_content. rewrite Ec. cbn. rewrite append_nil_r.
    repeat split; [constructor | discriminate].
  - apply H.
Qed.

Lemma runs_track (us : list uploads) (w : world) :
  Forall image_uploads us -> csv w <> None -> csv_tracks w (runs us w).
Proof.
  revert w. induction us as [|u us IH]; intros w Hn Hw; cbn [runs].
  - apply csv_tracks_refl.
  - inversion Hn as [|? ? Hu Hus]; subst.
    pose proof (main_tracks u w Hu Hw) as T.
    apply (csv_tracks_trans _ (after (main u) w)); [exact T|].
    apply IH; [assumption|].
    destruct T as (_ & _ & _ & _ & _ & X). now apply X.
Qed.

(** The first run: start-up writes the header, the rest adds rows. *)
Lemma main_first (u : uploads) (w : world) :
  image_uploads u -> csv w = None ->
  csv_tracks {| csv := Some CSV_HEADER;
                trace := trace w ++ [makedirs RESULTS_FOLDER;
                                     makedirs ANNOTATED_FOLDER;
                                     csv_header_written CSV_HEADER] |}
             (after (main u) w).
Proof.
  intros Hn Hw. pose proof (tracks_main_after_startup u Hn) as H.
  unfold main, after.
  set (rest := bind (emit (st_title _)) _) in *.
  assert (S : startup w
              = ({| csv := Some CSV_HEADER;
                    trace := trace w ++ [makedirs RESULTS_FOLDER;
                                         makedirs ANNOTATED_FOLDER;
                                         csv_header_written CSV_HEADER] |}, inr tt)).
  { unfold startup, write_csv_header, bind, emit, ret. cbn [csv trace].
    rewrite Hw. cbn [negb trace]. now rewrite <- !app_assoc. }
  unfold bind at 1. rewrite S. apply H.
Qed.

(** From a missing file, after one or more runs the file is the header
    followed by the rows recorded since. *)
Lemma runs_from_nothing (u : uploads) (us : list uploads) (w : world) :
  Forall image_uploads (u :: us) -> csv w = None ->
  exists evs,
    trace (runs (u :: us) w)
    = (trace w ++ [makedirs RESULTS_FOLDER; makedirs ANNOTATED_FOLDER;
                   csv_header_written CSV_HEADER] ++ evs)%list
    /\ csv (runs (u :: us) w)
       = Some (CSV_HEADER ++ String.concat "" (rows_appended evs))
    /\ Forall (fun row => has_double_comma row = true) (rows_appended evs)
    /\ header_writes evs = 0.
Proof.
  intros Hn Hw. inversion Hn as [|? ? Hu Hus]; subst. cbn [runs].
  pose proof (main_first u w Hu Hw) as T1.
  assert (X1 : csv (after (main u) w) <> None).
  { destruct T1 as (_ & _ & _ & _ & _ & X). apply X. discriminate. }
  pose proof (runs_track us (after (main u) w) Hus X1) as T2.
  destruct (csv_tracks_trans _ _ _ T1 T2) as (evs & T & C & D & H & X).
  exists evs. cbn [trace csv] in *. unfold after in *.
  rewrite T, <- app_assoc. repeat split; try assumption.
  apply csv_of_content; [apply X; discriminate | exact C].
Qed.


(* ================================================================= *)
(** ** The annotator, on drawing calls cv2 accepts *)

Lemma length_detection_ops (e : env) (wd : Z) (ds : list Detection) :
  forallb has_four_coordinates ds = true ->
  List.length (flat_map (detection_ops e wd) ds) = 3 * List.length ds.
Proof.
  induction ds as [|d ds IH]; intros H; [reflexivity|].
  cbn [forallb] in H. apply andb_true_iff in H as [Hd Hds].
  cbn [flat_map]. rewrite length_app, (IH Hds).
  destruct (four_coordinates d Hd) as (x1 & y1 & x2 & y2 & E).
  unfold detection_ops. rewrite E. cbn [List.length]. lia.
Qed.

(** X1.  On a readable image the annotator either draws every detection
    or none.  When each bounding box has four coordinates and cv2 accepts
    every drawing call (coordinates that fit a C int, a thickness cv2
    allows), it returns the image, same shape, with the box, the label
    background and the label of each detection drawn in order.  When some
    bounding box does not have four coordinates it raises and no image is
    returned, even if the malformed box comes last; the exception is a
    ValueError when cv2 accepts the drawing calls of the other boxes. *)
Theorem X1_annotator_all_or_nothing (e : env) (image_path : string) (img : Image)
    (antenna_detections : list Detection) :
  imread e image_path = Some img ->
  (forallb has_four_coordinates antenna_detections = true ->
   drawable e img antenna_detections = true ->
   exists img',
     draw_bounding_boxes e image_path antenna_detections = inr (Some img')
     /\ height img' = height img /\ width img' = width img
     /\ drawn img'
        = (drawn img ++ flat_map (detection_ops e (width img)) antenna_detections)%list
     /\ List.length (drawn img')
        = List.length (drawn img) + 3 * List.length antenna_detections
     /\ forallb cv2_accepts
          (skipn (List.length (drawn img)) (drawn img')) = true)
  /\ (forallb has_four_coordinates antenna_detections = false ->
      exists err,
        draw_bounding_boxes e image_path antenna_detections = inl err
        /\ (drawable e img antenna_detections = true ->
            exn_class err = "ValueError")).
Proof.
  intros Hi. split.
  - intros H D. exists (annotated e img antenna_detections).
    split; [now apply draw_bounding_boxes_four|].
    cbn [annotated height width drawn]. repeat split.
    + rewrite length_app. f_equal. now apply length_detection_ops.
    + rewrite skipn_app, skipn_all, Nat.sub_diag. exact D.
  - intros H.
    destruct (draw_bounding_boxes_other e image_path img antenna_detections Hi H)
      as (err & E & C).
    exists err. split; [exact E | intros _; exact C].
Qed.

Lemma X1_witness :
  exists img',
    draw_bounding_boxes (Sample.env_ok (Sample.ok Sample.tower1_result))
                        "API_results/tower1.jpg" [Sample.panel; Sample.dish]
    = inr (Some img')
    /\ height img' = 480%Z /\ width img' = 640%Z
    /\ drawn img'
       = ([] ++ flat_map (detection_ops (Sample.env_ok (Sample.ok Sample.tower1_result))
                                        640)
                         [Sample.panel; Sample.dish])%list
    /\ List.length (drawn img') = 0 + 3 * 2
    /\ forallb cv2_accepts (skipn 0 (drawn img')) = true.
Proof.
  exact (proj1 (X1_annotator_all_or_nothing
                  (Sample.env_ok (Sample.ok Sample.tower1_result))
                  "API_results/tower1.jpg" Sample.blank_image
                  [Sample.panel; Sample.dish] eq_refl)
               eq_refl eq_refl).
Defined.

(** X3.  The whole effect of a successful response with well-formed
    detections on a readable image, when cv2 accepts every drawing call:
    after the rows and the text, the table of detections, the annotated
    image written under [ANNOTATED_FOLDER] with the upload's own name, both
    images side by side, and a download named [annotated_<name>].  What
    [cv2.imwrite] returns is not looked at: when it reports that nothing
    was written, the image is still shown and the download still offered. *)
Theorem X3_detections_shown_and_offered (e : env) (file : UploadedFile)
    (response : Response) (result : Result) (img : Image) (written : bool)
    (w : world) :
  save_upload e = None ->
  open_upload e = None ->
  requests_post e = inr response ->
  status_code response = 200%Z ->
  json response = inr result ->
  open_csv e = None ->
  antenna_detections_of result <> [] ->
  forallb has_four_coordinates (antenna_detections_of result) = true ->
  imread e (path_join RESULTS_FOLDER (name file)) = Some img ->
  drawable e img (antenna_detections_of result) = true ->
  imwrite e = inr written ->
  open_annotated e = None ->
  let detections := antenna_detections_of result in
  let picture := annotated e img detections in
  process_image e file w
  = (and_then (recorded file result w)
       ([ st_subheader "📡 Antenna Detections"; st_dataframe detections ]
        ++ (if written
            then [image_written (path_join ANNOTATED_FOLDER (name file)) picture]
            else [])
        ++ [ st_columns 2;
             st_image_file (path_join RESULTS_FOLDER (name file)) "📷 Original Image";
             st_image_array picture "🖍 Annotated Image";
             st_download_button "📥 Download Annotated Image"
               (path_join ANNOTATED_FOLDER (name file)) ("annotated_" ++ name file) ]),
     inr tt).
Proof.
  intros Hs Ho Hp Hc Hj Hcsv Hd H4 Hi _ Hw Ha detections picture.
  rewrite (process_image_200_detections e file response result w) by assumption.
  cbv zeta. fold detections.
  rewrite (draw_bounding_boxes_four e _ img detections Hi H4), Hw, Ha.
  unfold and_then. cbn [csv trace]. f_equal. f_equal.
  rewrite <- !app_assoc. reflexivity.
Qed.

Lemma X3_witness :
  rows_appended
    (trace (after (process_image
                     {| save_upload := None; open_upload := None;
                        requests_post := inr (Sample.ok Sample.tower1_result);
                        open_csv := None;
                        imread := fun _ => Some Sample.blank_image;
                        getTextSize := fun _ _ _ => (120, 18)%Z;
                        imwrite := inr false;
                        open_annotated := None |}
                     Sample.tower1) Sample.started))
  = [ "tower1.jpg,TWR-001,,,, " ++ nl;
      "tower1.jpg,,1,panel,[10, 10, 50, 60],0.87" ++ nl ].
Proof.
  unfold after.
  rewrite (X3_detections_shown_and_offered
             {| save_upload := None; open_upload := None;
                requests_post := inr (Sample.ok Sample.tower1_result);
                open_csv := None;
                imread := fun _ => Some Sample.blank_image;
                getTextSize := fun _ _ _ => (120, 18)%Z;
                imwrite := inr false;
                open_annotated := None |}
             Sample.tower1 (Sample.ok Sample.tower1_result) Sample.tower1_result
             Sample.blank_image false Sample.started
             eq_refl eq_refl eq_refl eq_refl eq_refl eq_refl
             ltac:(discriminate) eq_refl eq_refl eq_refl eq_refl eq_refl).
  reflexivity.
Defined.

(** X5.  Failures once the image is annotated (with drawing calls cv2
    accepts).  When [cv2.imwrite] raises, nothing is shown after the table
    of detections.  When the written file cannot be opened for the
    download, the annotated image has been written and both images are
    shown, but no download is offered.  In both cases the rows stay in the
    CSV file and the error is reported. *)
Theorem X5_failure_after_annotation (e : env) (file : UploadedFile)
    (response : Response) (result : Result) (img : Image) (err : exn)
    (w : world) :
  save_upload e = None ->
  open_upload e = None ->
  requests_post e = inr response ->
  status_code response = 200%Z ->
  json response = inr result ->
  open_csv e = None ->
  antenna_detections_of result <> [] ->
  forallb has_four_coordinates (antenna_detections_of result) = true ->
  imread e (path_join RESULTS_FOLDER (name file)) = Some img ->
  drawable e img (antenna_detections_of result) = true ->
  let detections := antenna_detections_of result in
  let picture := annotated e img detections in
  (imwrite e = inl err ->
   process_image e file w
   = (and_then (recorded file result w)
        [ st_subheader "📡 Antenna Detections"; st_dataframe detections;
          error_report err ],
      inr tt))
  /\ (imwrite e = inr true -> open_annotated e = Some err ->
      process_image e file w
      = (and_then (recorded file result w)
           [ st_subheader "📡 Antenna Detections"; st_dataframe detections;
             image_written (path_join ANNOTATED_FOLDER (name file)) picture;
             st_columns 2;
             st_image_file (path_join RESULTS_FOLDER (name file)) "📷 Original Image";
             st_image_array picture "🖍 Annotated Image";
             error_report err ],
         inr tt)).
Proof.
  intros Hs Ho Hp Hc Hj Hcsv Hd H4 Hi _ detections picture.
  split.
  - intros Hw.
    rewrite (process_image_200_detections e file response result w) by assumption.
    cbv zeta. fold detections.
    rewrite (draw_bounding_boxes_four e _ img detections Hi H4), Hw.
    unfold and_then. cbn [csv trace]. now rewrite <- !app_assoc.
  - intros Hw Ha.
    rewrite (process_image_200_detections e file response result w) by assumption.
    cbv zeta. fold detections.
    rewrite (draw_bounding_boxes_four e _ img detections Hi H4), Hw, Ha.
    unfold and_then. cbn [csv trace]. now rewrite <- !app_assoc.
Qed.

Lemma X5_witness :
  process_image
    {| save_upload := None; open_upload := None;
       requests_post := inr (Sample.ok Sample.tower1_result);
       open_csv := None;
       imread := fun _ => Some Sample.blank_image;
       getTextSize := fun _ _ _ => (120, 18)%Z;
       imwrite := inl (Sample.error "could not find a writer");
       open_annotated := None |}
    Sample.tower1 Sample.started
  = (and_then (recorded Sample.tower1 Sample.tower1_result Sample.started)
       [ st_subheader "📡 Antenna Detections"; st_dataframe [Sample.panel];
         error_report (Sample.error "could not find a writer") ],
     inr tt).
Proof.
  destruct (X5_failure_after_annotation
              {| save_upload := None; open_upload := None;
                 requests_post := inr (Sample.ok Sample.tower1_result);
                 open_csv := None;
                 imread := fun _ => Some Sample.blank_image;
                 getTextSize := fun _ _ _ => (120, 18)%Z;
                 imwrite := inl (Sample.error "could not find a writer");
                 open_annotated := None |}
              Sample.tower1 (Sample.ok Sample.tower1_result) Sample.tower1_result
              Sample.blank_image (Sample.error "could not find a writer")
              Sample.started
              eq_refl eq_refl eq_refl eq_refl eq_refl eq_refl
              ltac:(discriminate) eq_refl eq_refl eq_refl)
    as [H _].
  apply H. reflexivity.
Defined.

(* ================================================================= *)
(** ** The upload and the results file *)

(** X7.  Saving the upload and [results.csv].  An upload that is itself
    named [results.csv] is saved over the CSV file: the file then holds the
    upload's bytes instead of the header and the earlier rows.  An upload
    whose name ends in one of the extensions the upload widgets allow
    (.jpg, .jpeg, .png) leaves the CSV file as it was. *)
Theorem X7_upload_named_like_results (e : env) (file : UploadedFile) (w : world) :
  save_upload e = None ->
  let saved :=
    after (write_upload e (path_join RESULTS_FOLDER (name file)) (getbuffer file)) w in
  (name file = "results.csv" -> csv saved = Some (getbuffer file))
  /\ (has_image_extension (name file) = true -> csv saved = csv w).
Proof.
  intros Hs saved. subst saved.
  unfold after, write_upload, bind, call, ret. rewrite Hs. cbn [fst csv].
  split; intros H.
  - apply upload_path_is_csv in H. rewrite H. now rewrite String.eqb_refl.
  - apply image_name_not_csv, String.eqb_neq in H. now rewrite H.
Qed.

Lemma X7_witness :
  csv (after (write_upload (Sample.env_ok Sample.server_error)
                (path_join RESULTS_FOLDER "results.csv") "JFIF")
             Sample.started)
  = Some "JFIF"
  /\ csv (after (write_upload (Sample.env_ok Sample.server_error)
                   (path_join RESULTS_FOLDER "tower1.jpg") "JFIF")
                Sample.started)
     = Some CSV_HEADER.
Proof.
  split.
  - apply (X7_upload_named_like_results (Sample.env_ok Sample.server_error)
             {| name := "results.csv"; getbuffer := "JFIF" |} Sample.started
             eq_refl).
    reflexivity.
  - apply (X7_upload_named_like_results (Sample.env_ok Sample.server_error)
             Sample.tower1 Sample.started eq_refl).
    reflexivity.
Defined.

Lemma runs_app (us us' : list uploads) (w : world) :
  runs (us ++ us') w = runs us' (runs us w).
Proof.
  revert w. induction us as [|u us IH]; intros w; cbn [runs app];
    [reflexivity | apply IH].
Qed.

(** X8.  With uploads the widgets let through (names ending in .jpg,
    .jpeg or .png) the results file only grows.  After any number of runs
    an existing file holds what it held before followed by exactly the
    rows recorded in these runs; further runs only add to the end; and a
    file that did not exist at the first run starts with the header
    line. *)
Theorem X8_results_file_only_grows (us us' : list uploads) (w : world) :
  Forall image_uploads us ->
  Forall image_uploads us' ->
  (forall c, csv w = Some c ->
     csv (runs us w)
     = Some (c ++ String.concat "" (rows_appended (new_events w (runs us w)))))
  /\ (forall c, csv (runs us w) = Some c ->
        exists s, csv (runs (us ++ us') w) = Some (c ++ s))
  /\ (csv w = None -> us <> [] ->
      exists s, csv (runs us w) = Some (CSV_HEADER ++ s)).
Proof.
  intros Hn Hn'.
  assert (G : forall vs v c, Forall image_uploads vs -> csv v = Some c ->
                csv (runs vs v)
                = Some (c ++ String.concat ""
                                 (rows_appended (new_events v (runs vs v))))).
  { intros vs v c Hv Hc.
    assert (X : csv v <> None) by congruence.
    destruct (runs_track vs v Hv X) as (evs & T & C & _ & _ & K).
    rewrite (new_events_app _ _ _ T).
    apply csv_of_content; [now apply K|].
    rewrite C. unfold csv_content. now rewrite Hc. }
  split; [|split].
  - intros c Hc. now apply G.
  - intros c Hc. rewrite runs_app. eexists. now apply G.
  - intros Hc Hne. destruct us as [|u us]; [congruence|].
    destruct (runs_from_nothing u us w Hn Hc) as (evs & _ & C & _).
    eexists. exact C.
Qed.

Lemma X8_witness :
  csv (runs [ {| uploaded_file := Some (Sample.tower1,
                    Sample.env_ok (Sample.ok Sample.tower1_result));
                 uploaded_files := [] |};
              {| uploaded_file := None;
                 uploaded_files :=
                   [(Sample.tower2,
                     Sample.env_ok (Sample.ok Sample.text_only_result))] |} ]
            Sample.started)
  = Some (CSV_HEADER
          ++ "tower1.jpg,TWR-001,,,, " ++ nl
          ++ "tower1.jpg,,1,panel,[10, 10, 50, 60],0.87" ++ nl
          ++ "tower2.png,TWR-001,,,, " ++ nl
          ++ "tower2.png,,0,No detection,N/A,N/A" ++ nl).
Proof.
  refine (eq_trans
            (proj1 (X8_results_file_only_grows
                      [ {| uploaded_file := Some (Sample.tower1,
                              Sample.env_ok (Sample.ok Sample.tower1_result));
                           uploaded_files := [] |};
                        {| uploaded_file := None;
                           uploaded_files :=
                             [(Sample.tower2,
                               Sample.env_ok (Sample.ok Sample.text_only_result))] |} ]
                      [] Sample.started
                      ltac:(repeat constructor) ltac:(constructor))
                   CSV_HEADER eq_refl) _).
  vm_compute. reflexivity.
Defined.

(* ================================================================= *)
(** ** Rows in the file for every parsed response *)

(** X14.  Once the API has answered 200 with a JSON body of the shape the
    code reads (the keys it looks up absent or holding an object, a string,
    a list of detections) and the CSV file opens, the rows of an image
    with an image name are appended to what [results.csv] holds, the same
    ones whatever the file already holds and whatever the annotator,
    [cv2.imwrite] or the download do afterwards.  Nothing is checked
    against earlier rows: processing the same upload again appends the
    same rows again. *)
Theorem X14_rows_appended_again (e : env) (file : UploadedFile)
    (response : Response) (result : Result) (c : string) (w : world) :
  save_upload e = None ->
  open_upload e = None ->
  requests_post e = inr response ->
  status_code response = 200%Z ->
  json response = inr result ->
  open_csv e = None ->
  has_image_extension (name file) = true ->
  csv w = Some c ->
  let rows := csv_rows (name file) (extracted_text_of result)
                       (antenna_detections_of result) in
  let once := after (process_image e file) w in
  let twice := after (process_image e file) once in
  csv once = Some (c ++ String.concat "" rows)
  /\ csv twice = Some (c ++ String.concat "" rows ++ String.concat "" rows)
  /\ rows_appended (new_events w once) = rows
  /\ rows_appended (new_events w twice) = (rows ++ rows)%list.
Proof.
  intros Hs Ho Hp Hc Hj Hcsv Hn Hw rows once twice.
  assert (G : forall v b, csv v = Some b ->
                csv (after (process_image e file) v)
                = Some (b ++ String.concat "" rows)
                /\ exists evs,
                     trace (after (process_image e file) v)
                     = (trace v ++ evs)%list
                     /\ rows_appended evs = rows).
  { intros v b Hv.
    assert (X : csv v <> None) by congruence.
    destruct (tracks_process_image e file Hn v) as (evs & T & C & _ & _ & K).
    pose proof (process_image_rows e file response result v
                  Hs Ho Hp Hc Hj Hcsv) as R.
    rewrite T, rows_appended_app in R. apply app_inv_head in R.
    split.
    - apply csv_of_content; [now apply K|].
      rewrite C, R. unfold csv_content. now rewrite Hv.
    - exists evs. split; assumption. }
  destruct (G w c Hw) as (C1 & evs1 & T1 & R1).
  destruct (G once _ C1) as (C2 & evs2 & T2 & R2).
  fold twice in C2, T2. fold once in T1.
  repeat split.
  - exact C1.
  - rewrite C2. now rewrite append_assoc.
  - now rewrite (new_events_app _ _ _ T1).
  - rewrite T1, <- app_assoc in T2.
    rewrite (new_events_app _ _ _ T2), rows_appended_app. congruence.
Qed.

Lemma X14_witness :
  csv (after (process_image (Sample.env_ok (Sample.ok Sample.text_only_result))
                            Sample.tower1)
         (after (process_image
                   (Sample.env_ok (Sample.ok Sample.text_only_result))
                   Sample.tower1)
                Sample.started))
  = Some (CSV_HEADER
          ++ "tower1.jpg,TWR-001,,,, " ++ nl
          ++ "tower1.jpg,,0,No detection,N/A,N/A" ++ nl
          ++ "tower1.jpg,TWR-001,,,, " ++ nl
          ++ "tower1.jpg,,0,No detection,N/A,N/A" ++ nl).
Proof.
  destruct (X14_rows_appended_again
              (Sample.env_ok (Sample.ok Sample.text_only_result)) Sample.tower1
              (Sample.ok Sample.text_only_result) Sample.text_only_result
              CSV_HEADER Sample.started
              eq_refl eq_refl eq_refl eq_refl eq_refl eq_refl eq_refl eq_refl)
    as (_ & H & _).
  refine (eq_trans H _). vm_compute. reflexivity.
Defined.

(* ================================================================= *)
(** ** Where a run pauses *)

Lemma produces_ret : produces (ret tt) (eq []).
Proof.
  intros w Hw. exists w, []. unfold ret. now rewrite app_nil_r.
Qed.

Lemma produces_emit (ev : event) : produces (emit ev) (eq [ev]).
Proof.
  intros w Hw. eexists _, [ev]. unfold emit. cbn [csv trace]. auto.
Qed.

Lemma produces_bind (c k : M unit) (P Q : list event -> Prop) :
  produces c P -> produces k Q -> produces (c ;; k) (followed_by P Q).
Proof.
  intros Hc Hk w Hw.
  destruct (Hc w Hw) as (w1 & evs1 & E1 & T1 & P1 & C1).
  destruct (Hk w1 C1) as (w2 & evs2 & E2 & T2 & P2 & C2).
  exists w2, (evs1 ++ evs2)%list. unfold bind. rewrite E1, E2, T2, T1, app_assoc.
  repeat split; try assumption. now exists evs1, evs2.
Qed.

Lemma produces_process_image (e : env) (file : UploadedFile) :
  produces (process_image e file) (file_events file).
Proof.
  intros w Hw.
  destruct (process_image_returns e file w) as (w' & E).
  assert (B : emits is_body_event
                (try_except (process_image_body e file)
                   (fun err => emit (sidebar_error
                      ("⚠️ Error processing image: " ++ exn_msg err))))).
  { apply emits_try_except; [apply emits_process_image_body|].
    intros err. now apply emits_emit. }
  destruct (B {| csv := csv w;
                 trace := trace w ++ [sidebar_write (processing_notice file)] |})
    as (seg & T & Q & K).
  unfold after in T, K. cbn [csv trace] in T, K.
  unfold process_image, bind at 1, emit at 1 in E.
  fold (processing_notice file) in E.
  rewrite E in T, K. cbn [fst] in T, K.
  exists w', (sidebar_write (processing_notice file) :: seg).
  split; [exact E|]. split; [now rewrite T, <- app_assoc|].
  split; [now exists seg | now apply K].
Qed.

Lemma produces_batch (files : list (UploadedFile * env)) :
  produces (for_each files (fun '(file, e) => process_image e file ;; emit (sleep 1)))
           (batch_events files).
Proof.
  induction files as [|[file e] files IH]; intros w Hw; cbn [for_each].
  - exists w, []. unfold ret. rewrite app_nil_r.
    repeat split; try assumption. exists []. repeat split. constructor.
  - destruct (produces_bind _ _ _ _
                (produces_bind _ _ _ _ (produces_process_image e file)
                               (produces_emit (sleep 1)))
                IH w Hw)
      as (w' & evs & E & T & (a & b & -> & (a1 & a2 & -> & (seg & -> & Q) & <-)
                               & (segs & -> & L & F)) & C).
    exists w', ((sidebar_write (processing_notice file) :: seg) ++ [sleep 1]
                ++ batch_trace (combine (map fst files) segs))%list.
    split; [exact E|]. split; [now rewrite T, <- app_assoc|].
    split; [|exact C].
    exists (seg :: segs). cbn [map fst combine batch_trace flat_map snd List.length].
    split; [|split; [now rewrite L | now constructor]].
    cbn [app]. now rewrite <- app_assoc.
Qed.

Lemma produces_download :
  produces
    (exists_csv <- (fun w => (w, inr (match csv w with Some _ => true | None => false end))) ;;
     if exists_csv : bool
     then emit (sidebar_download_button "📥 Download CSV Results" CSV_FILE "results.csv")
     else ret tt)
    (eq [csv_download]).
Proof.
  intros w Hw. unfold bind, emit, ret.
  destruct (csv w) as [c|] eqn:E; [|congruence].
  eexists _, [csv_download]. cbn [csv trace]. rewrite E.
  repeat split. discriminate.
Qed.

Lemma pauses_app (a b : list event) : pauses (a ++ b) = (pauses a ++ pauses b)%list.
Proof. apply flat_map_app. Qed.

Lemma pauses_body (seg : list event) :
  forallb is_body_event seg = true -> pauses seg = [].
Proof.
  induction seg as [|ev seg IH]; [reflexivity|].
  cbn [forallb]. intros H. apply andb_true_iff in H as [H1 H2].
  change (pauses (ev :: seg)) with (pause_of ev ++ pauses seg)%list.
  rewrite (IH H2).
  destruct ev; try discriminate H1; reflexivity.
Qed.

Lemma pauses_batch (files : list (UploadedFile * env)) (segs : list (list event)) :
  List.length segs = List.length files ->
  Forall (fun seg => forallb is_body_event seg = true) segs ->
  pauses (batch_trace (combine (map fst files) segs))
  = map (fun _ => 1%Z) files.
Proof.
  revert segs. induction files as [|p files IH]; intros segs L F.
  - reflexivity.
  - destruct segs as [|seg segs]; [discriminate L|].
    inversion F as [|? ? Hs Hss]; subst. injection L as L.
    change (batch_trace (combine (map fst (p :: files)) (seg :: segs)))
      with ([sidebar_write (processing_notice (fst p))]
            ++ (seg ++ [sleep 1])
            ++ batch_trace (combine (map fst files) segs))%list.
    rewrite !pauses_app, (pauses_body seg Hs), (IH segs L Hss). reflexivity.
Qed.

(** X13.  Where a run pauses.  The trace of a run is: what comes before
    the batch (start-up, the page, the single upload if there is one),
    none of it a pause; the second upload widget; then for each file of
    the batch, in order, its notice, events of its processing (none of
    them a pause, whether the file succeeded or failed), and a pause of one
    second; then the CSV download.  So the run pauses once after each
    file of the batch, the last one and the failed ones included, and
    nowhere else. *)
Theorem X13_one_pause_per_batch_file (u : uploads) (w : world) :
  exists w' pre segs,
    main u w = (w', inr tt)
    /\ trace w'
       = (trace w ++ pre
          ++ [sidebar_file_uploader "Upload Multiple Images"]
          ++ batch_trace (combine (map fst (uploaded_files u)) segs)
          ++ [csv_download])%list
    /\ List.length segs = List.length (uploaded_files u)
    /\ Forall (fun seg => forallb is_body_event seg = true) segs
    /\ pauses pre = []
    /\ pauses (new_events w w') = map (fun _ => 1%Z) (uploaded_files u).
Proof.
  destruct (startup_creates w) as (w0 & evs0 & E0 & T0 & C0).
  assert (P0 : pauses evs0 = []).
  { revert E0 T0. unfold startup, write_csv_header, bind, emit, ret.
    cbn [csv trace].
    destruct (csv w); cbn [negb csv trace]; intros E T;
      injection E as <-; cbn [trace] in T; rewrite <- ?app_assoc in T;
      apply app_inv_head in T; subst evs0; reflexivity. }
  assert (C : csv w0 <> None) by (rewrite C0; discriminate).
  assert (S : produces
                (match uploaded_file u with
                 | Some (file, e) => process_image e file
                 | None => ret tt
                 end)
                (fun evs => pauses evs = [])).
  { destruct (uploaded_file u) as [[file e]|].
    - intros v Hv.
      destruct (produces_process_image e file v Hv)
        as (v' & evs & E & T & (seg & -> & Q) & K).
      exists v', (sidebar_write (processing_notice file) :: seg).
      repeat split; try assumption.
      change (pauses ([sidebar_write (processing_notice file)] ++ seg) = []).
      now rewrite pauses_app, (pauses_body seg Q).
    - intros v Hv. destruct (produces_ret v Hv) as (v' & evs & E & T & <- & K).
      now exists v', []. }
  assert (B : produces
                (if nonempty (uploaded_files u)
                 then for_each (uploaded_files u) (fun '(file, e) =>
                        process_image e file ;;
                        emit (sleep 1))
                 else ret tt)
                (batch_events (uploaded_files u))).
  { destruct (uploaded_files u) as [|p files] eqn:Eu; cbn [nonempty].
    - intros v Hv. exists v, []. unfold ret. rewrite app_nil_r.
      repeat split; try assumption. exists []. repeat split. constructor.
    - apply produces_batch. }
  pose proof
    (produces_bind _ _ _ _ (produces_emit (st_title "📡 Tower - Antenna: AI Detection"))
      (produces_bind _ _ _ _
        (produces_emit
           (st_write "Upload images for **text extraction & antenna detection**"))
        (produces_bind _ _ _ _ (produces_emit (sidebar_header "📂 File Upload"))
          (produces_bind _ _ _ _
            (produces_emit (sidebar_file_uploader "Upload an Image"))
            (produces_bind _ _ _ _ S
              (produces_bind _ _ _ _
                (produces_emit (sidebar_file_uploader "Upload Multiple Images"))
                (produces_bind _ _ _ _ B produces_download)))))) w0 C) as H.
  destruct H as (w' & evs & E & T & H & K).
  destruct H as (a1 & r1 & -> & <- & a2 & r2 & -> & <- & a3 & r3 & -> & <-
                 & a4 & r4 & -> & <- & a5 & r5 & -> & P5
                 & a6 & r6 & -> & <- & a7 & r7 & -> & (segs & -> & L & F) & <-).
  exists w', (evs0 ++ page_head ++ a5)%list, segs.
  assert (Tw : trace w'
               = (trace w ++ (evs0 ++ page_head ++ a5)
                  ++ [sidebar_file_uploader "Upload Multiple Images"]
                  ++ batch_trace (combine (map fst (uploaded_files u)) segs)
                  ++ [csv_download])%list).
  { rewrite T, T0. unfold page_head. cbn [app]. rewrite <- !app_assoc.
    reflexivity. }
  assert (Pp : pauses (evs0 ++ page_head ++ a5) = []).
  { rewrite !pauses_app, P0, P5. reflexivity. }
  split; [|split; [exact Tw|split; [exact L|split; [exact F|split; [exact Pp|]]]]].
  - unfold main. unfold bind at 1. rewrite E0. exact E.
  - rewrite (new_events_app _ _ _ Tw).
    rewrite pauses_app, Pp, !pauses_app, (pauses_batch _ _ L F).
    cbn [app]. apply app_nil_r.
Qed.

(* ================================================================= *)
(** ** Lines added to the file *)

Lemma line_ends_app (a b : string) : line_ends (a ++ b) = line_ends a + line_ends b.
Proof. apply count_app. Qed.

Lemma line_ends_of_uint (d : Decimal.uint) :
  line_ends (NilEmpty.string_of_uint d) = 0.
Proof. unfold line_ends. induction d; simpl; auto. Qed.

Lemma line_ends_nilzero (d : Decimal.uint) :
  line_ends (NilZero.string_of_uint d) = 0.
Proof.
  unfold NilZero.string_of_uint.
  destruct d; try apply line_ends_of_uint; reflexivity.
Qed.

Lemma line_ends_of_nat (n : nat) : line_ends (PyStr.of_nat n) = 0.
Proof. apply line_ends_nilzero. Qed.

Lemma line_ends_of_Z (z : Z) : line_ends (PyStr.of_Z z) = 0.
Proof.
  unfold PyStr.of_Z, NilZero.string_of_int.
  destruct (Z.to_int z) as [d|d]; [apply line_ends_nilzero|].
  change (line_ends (String "-" (NilZero.string_of_uint d)))
    with (line_ends (NilZero.string_of_uint d)).
  apply line_ends_nilzero.
Qed.

Lemma line_ends_repeat_zero (n : nat) : line_ends (PyStr.repeat_char "0" n) = 0.
Proof. induction n as [|n IH]; [reflexivity | exact IH]. Qed.

Lemma line_ends_format_f (nd : nat) (x : float) :
  line_ends (PyFloat.format_f nd x) = 0.
Proof.
  assert (S : forall s, line_ends (PyFloat.sign s) = 0)
    by (intros [|]; reflexivity).
  assert (D : forall n, line_ends (PyFloat.digits nd n) = 0).
  { intros n. unfold PyFloat.digits. rewrite line_ends_app, line_ends_of_Z.
    destruct (Nat.eqb nd 0); [reflexivity|].
    unfold PyStr.rjust0.
    rewrite !line_ends_app, line_ends_repeat_zero, line_ends_of_Z. reflexivity. }
  unfold PyFloat.format_f.
  destruct (Prim2SF x); rewrite ?line_ends_app, ?S, ?D; reflexivity.
Qed.

Lemma line_ends_str_bbox (b : list Z) : line_ends (str_bbox b) = 0.
Proof.
  unfold str_bbox, PyStr.join. rewrite !line_ends_app.
  assert (J : line_ends (String.concat ", " (map PyStr.of_Z b)) = 0).
  { induction b as [|z b IH]; [reflexivity|].
    destruct b as [|z' b].
    - apply line_ends_of_Z.
    - change (String.concat ", " (map PyStr.of_Z (z :: z' :: b)))
        with (PyStr.of_Z z ++ ", " ++ String.concat ", " (map PyStr.of_Z (z' :: b))).
      rewrite !line_ends_app, line_ends_of_Z, IH. reflexivity. }
  rewrite J. reflexivity.
Qed.

Lemma line_ends_text_row (image_name extracted_text : string) :
  line_ends image_name = 0 -> line_ends extracted_text = 0 ->
  line_ends (text_row image_name extracted_text) = 1.
Proof.
  intros Hn Ht. unfold text_row.
  destruct (PyStr.truthy extracted_text);
    rewrite !line_ends_app, Hn, ?Ht; reflexivity.
Qed.

Lemma line_ends_detection_row (image_name : string) (total : nat) (d : Detection) :
  line_ends image_name = 0 -> line_ends (class_name d) = 0 ->
  line_ends (detection_row image_name total d) = 1.
Proof.
  intros Hn Hc. unfold detection_row.
  rewrite !line_ends_app, Hn, Hc, line_ends_of_nat, line_ends_str_bbox,
          line_ends_format_f.
  reflexivity.
Qed.

Lemma line_ends_detection_rows (image_name : string) (total : nat)
    (ds : list Detection) :
  line_ends image_name = 0 ->
  Forall (fun d => line_ends (class_name d) = 0) ds ->
  line_ends (String.concat "" (map (detection_row image_name total) ds))
  = List.length ds.
Proof.
  intros Hn. induction 1 as [|d ds Hd Hds IH]; [reflexivity|].
  cbn [map List.length]. rewrite concat_cons, line_ends_app, IH.
  now rewrite line_ends_detection_row.
Qed.

(** Rows that each end with a newline, put together, end with a newline. *)
Lemma rows_end_with_newline (c : string) (rows : list string) :
  rows <> [] ->
  Forall (fun row => exists line, row = line ++ nl) rows ->
  ends_with nl (c ++ String.concat "" rows) = true.
Proof.
  intros Hne F.
  assert (E : exists y, String.concat "" rows = y ++ nl).
  { induction F as [|r rows (line & ->) F IH]; [congruence|].
    destruct rows as [|r' rows].
    - exists line. cbn [String.concat]. reflexivity.
    - destruct IH as (y & Ey); [discriminate|].
      exists ((line ++ nl) ++ y). rewrite concat_cons, Ey.
      now rewrite !append_assoc. }
  destruct E as (y & ->). unfold ends_with.
  rewrite <- append_assoc, rev_app.
  change (PyStr.rev nl) with nl.
  generalize (PyStr.rev (c ++ y)). intros t.
  unfold nl. cbn [String.append String.prefix].
  destruct (ascii_dec _ _) as [_|N]; [destruct t; reflexivity | now contradiction N].
Qed.

Lemma csv_rows_end_with_newline (image_name extracted_text : string)
    (antenna_detections : list Detection) :
  Forall (fun row => exists line, row = line ++ nl)
         (csv_rows image_name extracted_text antenna_detections).
Proof.
  unfold csv_rows. constructor.
  - unfold text_row. destruct (PyStr.truthy extracted_text).
    + exists (image_name ++ "," ++ extracted_text ++ ",,,, ").
      now rewrite !append_assoc.
    + exists (image_name ++ ",No text found,,,, "). now rewrite !append_assoc.
  - destruct (nonempty antenna_detections).
    + apply Forall_forall. intros row Hr.
      apply in_map_iff in Hr as (d & <- & _). unfold detection_row.
      exists (image_name ++ ",," ++ PyStr.of_nat (List.length antenna_detections)
              ++ "," ++ class_name d ++ "," ++ str_bbox (bbox d) ++ ","
              ++ PyFloat.format_f 2 (confidence d)).
      now rewrite !append_assoc.
    + constructor; [|constructor]. unfold no_detection_row.
      exists (image_name ++ ",,0,No detection,N/A,N/A"). now rewrite !append_assoc.
Qed.

(** X10.  The lines one call of the recorder adds to [results.csv].  With
    an image name, a text and class names that hold no newline, and
    detections that each hold the three keys, the file grows by exactly
    one line for the text plus one line per detection, or one line when
    there is no detection, and it ends with a newline afterwards, so that
    the next call starts on a line of its own. *)
Theorem X10_number_of_rows (e : env) (image_name extracted_text : string)
    (antenna_detections : list Detection) (w : world) :
  open_csv e = None ->
  line_ends image_name = 0 ->
  line_ends extracted_text = 0 ->
  Forall (fun d => line_ends (class_name d) = 0) antenna_detections ->
  let w' := after (save_results_to_csv e image_name extracted_text
                                       antenna_detections) w in
  line_ends (csv_content w')
  = line_ends (csv_content w) + 1 + Nat.max 1 (List.length antenna_detections)
  /\ ends_with nl (csv_content w') = true.
Proof.
  intros Ho Hn Ht Hc w'. subst w'. unfold after.
  rewrite save_results_to_csv_appends by assumption.
  unfold csv_content at 1 3. cbn [fst csv dict_get].
  split.
  - unfold csv_rows. rewrite line_ends_app, concat_cons, line_ends_app.
    rewrite line_ends_text_row by assumption.
    destruct antenna_detections as [|d ds]; cbn [nonempty].
    + cbn [String.concat List.length]. unfold no_detection_row.
      rewrite line_ends_app, Hn.
      change (line_ends (",,0,No detection,N/A,N/A" ++ nl)) with 1.
      unfold csv_content. cbn [Nat.max]. lia.
    + rewrite line_ends_detection_rows by assumption.
      unfold csv_content. cbn [List.length]. lia.
  - apply rows_end_with_newline; [discriminate|].
    apply csv_rows_end_with_newline.
Qed.

Lemma X10_witness :
  line_ends (csv_content
               (after (save_results_to_csv
                         (Sample.env_ok (Sample.ok Sample.tower1_result))
                         "tower1.jpg" "TWR-001" [Sample.panel; Sample.dish])
                      Sample.started))
  = 4.
Proof.
  refine (eq_trans
            (proj1 (X10_number_of_rows
                      (Sample.env_ok (Sample.ok Sample.tower1_result))
                      "tower1.jpg" "TWR-001" [Sample.panel; Sample.dish]
                      Sample.started eq_refl eq_refl eq_refl
                      ltac:(repeat constructor))) _).
  reflexivity.
Defined.

(* ================================================================= *)
(** ** The header, once *)

(** With newline-free arguments every row of the recorder is one line,
    and the line holds two commas in a row. *)
Lemma csv_rows_single_lines (image_name extracted_text : string)
    (antenna_detections : list Detection) :
  line_ends image_name = 0 ->
  line_ends extracted_text = 0 ->
  Forall (fun d => line_ends (class_name d) = 0) antenna_detections ->
  Forall (fun row => exists line,
            row = line ++ nl /\ line_ends line = 0
            /\ has_double_comma line = true)
         (csv_rows image_name extracted_text antenna_detections).
Proof.
  intros Hn Ht Hc.
  assert (L : forall line, line_ends (line ++ nl) = 1 -> line_ends line = 0).
  { intros line H. rewrite line_ends_app in H.
    change (line_ends nl) with 1 in H. lia. }
  unfold csv_rows. constructor.
  - pose proof (line_ends_text_row image_name extracted_text Hn Ht) as T.
    unfold text_row in *. destruct (PyStr.truthy extracted_text).
    + exists (image_name ++ "," ++ extracted_text ++ ",,,, ").
      split; [now rewrite !append_assoc|]. split.
      * apply L. now rewrite !append_assoc.
      * change (image_name ++ "," ++ extracted_text ++ ",,,, ")
          with (image_name ++ "," ++ extracted_text
                ++ String "," (String "," ",, ")).
        rewrite <- !append_assoc. apply has_double_comma_app.
    + exists (image_name ++ ",No text found,,,, ").
      split; [now rewrite !append_assoc|]. split.
      * apply L. now rewrite !append_assoc.
      * change (image_name ++ ",No text found,,,, ")
          with (image_name ++ ",No text found" ++ String "," (String "," ",, ")).
        rewrite <- !append_assoc. apply has_double_comma_app.
  - destruct (nonempty antenna_detections).
    + apply Forall_forall. intros row Hr.
      apply in_map_iff in Hr as (d & <- & Hd).
      rewrite Forall_forall in Hc.
      pose proof (line_ends_detection_row image_name
                    (List.length antenna_detections) d Hn (Hc d Hd)) as T.
      unfold detection_row in *.
      exists (image_name ++ ",," ++ PyStr.of_nat (List.length antenna_detections)
              ++ "," ++ class_name d ++ "," ++ str_bbox (bbox d) ++ ","
              ++ PyFloat.format_f 2 (confidence d)).
      split; [now rewrite !append_assoc|]. split.
      * apply L. now rewrite !append_assoc.
      * apply has_double_comma_app.
    + constructor; [|constructor]. unfold no_detection_row.
      exists (image_name ++ ",,0,No detection,N/A,N/A").
      split; [now rewrite !append_assoc|]. split.
      * rewrite line_ends_app, Hn. reflexivity.
      * apply has_double_comma_app.
Qed.

(** C4.  Across any sequence of runs against the same CSV file the
    header line is written once and only once.  Start-up writes it when
    the file does not exist, as the whole content of the new file, and
    leaves an existing file as it is.  Every write of the recorder appends
    its rows to what the file holds, and no row it writes is the header
    line; when the image name, the text and the class names hold no
    newline, each row is a single line of the file, different from the
    header line.  So, with uploads the widgets let through, a file that did
    not exist at the first run is the header line followed by the rows
    recorded since, and the header was written exactly once, at the start
    of the first run. *)
Theorem C4_header_written_once (u : uploads) (us : list uploads) (w : world) :
  csv w = None ->
  startup w
  = ({| csv := Some CSV_HEADER;
        trace := trace w ++ [makedirs RESULTS_FOLDER; makedirs ANNOTATED_FOLDER;
                             csv_header_written CSV_HEADER] |}, inr tt)
  /\ (forall w' c,
        csv w' = Some c ->
        startup w'
        = ({| csv := Some c;
              trace := trace w' ++ [makedirs RESULTS_FOLDER;
                                    makedirs ANNOTATED_FOLDER] |}, inr tt))
  /\ (exists evs,
        trace (runs (u :: us) w)
        = (trace w
           ++ [makedirs RESULTS_FOLDER; makedirs ANNOTATED_FOLDER;
               csv_header_written CSV_HEADER]
           ++ evs)%list
        /\ header_writes evs = 0
        /\ header_writes (new_events w (runs (u :: us) w)) = 1)
  /\ (forall us' w', csv w' <> None ->
        header_writes (new_events w' (runs us' w')) = 0)
  /\ (forall e image_name extracted_text antenna_detections w',
        open_csv e = None ->
        let rows := csv_rows image_name extracted_text antenna_detections in
        save_results_to_csv e image_name extracted_text antenna_detections w'
        = ({| csv := Some (csv_content w' ++ String.concat "" rows);
              trace := trace w' ++ map csv_row_appended rows |}, inr tt)
        /\ Forall (fun row => row <> CSV_HEADER) rows
        /\ (line_ends image_name = 0 ->
            line_ends extracted_text = 0 ->
            Forall (fun d => line_ends (class_name d) = 0) antenna_detections ->
            Forall (fun row => exists line,
                      row = line ++ nl /\ line_ends line = 0
                      /\ line <> header_line) rows))
  /\ (Forall image_uploads (u :: us) ->
      let rows := rows_appended (new_events w (runs (u :: us) w)) in
      csv (runs (u :: us) w) = Some (CSV_HEADER ++ String.concat "" rows)
      /\ Forall (fun row => row <> CSV_HEADER) rows).
Proof.
  intros Hw.
  assert (P3 : exists evs,
             trace (runs (u :: us) w)
             = (trace w
                ++ [makedirs RESULTS_FOLDER; makedirs ANNOTATED_FOLDER;
                    csv_header_written CSV_HEADER]
                ++ evs)%list
             /\ header_writes evs = 0).
  { cbn [runs].
    destruct (main_header u w) as (evs & Ht & Hh & Hcsv). unfold after in *.
    destruct (runs_existing_csv us (fst (main u w)) Hcsv) as (evs' & Ht' & Hh' & _).
    rewrite Hw in Ht. cbn [app] in Ht.
    exists (evs ++ evs')%list.
    rewrite Ht', Ht. rewrite <- !app_assoc. cbn [app].
    split; [reflexivity|]. rewrite header_writes_app. lia. }
  split; [|split; [|split; [|split; [|split]]]].
  - unfold startup, write_csv_header, bind, emit, ret. cbn [csv trace].
    rewrite Hw. cbn [negb trace]. now rewrite <- !app_assoc.
  - intros w' c Hc.
    unfold startup, bind, emit, ret. cbn [csv trace].
    rewrite Hc. cbn [negb]. now rewrite <- app_assoc.
  - destruct P3 as (evs & T & H). exists evs. repeat split; try assumption.
    rewrite (new_events_app _ _ _ T).
    change (header_writes ([makedirs RESULTS_FOLDER; makedirs ANNOTATED_FOLDER;
                            csv_header_written CSV_HEADER] ++ evs) = 1).
    rewrite header_writes_app, H. reflexivity.
  - intros us' w' Hw'.
    destruct (runs_existing_csv us' w' Hw') as (evs & Ht & Hh & _).
    now rewrite (new_events_app _ _ _ Ht).
  - intros e image_name extracted_text antenna_detections w' Ho rows.
    split; [now apply save_results_to_csv_appends|]. split.
    + pose proof (csv_rows_double_comma image_name extracted_text
                    antenna_detections) as D.
      fold rows in D. rewrite Forall_forall in *. intros row Hr.
      apply double_comma_not_header. now apply D.
    + intros Hn Ht Hc.
      pose proof (csv_rows_single_lines image_name extracted_text
                    antenna_detections Hn Ht Hc) as D.
      fold rows in D. rewrite Forall_forall in *. intros row Hr.
      destruct (D row Hr) as (line & E & L & K).
      exists line. repeat split; try assumption.
      intros ->. vm_compute in K. discriminate K.
  - intros Hn rows.
    destruct (runs_from_nothing u us w Hn Hw) as (evs & T & C & D & H).
    subst rows. rewrite (new_events_app _ _ _ T).
    rewrite !rows_appended_app. cbn [rows_appended flat_map app].
    split; [exact C|].
    rewrite Forall_forall in *. intros row Hr.
    apply double_comma_not_header. now apply D.
Qed.

Lemma C4_witness :
  startup Sample.fresh
  = ({| csv := Some CSV_HEADER;
        trace := [makedirs RESULTS_FOLDER; makedirs ANNOTATED_FOLDER;
                  csv_header_written CSV_HEADER] |}, inr tt)
  /\ csv (runs [ {| uploaded_file := Some (Sample.tower1,
                       Sample.env_ok (Sample.ok Sample.tower1_result));
                    uploaded_files := [] |};
                 {| uploaded_file := None;
                    uploaded_files :=
                      [(Sample.tower2,
                        Sample.env_ok (Sample.ok Sample.text_only_result))] |} ]
               Sample.fresh)
     = Some (CSV_HEADER
             ++ "tower1.jpg,TWR-001,,,, " ++ nl
             ++ "tower1.jpg,,1,panel,[10, 10, 50, 60],0.87" ++ nl
             ++ "tower2.png,TWR-001,,,, " ++ nl
             ++ "tower2.png,,0,No detection,N/A,N/A" ++ nl).
Proof.
  destruct (C4_header_written_once
              {| uploaded_file := Some (Sample.tower1,
                    Sample.env_ok (Sample.ok Sample.tower1_result));
                 uploaded_files := [] |}
              [ {| uploaded_file := None;
                   uploaded_files :=
                     [(Sample.tower2,
                       Sample.env_ok (Sample.ok Sample.text_only_result))] |} ]
              Sample.fresh eq_refl) as (H1 & _ & _ & _ & _ & H6).
  split; [exact H1|].
  destruct H6 as [C _].
  - repeat constructor.
  - refine (eq_trans C _). vm_compute. reflexivity.
Defined.
